(** * ai-sdr-platform: decision orchestration core

    A shallow embedding of the decision core of the platform:
    - [negotiation_agent.py]   : the budget-constrained greedy auction;
    - [growthbook_mcp.py]      : feature gates, stale-flag detection and
                                 deterministic experiment bucketing;
    - [gtm_orchestrator.py]    : the event pipeline with its stage agents,
                                 [config_store.py] and [gtm_event_classifier.py];
    - [base_agent.py]          : the feature check of an agent;
    - [n8n.py] and [gtm.py]    : the webhook gateway and the event route.

    Conventions of the embedding.
    - A Python [str] is a [string]: the bytes of its UTF-8 encoding.
      Comparison and the substring test on these bytes are the ones of
      the text.  Case mapping, white space, the digits of [int()] and
      the iteration over characters are those of ASCII text: they are
      the ones of Python on the strings [Str.is_ascii] accepts, and a
      property that rests on them is stated for such strings.
    - A Python [float] is an IEEE-754 binary64 value, [spec_float] with
      precision 53 and maximal exponent 1024, rounded to nearest-even.
      A value the source declares a [float] is one.
    - A Python [int] is a [Z].
    - A Python [dict] is an association list in insertion order whose keys
      are pairwise distinct; assignment replaces in place or appends.
    - A Python exception is a value of [exn]; code that can raise returns
      a [result], and a method that writes to its object returns the
      object as it is after the call.
    - A [datetime] is a number of microseconds since the epoch, a [Z].
      The pipeline takes the reading of [datetime.utcnow()] as an
      argument; the feature gates read a clock, the sequence of the
      successive readings.
    - The values of an event payload and of an attribute mapping are
      scalars ([None], [bool], [int], [str]); decisions, actions and
      configuration values are JSON-like trees.
    - The configuration file is what reading it gives: no file, a
      content that cannot be read as a JSON object, or the entries of
      the object, each with what [WorkspaceConfig.model_validate] (the
      validation of pydantic, which is not part of the sources) makes
      of it: a configuration or an exception. *)

From Stdlib Require Import ZArith List String Ascii Bool Lia.
From Stdlib Require Import SpecFloat.
Import ListNotations.

Set Warnings "-register-all".

Local Open Scope string_scope.
Local Open Scope Z_scope.

(** ** Python exceptions and the result of a call *)

Inductive exn : Type :=
| KeyError (key : string)
| TypeError
| ValueError
| AttributeError
| OverflowError
| ZeroDivisionError
| JSONDecodeError
| ValidationError
| GraphRecursionError.

Inductive result (A : Type) : Type :=
| Ok (a : A)
| Raise (e : exn).

Arguments Ok {A} a.
Arguments Raise {A} e.

Definition bind {A B : Type} (r : result A) (k : A -> result B) : result B :=
  match r with
  | Ok a => k a
  | Raise e => Raise e
  end.

Declare Scope py_scope.
Delimit Scope py_scope with py.
Notation "x <- c ;; k" := (bind c (fun x => k))
  (at level 61, c at next level, right associativity) : py_scope.
Notation "' p <- c ;; k" := (bind c (fun p => k))
  (at level 61, p pattern, c at next level, right associativity) : py_scope.
Local Open Scope py_scope.

Definition returns {A : Type} (r : result A) : Prop := exists a, r = Ok a.

(** ** Python dictionaries *)

Section Dict.
Context {V : Type}.

Definition dict := list (string * V).

Fixpoint dict_get (k : string) (d : dict) : option V :=
  match d with
  | [] => None
  | (k', v) :: d' => if String.eqb k k' then Some v else dict_get k d'
  end.

(** [d[k] = v] *)
Fixpoint dict_set (k : string) (v : V) (d : dict) : dict :=
  match d with
  | [] => [(k, v)]
  | (k', v') :: d' =>
      if String.eqb k k' then (k, v) :: d' else (k', v') :: dict_set k v d'
  end.

(** [d[k]], raising [KeyError] *)
Definition dict_item (k : string) (d : dict) : result V :=
  match dict_get k d with
  | Some v => Ok v
  | None => Raise (KeyError k)
  end.

Definition dict_keys (d : dict) : list string := map fst d.
Definition dict_values (d : dict) : list V := map snd d.
Definition dict_mem (k : string) (d : dict) : bool :=
  match dict_get k d with Some _ => true | None => false end.
End Dict.

Arguments dict V : clear implicits.

(** ** Python floats and numbers *)

Definition float : Type := spec_float.

Module Float.
Definition prec : Z := 53.
Definition emax : Z := 1024.

Definition zero : float := S754_zero false.
Definition add : float -> float -> float := SFadd prec emax.
Definition mul : float -> float -> float := SFmul prec emax.
Definition div : float -> float -> float := SFdiv prec emax.
Definition eqb : float -> float -> bool := SFeqb.
Definition ltb : float -> float -> bool := SFltb.
Definition leb : float -> float -> bool := SFleb.

(** Nearest binary64 value of an integer (infinite when out of range). *)
Definition of_Z (z : Z) : float := binary_normalize prec emax z 0 false.

(** [float(n)] for an [int] n: [OverflowError] when n is too large. *)
Definition of_int (z : Z) : result float :=
  match of_Z z with
  | S754_infinity _ => Raise OverflowError
  | f => Ok f
  end.

(** Float true division: [ZeroDivisionError] on a zero divisor. *)
Definition truediv (x y : float) : result float :=
  if eqb y zero then Raise ZeroDivisionError else Ok (div x y).

(** Nearest integer of [a / b] for [0 < b], ties to even. *)
Definition div_half_even (a b : Z) : Z :=
  let q := a / b in
  let r := a mod b in
  match 2 * r ?= b with
  | Lt => q
  | Gt => q + 1
  | Eq => if Z.even q then q else q + 1
  end.

(** Correctly rounded binary64 value of [n / d] for [0 <= n], [0 < d],
    carrying sign [s]. *)
Definition nearest (s : bool) (n d : Z) : float :=
  match n with
  | Z0 => S754_zero s
  | _ =>
      let '(mz, ez, lz) := SFdiv_core_binary prec emax n 0 d 0 in
      binary_round_aux prec emax s mz ez lz
  end.

(** [round(x, ndigits)] on a float, [0 <= ndigits]: the exact value of
    [x] is rounded half-even to [ndigits] decimals, and the decimal is
    converted back to the nearest float; non-finite values and zeros
    round to themselves. *)
Definition round (x : float) (ndigits : nat) : float :=
  match x with
  | S754_finite s m e =>
      let p := 10 ^ Z.of_nat ndigits in
      let n := if 0 <=? e
               then Zpos m * 2 ^ e * p
               else div_half_even (Zpos m * p) (2 ^ (- e)) in
      nearest s n p
  | _ => x
  end.
End Float.

(** Every integer from 0 to 100 converts to a float. *)
Definition percent_convertible : bool :=
  forallb (fun n => match Float.of_int (Z.of_nat n) with
                    | Ok _ => true
                    | Raise _ => false
                    end) (seq 0 101).

(** A number that is an [int] or a [float], with Python's exact mixed
    comparison. *)
Inductive number : Type :=
| NInt (z : Z)
| NFloat (f : float).

Definition compare_int_float (a : Z) (y : float) : option comparison :=
  match y with
  | S754_nan => None
  | S754_infinity s => Some (if s then Gt else Lt)
  | S754_zero _ => Some (a ?= 0)
  | S754_finite s m e =>
      let v := if s then Zneg m else Zpos m in
      Some (if 0 <=? e then a ?= v * 2 ^ e else a * 2 ^ (- e) ?= v)
  end.

Definition number_compare (x y : number) : option comparison :=
  match x, y with
  | NInt a, NInt b => Some (a ?= b)
  | NFloat f, NFloat g => SFcompare f g
  | NInt a, NFloat g => compare_int_float a g
  | NFloat f, NInt b => option_map CompOpp (compare_int_float b f)
  end.

Definition number_ltb (x y : number) : bool :=
  match number_compare x y with Some Lt => true | _ => false end.

(** [sorted(items, key=..., reverse=True)]: the stable sort by descending
    key.  An element is placed before the first element whose key is not
    greater than its own, so equal keys keep their input order.  The keys
    sorted here are never NaN, so they are totally preordered and the
    stable sort is determined by this. *)
Section SortedReverse.
Context {A : Type} (key : A -> number).

Fixpoint insert_desc (x : A) (l : list A) : list A :=
  match l with
  | [] => [x]
  | y :: l' =>
      if number_ltb (key x) (key y) then y :: insert_desc x l'
      else x :: y :: l'
  end.

Definition sorted_reverse (l : list A) : list A :=
  fold_right insert_desc [] l.
End SortedReverse.

(** ** negotiation_agent.py *)

Module Negotiation.

Record NegotiationRequest : Type := {
  lead_id : string;
  agent_bids : dict float;
  quality_scores : dict Z;
  budget_limit : float
}.

(** [rationale] is the text "Selected {n} agents within ${budget}
    budget"; it is kept as the two values it renders, the number of
    selected agents and the budget. *)
Record NegotiationResponse : Type := {
  consensus_reached : bool;
  selected_agents : list string;
  total_cost : float;
  rationale : nat * float
}.

(** One iteration of the loop that fills [value_ratios]. *)
Definition value_ratio (request : NegotiationRequest)
    (value_ratios : dict number) (item : string * float)
  : result (dict number) :=
  let '(agent, bid) := item in
  let quality :=
    match dict_get agent (quality_scores request) with
    | Some q => q
    | None => 50
    end in
  if number_ltb (NInt 0) (NFloat bid) then
    qf <- Float.of_int quality ;;
    ratio <- Float.truediv qf bid ;;
    Ok (dict_set agent (NFloat ratio) value_ratios)
  else Ok (dict_set agent (NInt quality) value_ratios).

Fixpoint value_ratios_loop (request : NegotiationRequest)
    (items : list (string * float)) (value_ratios : dict number)
  : result (dict number) :=
  match items with
  | [] => Ok value_ratios
  | item :: items' =>
      vr <- value_ratio request value_ratios item ;;
      value_ratios_loop request items' vr
  end.

(** One iteration of the selection loop on [(selected, total_cost)]. *)
Definition select_step (request : NegotiationRequest)
    (st : list string * float) (entry : string * number)
  : result (list string * float) :=
  let '(selected, total_cost) := st in
  let '(agent, _) := entry in
  agent_cost <- dict_item agent (agent_bids request) ;;
  if Float.leb (Float.add total_cost agent_cost) (budget_limit request)
  then Ok ((selected ++ [agent])%list, Float.add total_cost agent_cost)
  else Ok (selected, total_cost).

Fixpoint select_loop (request : NegotiationRequest)
    (sorted_agents : list (string * number)) (st : list string * float)
  : result (list string * float) :=
  match sorted_agents with
  | [] => Ok st
  | entry :: rest =>
      st' <- select_step request st entry ;;
      select_loop request rest st'
  end.

(** The selection and the accumulated cost when the loop ends. *)
Definition auction_selection (request : NegotiationRequest)
  : result (list string * float) :=
  value_ratios <- value_ratios_loop request (agent_bids request) [] ;;
  let sorted_agents := sorted_reverse snd value_ratios in
  select_loop request sorted_agents ([], Float.zero).

Definition run_auction (request : NegotiationRequest)
  : result NegotiationResponse :=
  '(selected, total_cost) <- auction_selection request ;;
  let consensus := (2 <=? List.length selected)%nat in
  Ok {| consensus_reached := consensus;
        selected_agents := selected;
        total_cost := Float.round total_cost 4;
        rationale := (List.length selected, budget_limit request) |}.

(** The bid of an agent, as the selection loop reads it. *)
Definition bid_of (request : NegotiationRequest) (agent : string) : float :=
  match dict_get agent (agent_bids request) with
  | Some cost => cost
  | None => Float.zero
  end.

(** The cost accumulated over the accepted agents, in the order of
    their acceptance. *)
Definition accepted_cost (request : NegotiationRequest)
    (agents : list string) : float :=
  fold_left (fun total agent => Float.add total (bid_of request agent))
    agents Float.zero.

Definition quality_in_range (request : NegotiationRequest) : Prop :=
  forall agent q,
    dict_get agent (quality_scores request) = Some q -> 0 <= q <= 100.

(** Some requests. *)
Definition f_0_05 : float := S754_finite false 7205759403792794 (-57).
Definition f_0_10 : float := S754_finite false 7205759403792794 (-56).
Definition f_0_15 : float := S754_finite false 5404319552844595 (-55).
Definition f_0_20 : float := S754_finite false 7205759403792794 (-55).
Definition f_0_00006 : float := S754_finite false 8854437155380585 (-67).
Definition f_0_0001 : float := S754_finite false 7378697629483821 (-66).

(** bids A 0.05, B 0.10, C 0.20; quality 90, 95, 50; budget 0.20 *)
Definition scenario_request : NegotiationRequest :=
  {| lead_id := "lead-1";
     agent_bids := [("A", f_0_05); ("B", f_0_10); ("C", f_0_20)];
     quality_scores := [("A", 90); ("B", 95); ("C", 50)];
     budget_limit := f_0_20 |}.

Definition scenario_response : NegotiationResponse :=
  {| consensus_reached := true;
     selected_agents := ["A"; "B"];
     total_cost := f_0_15;
     rationale := (2%nat, f_0_20) |}.

(** one bid of 0.00006 under a budget of 0.00006 *)
Definition rounding_request : NegotiationRequest :=
  {| lead_id := "lead-2";
     agent_bids := [("research", f_0_00006)];
     quality_scores := [("research", 80)];
     budget_limit := f_0_00006 |}.

(** two bids of cost 0.0 under a budget of 0 *)
Definition free_bids_request : NegotiationRequest :=
  {| lead_id := "lead-3";
     agent_bids := [("timing", Float.zero); ("qualification", Float.zero)];
     quality_scores := [("timing", 60); ("qualification", 60)];
     budget_limit := Float.zero |}.

(** two positive bids under a budget of 0 *)
Definition no_budget_request : NegotiationRequest :=
  {| lead_id := "lead-4";
     agent_bids := [("research", f_0_05); ("copywriting", f_0_10)];
     quality_scores := [("research", 85)];
     budget_limit := Float.zero |}.

(** What the auction answers when it selects nobody. *)
Definition empty_response (budget : float) : NegotiationResponse :=
  {| consensus_reached := false;
     selected_agents := [];
     total_cost := Float.zero;
     rationale := (0%nat, budget) |}.

End Negotiation.


(** ** Python strings *)

Module Str.
Definition code (c : ascii) : Z := Z.of_N (N_of_ascii c).

(** Text of ASCII characters only. *)
Fixpoint is_ascii (s : string) : bool :=
  match s with
  | EmptyString => true
  | String c s' => (code c <? 128) && is_ascii s'
  end.

(** [str.lower()] on ASCII text: only [A]-[Z] change.  Beyond ASCII
    Python maps case by the Unicode tables of the interpreter, which
    are not modelled. *)
Definition lower_char (c : ascii) : ascii :=
  if (65 <=? code c) && (code c <=? 90)
  then ascii_of_N (N_of_ascii c + 32) else c.

Fixpoint lower (s : string) : string :=
  match s with
  | EmptyString => EmptyString
  | String c s' => String (lower_char c) (lower s')
  end.

(** ASCII white space, as [str.isspace] has it: the six characters of
    C's [isspace] and the separators 28 to 31.  Unicode white space
    beyond ASCII is not modelled. *)
Definition is_space (c : ascii) : bool :=
  ((9 <=? code c) && (code c <=? 13))
  || ((28 <=? code c) && (code c <=? 32)).

Fixpoint lstrip (s : string) : string :=
  match s with
  | EmptyString => EmptyString
  | String c s' => if is_space c then lstrip s' else s
  end.

Fixpoint rstrip (s : string) : string :=
  match s with
  | EmptyString => EmptyString
  | String c s' =>
      match rstrip s' with
      | EmptyString => if is_space c then EmptyString else String c EmptyString
      | r => String c r
      end
  end.

(** [s.strip()] *)
Definition strip (s : string) : string := rstrip (lstrip s).

(** [needle in hay] *)
Fixpoint contains (needle hay : string) : bool :=
  if String.prefix needle hay then true
  else match hay with
       | EmptyString => false
       | String _ hay' => contains needle hay'
       end.

(** [s.split(sep, 1)[1]] for a one-character [sep] that occurs in [s]:
    what follows its first occurrence. *)
Fixpoint after_first (sep : ascii) (s : string) : option string :=
  match s with
  | EmptyString => None
  | String c s' => if Ascii.eqb c sep then Some s' else after_first sep s'
  end.

Definition is_empty (s : string) : bool :=
  match s with EmptyString => true | _ => false end.

(** Decimal rendering of an [int], as [str(n)] gives it. *)
Fixpoint digits_of_pos (fuel : nat) (n : Z) (acc : string) : string :=
  match fuel with
  | O => acc
  | S fuel' =>
      let acc' := String (ascii_of_N (Z.to_N (48 + n mod 10))) acc in
      if n / 10 =? 0 then acc' else digits_of_pos fuel' (n / 10) acc'
  end.

Definition of_int (z : Z) : string :=
  let a := Z.abs z in
  let ds := digits_of_pos (S (Z.to_nat (Z.log2 a))) a EmptyString in
  if z <? 0 then String "-"%char ds else ds.

Definition is_digit (c : ascii) : bool := (48 <=? code c) && (code c <=? 57).

(** The digits of a literal: ASCII digits, single underscores allowed
    between two digits.  [prev] tells whether the previous character
    was a digit. *)
Fixpoint parse_digits (s : string) (acc : Z) (prev : bool) : option Z :=
  match s with
  | EmptyString => if prev then Some acc else None
  | String c s' =>
      if is_digit c then parse_digits s' (10 * acc + (code c - 48)) true
      else if Ascii.eqb c "_"%char && prev then parse_digits s' acc false
      else None
  end.

(** The white space [int()] skips around a literal.  Of the ASCII
    characters these are the six of C's [isspace]: the separators 28 to
    31, which [str.strip] removes, are not among them. *)
Definition is_c_space (c : ascii) : bool :=
  ((9 <=? code c) && (code c <=? 13)) || (code c =? 32).

Fixpoint skip_left (s : string) : string :=
  match s with
  | EmptyString => EmptyString
  | String c s' => if is_c_space c then skip_left s' else s
  end.

Fixpoint skip_right (s : string) : string :=
  match s with
  | EmptyString => EmptyString
  | String c s' =>
      match skip_right s' with
      | EmptyString =>
          if is_c_space c then EmptyString else String c EmptyString
      | r => String c r
      end
  end.

(** CPython's default bound on the digits that [int()] reads and
    [str()] writes ([sys.int_info.default_max_str_digits], since
    Python 3.11). *)
Definition max_str_digits : nat := 4300.

Fixpoint count_digits (s : string) : nat :=
  match s with
  | EmptyString => O
  | String c s' => ((if is_digit c then 1 else 0) + count_digits s')%nat
  end.

(** [int(s)] for a string of ASCII characters: surrounding white
    space, an optional sign, then decimal digits, no more of them than
    the bound; [ValueError] otherwise.  The Unicode digits and white
    space that [int()] also takes are not modelled. *)
Definition to_int (s : string) : result Z :=
  let body := skip_right (skip_left s) in
  let parsed :=
    match body with
    | String "-"%char r => option_map Z.opp (parse_digits r 0 false)
    | String "+"%char r => parse_digits r 0 false
    | _ => parse_digits body 0 false
    end in
  match parsed with
  | Some z =>
      if (max_str_digits <? count_digits body)%nat then Raise ValueError
      else Ok z
  | None => Raise ValueError
  end.

(** Insertion sort of strings, [sorted(list_of_str)]. *)
Fixpoint insert_sorted (x : string) (l : list string) : list string :=
  match l with
  | [] => [x]
  | y :: l' => if String.ltb y x then y :: insert_sorted x l'
               else x :: y :: l'
  end.

Definition sorted (l : list string) : list string :=
  fold_right insert_sorted [] l.

Definition mem (x : string) (l : list string) : bool :=
  existsb (String.eqb x) l.
End Str.

(** ** Python values *)

(** Scalars: what an event payload or an attribute mapping carries
    ([None], [bool], [int], [str]). *)
Inductive scalar : Type :=
| SNone
| SBool (b : bool)
| SInt (z : Z)
| SStr (s : string).

(** A scalar or a list of scalars: the comparison value and the override
    value of a targeting rule. *)
Inductive pyval : Type :=
| VScalar (s : scalar)
| VList (l : list scalar).

(** JSON-like data: decisions, actions and configuration values. *)
Inductive json : Type :=
| JNone
| JBool (b : bool)
| JInt (z : Z)
| JFloat (f : float)
| JStr (s : string)
| JList (l : list json)
| JDict (d : list (string * json)).

Module Py.
(** Truth value of a scalar. *)
Definition truthy (v : scalar) : bool :=
  match v with
  | SNone => false
  | SBool b => b
  | SInt z => negb (z =? 0)
  | SStr s => negb (Str.is_empty s)
  end.

(** [d.get(k)]: [None] when the key is absent. *)
Definition get (k : string) (d : dict scalar) : scalar :=
  match dict_get k d with
  | Some v => v
  | None => SNone
  end.

(** [a or b] *)
Definition or_else (a b : scalar) : scalar := if truthy a then a else b.

(** [str(v)]; for an [int] within the bound on the digits. *)
Definition str (v : scalar) : string :=
  match v with
  | SNone => "None"
  | SBool true => "True"
  | SBool false => "False"
  | SInt z => Str.of_int z
  | SStr s => s
  end.

(** [int(v)] *)
Definition int (v : scalar) : result Z :=
  match v with
  | SNone => Raise TypeError
  | SBool b => Ok (if b then 1 else 0)
  | SInt z => Ok z
  | SStr s => Str.to_int s
  end.

(** The integer a [bool] or an [int] stands for. *)
Definition as_int (v : scalar) : option Z :=
  match v with
  | SBool b => Some (if b then 1 else 0)
  | SInt z => Some z
  | _ => None
  end.

(** [a == b] *)
Definition eq (a b : scalar) : bool :=
  match a, b with
  | SNone, SNone => true
  | SStr s, SStr t => String.eqb s t
  | _, _ =>
      match as_int a, as_int b with
      | Some x, Some y => x =? y
      | _, _ => false
      end
  end.

(** [a < b]: numbers with numbers, strings with strings, [TypeError]
    otherwise. *)
Definition lt (a b : scalar) : result bool :=
  match a, b with
  | SStr s, SStr t => Ok (String.ltb s t)
  | _, _ =>
      match as_int a, as_int b with
      | Some x, Some y => Ok (x <? y)
      | _, _ => Raise TypeError
      end
  end.

(** [a > b] *)
Definition gt (a b : scalar) : result bool := lt b a.

Definition of_scalar (v : scalar) : json :=
  match v with
  | SNone => JNone
  | SBool b => JBool b
  | SInt z => JInt z
  | SStr s => JStr s
  end.

(** A payload as the value stored under ["record"]. *)
Definition of_payload (p : dict scalar) : json :=
  JDict (map (fun kv => (fst kv, of_scalar (snd kv))) p).

Definition str_list (l : list string) : json := JList (map JStr l).
End Py.

(** ** hashlib.md5 *)

Module MD5.
Definition mask32 (x : Z) : Z := x mod 2 ^ 32.
Definition not32 (x : Z) : Z := Z.lxor x (2 ^ 32 - 1).
Definition rotl (x c : Z) : Z :=
  mask32 (Z.lor (Z.shiftl x c) (Z.shiftr x (32 - c))).

Definition shifts : list Z :=
  [7; 12; 17; 22; 7; 12; 17; 22; 7; 12; 17; 22; 7; 12; 17; 22;
   5; 9; 14; 20; 5; 9; 14; 20; 5; 9; 14; 20; 5; 9; 14; 20;
   4; 11; 16; 23; 4; 11; 16; 23; 4; 11; 16; 23; 4; 11; 16; 23;
   6; 10; 15; 21; 6; 10; 15; 21; 6; 10; 15; 21; 6; 10; 15; 21].

Definition sines : list Z :=
  [3614090360; 3905402710; 606105819; 3250441966; 4118548399; 1200080426;
   2821735955; 4249261313; 1770035416; 2336552879; 4294925233; 2304563134;
   1804603682; 4254626195; 2792965006; 1236535329; 4129170786; 3225465664;
   643717713; 3921069994; 3593408605; 38016083; 3634488961; 3889429448;
   568446438; 3275163606; 4107603335; 1163531501; 2850285829; 4243563512;
   1735328473; 2368359562; 4294588738; 2272392833; 1839030562; 4259657740;
   2763975236; 1272893353; 4139469664; 3200236656; 681279174; 3936430074;
   3572445317; 76029189; 3654602809; 3873151461; 530742520; 3299628645;
   4096336452; 1126891415; 2878612391; 4237533241; 1700485571; 2399980690;
   4293915773; 2240044497; 1873313359; 4264355552; 2734768916; 1309151649;
   4149444226; 3174756917; 718787259; 3951481745].

(** [n] little-endian bytes of [x]. *)
Fixpoint le_bytes (n : nat) (x : Z) : list Z :=
  match n with
  | O => []
  | S n' => (x mod 256) :: le_bytes n' (x / 256)
  end.

(** The message followed by [0x80], zeros up to 56 modulo 64, and the
    bit length on 8 bytes. *)
Definition pad (msg : list Z) : list Z :=
  let len := Z.of_nat (List.length msg) in
  (msg ++ [128] ++ repeat 0 (Z.to_nat ((55 - len) mod 64))
       ++ le_bytes 8 (8 * len))%list.

(** The 32-bit little-endian word number [g] of a block. *)
Definition word (block : list Z) (g : nat) : Z :=
  nth (4 * g) block 0 + 256 * nth (4 * g + 1) block 0
  + 65536 * nth (4 * g + 2) block 0 + 16777216 * nth (4 * g + 3) block 0.

Definition round_step (block : list Z) (st : Z * Z * Z * Z) (i : nat)
  : Z * Z * Z * Z :=
  let '(a, b, c, d) := st in
  let '(f, g) :=
    match (i / 16)%nat with
    | 0%nat => (Z.lor (Z.land b c) (Z.land (not32 b) d), i)
    | 1%nat => (Z.lor (Z.land d b) (Z.land (not32 d) c), ((5 * i + 1) mod 16)%nat)
    | 2%nat => (Z.lxor b (Z.lxor c d), ((3 * i + 5) mod 16)%nat)
    | _ => (Z.lxor c (Z.lor b (not32 d)), ((7 * i) mod 16)%nat)
    end in
  let f' := mask32 (f + a + nth i sines 0 + word block g) in
  (d, mask32 (b + rotl f' (nth i shifts 0)), b, c).

Definition compress (st : Z * Z * Z * Z) (block : list Z) : Z * Z * Z * Z :=
  let '(a0, b0, c0, d0) := st in
  let '(a, b, c, d) := fold_left (round_step block) (seq 0 64) st in
  (mask32 (a0 + a), mask32 (b0 + b), mask32 (c0 + c), mask32 (d0 + d)).

Fixpoint blocks (fuel : nat) (bytes : list Z) : list (list Z) :=
  match fuel with
  | O => []
  | S fuel' =>
      match bytes with
      | [] => []
      | _ => firstn 64 bytes :: blocks fuel' (skipn 64 bytes)
      end
  end.

(** The 16 bytes of the digest. *)
Definition digest (msg : list Z) : list Z :=
  let padded := pad msg in
  let '(a, b, c, d) :=
    fold_left compress (blocks (List.length padded) padded)
      (1732584193, 4023233417, 2562383102, 271733878) in
  (le_bytes 4 a ++ le_bytes 4 b ++ le_bytes 4 c ++ le_bytes 4 d)%list.

(** [s.encode()] *)
Definition encode (s : string) : list Z :=
  map Str.code (list_ascii_of_string s).

(** [int(hashlib.md5(s.encode()).hexdigest(), 16)] *)
Definition hexdigest_int (s : string) : Z :=
  fold_left (fun acc byte => 256 * acc + byte) (digest (encode s)) 0.
End MD5.

(** Arithmetic on numbers, with Python's conversions: an [int] meeting
    a [float] is converted first. *)
Definition number_geb (x y : number) : bool :=
  match number_compare x y with Some (Gt | Eq) => true | _ => false end.

Definition number_add (x y : number) : result number :=
  match x, y with
  | NInt a, NInt b => Ok (NInt (a + b))
  | NInt a, NFloat g => f <- Float.of_int a ;; Ok (NFloat (Float.add f g))
  | NFloat f, NInt b => g <- Float.of_int b ;; Ok (NFloat (Float.add f g))
  | NFloat f, NFloat g => Ok (NFloat (Float.add f g))
  end.

Definition number_mul (x y : number) : result number :=
  match x, y with
  | NInt a, NInt b => Ok (NInt (a * b))
  | NInt a, NFloat g => f <- Float.of_int a ;; Ok (NFloat (Float.mul f g))
  | NFloat f, NInt b => g <- Float.of_int b ;; Ok (NFloat (Float.mul f g))
  | NFloat f, NFloat g => Ok (NFloat (Float.mul f g))
  end.

(** [x / y]: always a float; two ints give the correctly rounded
    quotient. *)
Definition number_truediv (x y : number) : result number :=
  match x, y with
  | NInt a, NInt b =>
      if b =? 0 then Raise ZeroDivisionError
      else
        match Float.nearest (xorb (a <? 0) (b <? 0)) (Z.abs a) (Z.abs b) with
        | S754_infinity _ => Raise OverflowError
        | q => Ok (NFloat q)
        end
  | NInt a, NFloat g =>
      f <- Float.of_int a ;; q <- Float.truediv f g ;; Ok (NFloat q)
  | NFloat f, NInt b =>
      g <- Float.of_int b ;; q <- Float.truediv f g ;; Ok (NFloat q)
  | NFloat f, NFloat g => q <- Float.truediv f g ;; Ok (NFloat q)
  end.

(** ** growthbook_mcp.py *)

Module GrowthBook.

(** A [datetime]: microseconds since the epoch.  The successive
    readings of [datetime.utcnow()] are a [clock]; a call that reads
    the clock takes the number of readings made so far and returns the
    new count. *)
Definition datetime : Type := Z.
Definition clock : Type := nat -> datetime.

Definition microseconds_per_day : Z := 86400 * 1000000.

(** [(a - b).days] *)
Definition timedelta_days (a b : datetime) : Z :=
  (a - b) / microseconds_per_day.

Inductive FeatureStatus : Type :=
| ACTIVE | STALE | PERMANENT | DRAFT_FLAG.

Inductive ExperimentStatus : Type :=
| DRAFT | RUNNING | STOPPED | ARCHIVED.

Definition ExperimentStatus_eqb (a b : ExperimentStatus) : bool :=
  match a, b with
  | DRAFT, DRAFT | RUNNING, RUNNING | STOPPED, STOPPED
  | ARCHIVED, ARCHIVED => true
  | _, _ => false
  end.

(** A targeting rule is a dict [{"condition": {"attribute", "operator",
    "value"}, "value"}]; an entry that is absent is [None] here. *)
Record Condition : Type := {
  attribute : option string;
  operator : option string;
  value : option pyval
}.

Record Rule : Type := {
  condition : option Condition;
  rule_value : option pyval
}.

Record FeatureFlag : Type := {
  key : string;
  description : string;
  enabled : bool;
  default_value : pyval;
  rules : list Rule;
  status : FeatureStatus;
  environment : string;
  created_at : datetime;
  updated_at : datetime;
  last_evaluated : option datetime
}.

(** A variation is a dict with optional ["key"], ["name"], ["weight"]. *)
Record Variation : Type := {
  var_key : option string;
  var_name : option string;
  var_weight : option number
}.

Record Experiment : Type := {
  exp_key : string;
  exp_name : string;
  exp_hypothesis : string;
  exp_status : ExperimentStatus;
  exp_variations : list Variation;
  exp_weights : list number;
  exp_metrics : list string;
  exp_targeting_rules : list Rule;
  exp_traffic_percent : number;
  exp_created_at : datetime;
  exp_started_at : option datetime;
  exp_ended_at : option datetime
}.

Record DynamicConfig : Type := {
  cfg_key : string;
  cfg_description : string;
  cfg_value : dict json;
  cfg_environment : string;
  cfg_created_at : datetime;
  cfg_updated_at : datetime
}.

(** An entry of the evaluation log; the timestamp is kept as a
    [datetime] rather than as its ISO rendering. *)
Record Evaluation : Type := {
  log_timestamp : datetime;
  log_feature_key : string;
  log_value : pyval;
  log_attributes : option (dict scalar)
}.

Record GrowthBookClient : Type := {
  local_mode : bool;
  _features : dict FeatureFlag;
  _experiments : dict Experiment;
  _configs : dict DynamicConfig;
  _evaluation_log : list Evaluation
}.

Definition set_last_evaluated (t : datetime) (f : FeatureFlag) : FeatureFlag :=
  {| key := key f; description := description f; enabled := enabled f;
     default_value := default_value f; rules := rules f;
     status := status f; environment := environment f;
     created_at := created_at f; updated_at := updated_at f;
     last_evaluated := Some t |}.

Definition set_features (fs : dict FeatureFlag) (c : GrowthBookClient)
  : GrowthBookClient :=
  {| local_mode := local_mode c; _features := fs;
     _experiments := _experiments c; _configs := _configs c;
     _evaluation_log := _evaluation_log c |}.

(** [FeatureFlag.is_stale] *)
Definition is_stale (clk : clock) (n : nat) (f : FeatureFlag) (days : Z)
  : bool * nat :=
  match last_evaluated f with
  | None => (true, n)
  | Some t => (days <? timedelta_days (clk n) t, S n)
  end.

(** *** Comparison operators of a rule *)

Definition op_equals (attr_value : scalar) (target_value : pyval) : bool :=
  match target_value with
  | VScalar t => Py.eq attr_value t
  | VList _ => false
  end.

(** [target_value in str(attr_value)] *)
Definition op_contains (attr_value : scalar) (target_value : pyval)
  : result bool :=
  match target_value with
  | VScalar (SStr t) => Ok (Str.contains t (Py.str attr_value))
  | _ => Raise TypeError
  end.

Definition op_greater_than (attr_value : scalar) (target_value : pyval)
  : result bool :=
  match target_value with
  | VScalar t => Py.gt attr_value t
  | VList _ => Raise TypeError
  end.

Definition op_less_than (attr_value : scalar) (target_value : pyval)
  : result bool :=
  match target_value with
  | VScalar t => Py.lt attr_value t
  | VList _ => Raise TypeError
  end.

(** [attr_value in target_value] *)
Definition op_in (attr_value : scalar) (target_value : pyval)
  : result bool :=
  match target_value with
  | VList l => Ok (existsb (Py.eq attr_value) l)
  | VScalar (SStr t) =>
      match attr_value with
      | SStr a => Ok (Str.contains a t)
      | _ => Raise TypeError
      end
  | VScalar _ => Raise TypeError
  end.

Definition _evaluate_rule (rule : Rule) (attributes : dict scalar)
  : result bool :=
  let attr_key :=
    match condition rule with Some c => attribute c | None => None end in
  let operator :=
    match condition rule with
    | Some c => match operator c with Some o => o | None => "equals" end
    | None => "equals"
    end in
  let target_value :=
    match condition rule with
    | Some c => match value c with Some v => v | None => VScalar SNone end
    | None => VScalar SNone
    end in
  match attr_key with
  | None => Ok false
  | Some attr_key =>
      if Str.is_empty attr_key || negb (dict_mem attr_key attributes)
      then Ok false
      else
        let attr_value := Py.get attr_key attributes in
        if String.eqb operator "equals" then
          Ok (op_equals attr_value target_value)
        else if String.eqb operator "not_equals" then
          Ok (negb (op_equals attr_value target_value))
        else if String.eqb operator "contains" then
          op_contains attr_value target_value
        else if String.eqb operator "greater_than" then
          op_greater_than attr_value target_value
        else if String.eqb operator "less_than" then
          op_less_than attr_value target_value
        else if String.eqb operator "in" then
          op_in attr_value target_value
        else Ok false
  end.

Definition _log_evaluation (clk : clock) (n : nat) (key : string)
    (v : pyval) (attributes : option (dict scalar)) (c : GrowthBookClient)
  : GrowthBookClient * nat :=
  ({| local_mode := local_mode c; _features := _features c;
      _experiments := _experiments c; _configs := _configs c;
      _evaluation_log :=
        (_evaluation_log c ++
           [{| log_timestamp := clk n; log_feature_key := key;
               log_value := v; log_attributes := attributes |}])%list |},
   S n).

(** [rule.get("value", feature.enabled)] *)
Definition override (rule : Rule) (enabled : bool) : pyval :=
  match rule_value rule with
  | Some v => v
  | None => VScalar (SBool enabled)
  end.

(** The loop of [is_on] over the rules: the value returned. *)
Fixpoint first_match (rules : list Rule) (attributes : dict scalar)
    (enabled : bool) : result pyval :=
  match rules with
  | [] => Ok (VScalar (SBool enabled))
  | rule :: rest =>
      matched <- _evaluate_rule rule attributes ;;
      if matched then Ok (override rule enabled)
      else first_match rest attributes enabled
  end.

(** [is_on]: the value returned or the exception raised, the client
    after the call, and the number of clock readings. *)
Definition is_on (clk : clock) (n : nat) (key : string)
    (attributes : option (dict scalar)) (c : GrowthBookClient)
  : result pyval * GrowthBookClient * nat :=
  if local_mode c then
    match dict_get key (_features c) with
    | None => (Ok (VScalar (SBool false)), c, n)
    | Some feature =>
        let feature := set_last_evaluated (clk n) feature in
        let c := set_features (dict_set key feature (_features c)) c in
        let '(c, n') :=
          _log_evaluation clk (S n) key (VScalar (SBool (enabled feature)))
            attributes c in
        match rules feature, attributes with
        | _ :: _, Some ((_ :: _) as attrs) =>
            (first_match (rules feature) attrs (enabled feature), c, n')
        | _, _ => (Ok (VScalar (SBool (enabled feature))), c, n')
        end
    end
  else (Ok (VScalar (SBool false)), c, n).

(** The dict of [_feature_to_dict]; timestamps are kept as [datetime]s. *)
Record FeatureDict : Type := {
  fd_key : string;
  fd_description : string;
  fd_enabled : bool;
  fd_defaultValue : pyval;
  fd_rules : list Rule;
  fd_status : FeatureStatus;
  fd_environment : string;
  fd_createdAt : datetime;
  fd_updatedAt : datetime;
  fd_lastEvaluated : option datetime;
  fd_isStale : bool
}.

Definition _feature_to_dict (clk : clock) (n : nat) (feature : FeatureFlag)
  : FeatureDict * nat :=
  let '(stale, n') := is_stale clk n feature 30 in
  ({| fd_key := key feature; fd_description := description feature;
      fd_enabled := enabled feature;
      fd_defaultValue := default_value feature;
      fd_rules := rules feature; fd_status := status feature;
      fd_environment := environment feature;
      fd_createdAt := created_at feature;
      fd_updatedAt := updated_at feature;
      fd_lastEvaluated := last_evaluated feature;
      fd_isStale := stale |}, n').

(** [[f for f in flags if f.is_stale(days)]] *)
Fixpoint stale_filter (clk : clock) (n : nat) (flags : list FeatureFlag)
    (days : Z) : list FeatureFlag * nat :=
  match flags with
  | [] => ([], n)
  | f :: rest =>
      let '(stale, n1) := is_stale clk n f days in
      let '(others, n2) := stale_filter clk n1 rest days in
      (if stale then f :: others else others, n2)
  end.

(** [[self._feature_to_dict(f) for f in stale]] *)
Fixpoint to_dicts (clk : clock) (n : nat) (flags : list FeatureFlag)
  : list FeatureDict * nat :=
  match flags with
  | [] => ([], n)
  | f :: rest =>
      let '(d, n1) := _feature_to_dict clk n f in
      let '(ds, n2) := to_dicts clk n1 rest in
      (d :: ds, n2)
  end.

Definition get_stale_flags (clk : clock) (n : nat) (days : Z)
    (c : GrowthBookClient) : list FeatureDict * nat :=
  if local_mode c then
    let '(stale, n1) := stale_filter clk n (dict_values (_features c)) days in
    to_dicts clk n1 stale
  else ([], n).

(** *** Experiments *)

Definition weight_of (variation : Variation) : number :=
  match var_weight variation with Some w => w | None => NInt 50 end.

(** The loop over the variations: [Some k] when it returns [k] from
    inside, [None] when it runs to its end. *)
Fixpoint assign_loop (variations : list Variation) (cumulative : number)
    (normalized_bucket : number) : result (option (option string)) :=
  match variations with
  | [] => Ok None
  | variation :: rest =>
      cumulative <- number_add cumulative (weight_of variation) ;;
      if number_ltb normalized_bucket cumulative
      then Ok (Some (var_key variation))
      else assign_loop rest cumulative normalized_bucket
  end.

Definition bucket_of (key user_id : string) : Z :=
  MD5.hexdigest_int (key ++ ":" ++ user_id) mod 100.

Definition get_experiment_variant (key user_id : string)
    (attributes : option (dict scalar)) (c : GrowthBookClient)
  : result (option string) :=
  if local_mode c then
    match dict_get key (_experiments c) with
    | None => Ok None
    | Some exp =>
        if negb (ExperimentStatus_eqb (exp_status exp) RUNNING) then Ok None
        else
          let bucket := bucket_of key user_id in
          if number_geb (NInt bucket) (exp_traffic_percent exp) then Ok None
          else
            q <- number_truediv (NInt bucket) (exp_traffic_percent exp) ;;
            normalized_bucket <- number_mul q (NInt 100) ;;
            r <- assign_loop (exp_variations exp) (NInt 0) normalized_bucket ;;
            match r with
            | Some k => Ok k
            | None =>
                match exp_variations exp with
                | [] => Ok None
                | v :: vs => Ok (var_key (last vs v))
                end
            end
    end
  else Ok None.

(** *** The assignment in the words of the specification *)

Definition no_variation : Variation :=
  {| var_key := None; var_name := None; var_weight := None |}.

(** The cumulative weight of the first [count] variations. *)
Fixpoint cumulative_weight (variations : list Variation) (count : nat)
  : result number :=
  match count with
  | O => Ok (NInt 0)
  | S c =>
      previous <- cumulative_weight variations c ;;
      number_add previous (weight_of (nth c variations no_variation))
  end.

(** The index, from [i] on, of the first variation whose cumulative
    weight exceeds [normalized]. *)
Fixpoint first_exceeding (variations : list Variation) (normalized : number)
    (i remaining : nat) : result (option nat) :=
  match remaining with
  | O => Ok None
  | S remaining' =>
      w <- cumulative_weight variations (S i) ;;
      if number_ltb normalized w then Ok (Some i)
      else first_exceeding variations normalized (S i) remaining'
  end.

(** The key of the first variation whose cumulative weight exceeds
    [normalized], of the last variation when there is none. *)
Definition spec_variant (variations : list Variation) (normalized : number)
  : result (option string) :=
  found <- first_exceeding variations normalized 0 (List.length variations) ;;
  match found with
  | Some i => Ok (var_key (nth i variations no_variation))
  | None => Ok (var_key (last variations no_variation))
  end.

(** What the assignment of an experiment depends on. *)
Definition assignment_inputs (exp : Experiment)
  : ExperimentStatus * number * list Variation :=
  (exp_status exp, exp_traffic_percent exp, exp_variations exp).

(** *** Staleness in the words of the specification and of the code *)

(** [last_evaluated] is null or more than [days] days in the past. *)
Definition more_than_days_ago (now : datetime) (days : Z) (f : FeatureFlag)
  : Prop :=
  match last_evaluated f with
  | None => True
  | Some t => days * microseconds_per_day < now - t
  end.

(** [last_evaluated] is null or at least [days + 1] whole days in the
    past. *)
Definition whole_days_exceed (now : datetime) (days : Z) (f : FeatureFlag)
  : bool :=
  match last_evaluated f with
  | None => true
  | Some t => (days + 1) * microseconds_per_day <=? now - t
  end.

Definition attributes_or_empty (attributes : option (dict scalar))
  : dict scalar :=
  match attributes with Some a => a | None => [] end.

Definition frozen (clk : clock) (now : datetime) : Prop :=
  forall k, clk k = now.

(** *** Some flags, experiments and clients *)

Definition now0 : datetime := 1700000000000000.
Definition clock0 : clock := fun _ => now0.
Definition hours (h : Z) : Z := h * 3600 * 1000000.

Definition flag (k : string) (on : bool) (rs : list Rule)
    (last : option datetime) : FeatureFlag :=
  {| key := k; description := ""; enabled := on;
     default_value := VScalar (SBool on); rules := rs; status := ACTIVE;
     environment := "production"; created_at := 0; updated_at := 0;
     last_evaluated := last |}.

Definition rule (attr op : string) (target : pyval) (v : pyval) : Rule :=
  {| condition := Some {| attribute := Some attr; operator := Some op;
                          value := Some target |};
     rule_value := Some v |}.

Definition plan_is_free : Rule :=
  rule "plan" "equals" (VScalar (SStr "free")) (VScalar (SBool false)).
Definition plan_is_pro : Rule :=
  rule "plan" "equals" (VScalar (SStr "pro")) (VScalar (SBool true)).
Definition plan_above_5 : Rule :=
  rule "plan" "greater_than" (VScalar (SInt 5)) (VScalar (SBool false)).

Definition pro_attributes : dict scalar := [("plan", SStr "pro")].

(** evaluated 30 days and 12 hours before [now0] *)
Definition dormant_flag : FeatureFlag :=
  flag "enable_x402_payments" false []
    (Some (now0 - 30 * microseconds_per_day - hours 12)).

(** evaluated one day before [now0] *)
Definition recent_flag : FeatureFlag :=
  flag "enable_research_agent" true [plan_is_free; plan_is_pro]
    (Some (now0 - microseconds_per_day)).

Definition unused_flag : FeatureFlag :=
  flag "enable_timing_agent" true [plan_above_5; plan_is_pro] None.

Definition variation (k : string) (w : Z) : Variation :=
  {| var_key := Some k; var_name := Some k; var_weight := Some (NInt w) |}.

Definition experiment (k : string) (st : ExperimentStatus)
    (vs : list Variation) (traffic : number) : Experiment :=
  {| exp_key := k; exp_name := k; exp_hypothesis := ""; exp_status := st;
     exp_variations := vs; exp_weights := map weight_of vs;
     exp_metrics := []; exp_targeting_rules := [];
     exp_traffic_percent := traffic; exp_created_at := 0;
     exp_started_at := None; exp_ended_at := None |}.

Definition f_50 : float := S754_finite false 7036874417766400 (-47).
Definition f_100 : float := S754_finite false 7036874417766400 (-46).

Definition exp1 : Experiment :=
  experiment "exp1" RUNNING [variation "control" 50; variation "treatment" 50]
    (NFloat f_50).

(** a running experiment whose only variation has no ["key"] entry *)
Definition unnamed_experiment : Experiment :=
  experiment "exp2" RUNNING
    [{| var_key := None; var_name := Some "A"; var_weight := Some (NInt 100) |}]
    (NFloat f_100).

Definition client0 : GrowthBookClient :=
  {| local_mode := true;
     _features := [("enable_x402_payments", dormant_flag);
                   ("enable_research_agent", recent_flag);
                   ("enable_timing_agent", unused_flag)];
     _experiments := [("exp1", exp1); ("exp2", unnamed_experiment)];
     _configs := [];
     _evaluation_log := [] |}.


End GrowthBook.

(** ** The GTM pipeline: workspace.py, config_store.py, the stage agents
    and gtm_orchestrator.py *)

Module GTM.

Definition datetime : Type := Z.

(** *** workspace.py *)

Inductive WorkspaceMode : Type :=
| notion_first | hybrid | full_crm | saas | paas.

Definition mode_value (m : WorkspaceMode) : string :=
  match m with
  | notion_first => "notion_first"
  | hybrid => "hybrid"
  | full_crm => "full_crm"
  | saas => "saas"
  | paas => "paas"
  end.

(** [thresholds] and [routing] are declared [Dict[str, Any]]: their
    values are any JSON value. *)
Record WorkspaceConfig : Type := {
  workspace_id : string;
  name : string;
  mode : WorkspaceMode;
  crm_type : option string;
  notion_enabled : bool;
  slack_enabled : bool;
  n8n_enabled : bool;
  ids : dict string;
  field_map : dict string;
  plays_enabled : dict bool;
  thresholds : dict json;
  routing : dict json
}.

(** *** config_store.py

    What [self.path] holds: no file; a content that [read_text] or
    [json.loads] fails on, or that is no JSON object, with the exception
    this raises; or the entries of the JSON object in their order, each
    with what [WorkspaceConfig.model_validate] makes of its value. *)
Inductive config_file : Type :=
| NoFile
| Unreadable (e : exn)
| Entries (data : dict (result WorkspaceConfig)).

(** [{k: WorkspaceConfig.model_validate(v) for k, v in data.items()}]:
    every entry is validated, in order, and the first failure ends the
    comprehension. *)
Fixpoint validate_all (data : dict (result WorkspaceConfig))
  : result (dict WorkspaceConfig) :=
  match data with
  | [] => Ok []
  | (k, v) :: data' =>
      cfg <- v ;;
      all_cfg <- validate_all data' ;;
      Ok ((k, cfg) :: all_cfg)
  end.

Definition load_all (file : config_file) : result (dict WorkspaceConfig) :=
  match file with
  | NoFile => Ok []
  | Unreadable e => Raise e
  | Entries data => validate_all data
  end.

(** [JSONConfigStore.load]; the exception carries the workspace id. *)
Definition load (file : config_file) (workspace_id : string)
  : result WorkspaceConfig :=
  all_cfg <- load_all file ;;
  if negb (dict_mem workspace_id all_cfg) then Raise (KeyError workspace_id)
  else dict_item workspace_id all_cfg.

(** *** Helpers on JSON values *)

Definition json_truthy (j : json) : bool :=
  match j with
  | JNone => false
  | JBool b => b
  | JInt z => negb (z =? 0)
  | JFloat f => negb (Float.eqb f Float.zero)
  | JStr s => negb (Str.is_empty s)
  | JList l => match l with [] => false | _ => true end
  | JDict d => match d with [] => false | _ => true end
  end.

(** [j.get(k)] on a value that should be a dict. *)
Definition json_get (k : string) (j : json) : result json :=
  match j with
  | JDict d => Ok (match dict_get k d with Some v => v | None => JNone end)
  | _ => Raise AttributeError
  end.

(** [j in {s1, ..., sn}] for a set of strings. *)
Definition json_in (j : json) (set : list string) : result bool :=
  match j with
  | JStr s => Ok (Str.mem s set)
  | JList _ | JDict _ => Raise TypeError
  | _ => Ok false
  end.

Definition webhook (hook : string) (payload : list (string * json)) : json :=
  JDict [("type", JStr "n8n_webhook"); ("webhook", JStr hook);
         ("payload", JDict payload)].

(** [(v).strip().lower()] where [v] must be a string. *)
Definition strip_lower (v : scalar) : result string :=
  match v with
  | SStr s => Ok (Str.lower (Str.strip s))
  | _ => Raise AttributeError
  end.

(** *** gtm_event_classifier.py *)

Definition confidence_0_9 : float := S754_finite false 8106479329266893 (-53).
Definition confidence_0_8 : float := S754_finite false 7205759403792794 (-53).
Definition confidence_0_95 : float := S754_finite false 8556839292003942 (-53).
Definition confidence_0_4 : float := S754_finite false 7205759403792794 (-54).

Definition classification (category : string) (confidence : float) : json :=
  JDict [("category", JStr category); ("confidence", JFloat confidence)].

Definition classify (event_type : string) (payload : dict scalar) : json :=
  let et := Str.strip (Str.lower event_type) in
  if Str.contains "deal" et
     && (Str.contains "stage" et || Py.truthy (Py.get "stage" payload))
  then classification "deal_stage_changed" confidence_0_9
  else if Str.contains "contact" et || Str.contains "lead" et
  then classification "lead_created_or_updated" confidence_0_8
  else if Str.contains "qa" et
  then classification "qa_updated" confidence_0_9
  else if Str.contains "go_live" et || Str.contains "golive" et
          || Str.contains "go-live" et
  then classification "go_live" confidence_0_95
  else if Str.contains "weekly" et || Str.contains "digest" et
  then classification "scheduled_digest" confidence_0_95
  else if Str.contains "cleanup" et || Str.contains "hygiene" et
  then classification "scheduled_hygiene" confidence_0_9
  else JDict [("category", JStr "unknown");
              ("confidence", JFloat confidence_0_4);
              ("raw", JDict [("event_type", JStr event_type)])].

(** *** schema_discovery_agent.py *)

Definition MIN_REQUIRED_IDS : list string :=
  ["notion_contacts_db"; "notion_accounts_db"; "notion_deals_db";
   "notion_tasks_db"; "slack_ops_channel"].

Definition ensure_workspace_schema (file : config_file)
    (workspace_id : string) : result json :=
  cfg <- load file workspace_id ;;
  let missing :=
    Str.sorted
      (filter (fun id => negb (dict_mem id (ids cfg))) MIN_REQUIRED_IDS) in
  let actions :=
    match missing with
    | [] => []
    | _ => [webhook "webhooks/provision_schema"
              [("workspace_id", JStr workspace_id);
               ("mode", JStr (mode_value (mode cfg)));
               ("missing_ids", Py.str_list missing)]]
    end in
  Ok (JDict [("missing_ids", Py.str_list missing);
             ("actions", JList actions);
             ("notes",
              JStr "Provisioning runs via deterministic n8n workflow.")]).

(** *** routing_sla_agent.py *)

Definition routing_evaluate (file : config_file) (workspace_id : string)
    (decisions : dict json) (payload : dict scalar) : result json :=
  cfg <- load file workspace_id ;;
  let event :=
    match dict_get "event" decisions with Some e => e | None => JNone end in
  category <- json_get "category"
                (if json_truthy event then event else JDict []) ;;
  lead <- json_in category ["lead_created_or_updated"; "unknown"] ;;
  if lead then
    icp_score <- Py.int (Py.or_else (Py.get "icp_score" payload) (SInt 0)) ;;
    let owner_key :=
      if 70 <=? icp_score then "high_fit_owner" else "default_owner" in
    let owner :=
      match dict_get owner_key (routing cfg) with
      | Some o => o
      | None => JNone
      end in
    Ok (JDict [("actions",
                JList [webhook "webhooks/route_and_sla"
                         [("workspace_id", JStr workspace_id);
                          ("owner", owner);
                          ("icp_score", JInt icp_score);
                          ("record", Py.of_payload payload)]])])
  else Ok (JDict [("actions", JList [])]).

(** *** lifecycle_enforcement_agent.py *)

Definition default_definition_of_done : json :=
  JDict [("poc", Py.str_list ["problem"; "success_criteria"]);
         ("closed_won", Py.str_list ["signed_date"; "amount"])].

(** [rules.get(stage, [])]: only a dict has a [get]. *)
Definition rules_get (stage : string) (rules : json) : result json :=
  match rules with
  | JDict d =>
      Ok (match dict_get stage d with Some r => r | None => JList [] end)
  | _ => Raise AttributeError
  end.

(** What [for f in required] goes through: the items of a list, the
    characters of a string, the keys of a dict; nothing else can be
    iterated. *)
Definition json_iter (required : json) : result (list json) :=
  match required with
  | JList l => Ok l
  | JStr s =>
      Ok (map (fun c => JStr (String c EmptyString)) (list_ascii_of_string s))
  | JDict d => Ok (map (fun kv => JStr (fst kv)) d)
  | _ => Raise TypeError
  end.

(** [payload.get(f)] for a key [f] of any kind: a list or a dict cannot
    be hashed; the keys of a payload are strings, so that no other key
    than a string is found. *)
Definition payload_get (f : json) (payload : dict scalar) : result scalar :=
  match f with
  | JStr s => Ok (Py.get s payload)
  | JList _ | JDict _ => Raise TypeError
  | _ => Ok SNone
  end.

(** [[f for f in required if not payload.get(f)]] *)
Fixpoint missing_fields (payload : dict scalar) (required : list json)
  : result (list json) :=
  match required with
  | [] => Ok []
  | f :: required' =>
      v <- payload_get f payload ;;
      missing <- missing_fields payload required' ;;
      Ok (if Py.truthy v then missing else f :: missing)
  end.

Definition lifecycle_evaluate (file : config_file) (workspace_id : string)
    (payload : dict scalar) : result json :=
  cfg <- load file workspace_id ;;
  let rules :=
    match dict_get "definition_of_done" (thresholds cfg) with
    | Some r => r
    | None => default_definition_of_done
    end in
  let stage :=
    Str.lower
      (Py.str
         (Py.or_else
            (Py.or_else (Py.get "stage" payload)
                        (Py.get "lifecycle_stage" payload))
            (SStr ""))) in
  required <- rules_get stage rules ;;
  required <- json_iter required ;;
  missing <- missing_fields payload required ;;
  let actions :=
    match missing with
    | [] => []
    | _ => [webhook "webhooks/lifecycle_enforce"
              [("workspace_id", JStr workspace_id);
               ("stage", JStr stage);
               ("missing_fields", JList missing);
               ("record", Py.of_payload payload)]]
    end in
  Ok (JDict [("stage", JStr stage);
             ("missing_fields", JList missing);
             ("actions", JList actions)]).

(** *** data_hygiene_agent.py *)

Definition hygiene_evaluate (workspace_id : string) (payload : dict scalar)
  : result json :=
  email <- strip_lower (Py.or_else (Py.get "email" payload) (SStr "")) ;;
  domain <- strip_lower (Py.or_else (Py.get "domain" payload) (SStr "")) ;;
  let backfill :=
    if negb (Str.is_empty email) && Str.is_empty domain
       && Str.contains "@" email
    then
      match Str.after_first "@"%char email with
      | Some domain =>
          [webhook "webhooks/hygiene_backfill"
             [("workspace_id", JStr workspace_id);
              ("domain", JStr domain);
              ("record", Py.of_payload payload)]]
      | None => []
      end
    else [] in
  let dedupe :=
    if Py.truthy (Py.get "suspected_duplicate" payload)
    then [webhook "webhooks/dedupe_flag"
            [("workspace_id", JStr workspace_id);
             ("record", Py.of_payload payload)]]
    else [] in
  Ok (JDict [("actions", JList (backfill ++ dedupe)%list)]).

(** *** onboarding_go_live_agent.py *)

Definition onboarding_evaluate (workspace_id : string)
    (payload : dict scalar) : json :=
  let stage :=
    Str.lower (Py.str (Py.or_else (Py.get "stage" payload) (SStr ""))) in
  let record :=
    [("workspace_id", JStr workspace_id);
     ("record", Py.of_payload payload)] in
  let tasks :=
    if Str.mem stage ["poc"; "implementation"; "onboarding"]
    then [webhook "webhooks/create_onboarding_tasks" record] else [] in
  let qa :=
    match Py.get "qa_score" payload with
    | SNone => []
    | _ => [webhook "webhooks/update_qa_metrics" record]
    end in
  let handoff :=
    if Str.mem stage ["go_live"; "golive"; "live"]
    then [webhook "webhooks/go_live_handoff" record] else [] in
  JDict [("actions", JList (tasks ++ qa ++ handoff)%list)].

(** *** reporting_attribution_agent.py *)

Definition reporting_evaluate (workspace_id event_type : string)
    (payload : dict scalar) : json :=
  let et := Str.lower event_type in
  let digest :=
    if Str.contains "weekly" et || Str.contains "digest" et
    then [webhook "webhooks/weekly_digest"
            [("workspace_id", JStr workspace_id)]]
    else [] in
  let velocity :=
    if Py.truthy (Py.or_else (Py.get "deal_id" payload)
                             (Py.get "stage" payload))
    then [webhook "webhooks/update_velocity_and_attribution"
            [("workspace_id", JStr workspace_id);
             ("record", Py.of_payload payload)]]
    else [] in
  JDict [("actions", JList (digest ++ velocity)%list)].

(** *** ops_self_heal_agent.py

    The alert stores the decisions as they are when the agent runs. *)
Definition ops_evaluate (workspace_id : string) (decisions : dict json)
    (actions : list json) (errors : list string) : json :=
  let extra :=
    match errors with
    | [] => []
    | _ => [webhook "webhooks/ops_alert"
              [("workspace_id", JStr workspace_id);
               ("errors", Py.str_list errors);
               ("decisions", JDict decisions)]]
    end in
  JDict [("actions", JList extra)].

(** *** gtm_orchestrator.py *)

Record GTMState : Type := {
  st_workspace_id : string;
  event_type : string;
  event_payload : dict scalar;
  decisions : dict json;
  actions : list json;
  approved : bool;
  errors : list string;
  timestamp : datetime
}.

(** [decision.get("actions", [])] *)
Definition decision_actions (decision : json) : list json :=
  match decision with
  | JDict d =>
      match dict_get "actions" d with
      | Some (JList l) => l
      | _ => []
      end
  | _ => []
  end.

(** [state["decisions"][name] = decision] *)
Definition set_decision (name : string) (decision : json) (state : GTMState)
  : GTMState :=
  {| st_workspace_id := st_workspace_id state;
     event_type := event_type state;
     event_payload := event_payload state;
     decisions := dict_set name decision (decisions state);
     actions := actions state;
     approved := approved state;
     errors := errors state;
     timestamp := timestamp state |}.

(** [state["actions"].extend(more)] *)
Definition extend_actions (more : list json) (state : GTMState) : GTMState :=
  {| st_workspace_id := st_workspace_id state;
     event_type := event_type state;
     event_payload := event_payload state;
     decisions := decisions state;
     actions := (actions state ++ more)%list;
     approved := approved state;
     errors := errors state;
     timestamp := timestamp state |}.

(** What every node but [classify_event] does with its decision. *)
Definition record_decision (name : string) (decision : json)
    (state : GTMState) : GTMState :=
  extend_actions (decision_actions decision) (set_decision name decision state).

Section Nodes.
Variable file : config_file.

Definition classify_event (state : GTMState) : result GTMState :=
  let decision := classify (event_type state) (event_payload state) in
  Ok (set_decision "event" decision state).

Definition schema_discovery (state : GTMState) : result GTMState :=
  decision <- ensure_workspace_schema file (st_workspace_id state) ;;
  Ok (record_decision "schema" decision state).

Definition routing_sla (state : GTMState) : result GTMState :=
  decision <- routing_evaluate file (st_workspace_id state)
                (decisions state) (event_payload state) ;;
  Ok (record_decision "routing" decision state).

Definition lifecycle_enforcement (state : GTMState) : result GTMState :=
  decision <- lifecycle_evaluate file (st_workspace_id state)
                (event_payload state) ;;
  Ok (record_decision "lifecycle" decision state).

Definition data_hygiene (state : GTMState) : result GTMState :=
  decision <- hygiene_evaluate (st_workspace_id state)
                (event_payload state) ;;
  Ok (record_decision "hygiene" decision state).

Definition onboarding_go_live (state : GTMState) : result GTMState :=
  let decision :=
    onboarding_evaluate (st_workspace_id state) (event_payload state) in
  Ok (record_decision "onboarding" decision state).

Definition reporting_attribution (state : GTMState) : result GTMState :=
  let decision :=
    reporting_evaluate (st_workspace_id state) (event_type state)
      (event_payload state) in
  Ok (record_decision "reporting" decision state).

Definition ops_self_heal (state : GTMState) : result GTMState :=
  let decision :=
    ops_evaluate (st_workspace_id state) (decisions state)
      (actions state) (errors state) in
  Ok (record_decision "ops" decision state).

Definition _needs_onboarding (state : GTMState) : result string :=
  let evt :=
    match dict_get "event" (decisions state) with
    | Some e => e
    | None => JDict []
    end in
  category <- json_get "category" evt ;;
  hit <- json_in category ["deal_stage_changed"; "qa_updated"; "go_live"] ;;
  Ok (if hit then "onboarding" else "reporting").

(** **** The state graph *)

Definition END : string := "__end__".

Record StateGraph : Type := {
  nodes : list (string * (GTMState -> result GTMState));
  entry_point : option string;
  edges : list (string * string);
  conditional_edges :
    list (string * ((GTMState -> result string) * list (string * string)))
}.

Definition empty_graph : StateGraph :=
  {| nodes := []; entry_point := None; edges := [];
     conditional_edges := [] |}.

Definition add_node (name : string) (action : GTMState -> result GTMState)
    (wf : StateGraph) : StateGraph :=
  {| nodes := (nodes wf ++ [(name, action)])%list;
     entry_point := entry_point wf; edges := edges wf;
     conditional_edges := conditional_edges wf |}.

Definition set_entry_point (name : string) (wf : StateGraph) : StateGraph :=
  {| nodes := nodes wf; entry_point := Some name; edges := edges wf;
     conditional_edges := conditional_edges wf |}.

Definition add_edge (src dst : string) (wf : StateGraph) : StateGraph :=
  {| nodes := nodes wf; entry_point := entry_point wf;
     edges := (edges wf ++ [(src, dst)])%list;
     conditional_edges := conditional_edges wf |}.

Definition add_conditional_edges (src : string)
    (path : GTMState -> result string) (path_map : list (string * string))
    (wf : StateGraph) : StateGraph :=
  {| nodes := nodes wf; entry_point := entry_point wf; edges := edges wf;
     conditional_edges :=
       (conditional_edges wf ++ [(src, (path, path_map))])%list |}.

(** [_build_graph]: [None] when langgraph is not installed. *)
Definition _build_graph (langgraph_installed : bool) : option StateGraph :=
  if negb langgraph_installed then None
  else
    let wf := empty_graph in
    let wf := add_node "classify" classify_event wf in
    let wf := add_node "schema" schema_discovery wf in
    let wf := add_node "routing" routing_sla wf in
    let wf := add_node "lifecycle" lifecycle_enforcement wf in
    let wf := add_node "hygiene" data_hygiene wf in
    let wf := add_node "onboarding" onboarding_go_live wf in
    let wf := add_node "reporting" reporting_attribution wf in
    let wf := add_node "ops" ops_self_heal wf in
    let wf := set_entry_point "classify" wf in
    let wf := add_edge "classify" "schema" wf in
    let wf := add_edge "schema" "routing" wf in
    let wf := add_edge "routing" "lifecycle" wf in
    let wf := add_edge "lifecycle" "hygiene" wf in
    let wf :=
      add_conditional_edges "hygiene" _needs_onboarding
        [("onboarding", "onboarding"); ("reporting", "reporting")] wf in
    let wf := add_edge "onboarding" "reporting" wf in
    let wf := add_edge "reporting" "ops" wf in
    let wf := add_edge "ops" END wf in
    Some wf.

(** Modelled from the spec: the edge the declarative-graph interpreter
    follows out of a node.  The interpreter is langgraph's compiled
    [StateGraph] and is not part of the sources.  Out of a node with a
    conditional edge it goes to the target the path map gives for the
    value of the branch function on the state; out of any other node it
    follows the plain edge. *)
Definition successor (wf : StateGraph) (current : string)
    (state : GTMState) : result string :=
  match dict_get current (conditional_edges wf) with
  | Some (path, path_map) =>
      choice <- path state ;;
      dict_item choice path_map
  | None => dict_item current (edges wf)
  end.

(** Modelled from the spec: the declarative-graph interpreter (langgraph's
    compiled [StateGraph], not part of the sources).  It runs the node
    it is at on the current state, takes the state the node returns as
    the new state, and moves along the outgoing edge.  It stops at
    [END]; an exception of a node or of a branch function ends the run,
    and so does the step bound. *)
Fixpoint run_graph (wf : StateGraph) (steps : nat) (current : string)
    (state : GTMState) : result GTMState :=
  if String.eqb current END then Ok state
  else
    match steps with
    | O => Raise GraphRecursionError
    | S steps' =>
        action <- dict_item current (nodes wf) ;;
        state' <- action state ;;
        next <- successor wf current state' ;;
        run_graph wf steps' next state'
    end.

(** Modelled from the spec: langgraph's default bound on the steps. *)
Definition recursion_limit : nat := 25.

(** Modelled from the spec: [graph.ainvoke(initial)], the walk from the
    entry point. *)
Definition ainvoke (wf : StateGraph) (initial : GTMState)
  : result GTMState :=
  match entry_point wf with
  | Some entry => run_graph wf recursion_limit entry initial
  | None => Raise ValueError
  end.

(** [GTMOrchestrator]: [graph] is set by [__init__]. *)
Record GTMOrchestrator : Type := { graph : option StateGraph }.

Definition new_orchestrator (langgraph_installed : bool) : GTMOrchestrator :=
  {| graph := _build_graph langgraph_installed |}.

Definition initial_state (workspace_id event_type : string)
    (event_payload : dict scalar) (now : datetime) : GTMState :=
  {| st_workspace_id := workspace_id;
     event_type := event_type;
     event_payload := event_payload;
     decisions := [];
     actions := [];
     approved := false;
     errors := [];
     timestamp := now |}.

(** The fallback branch of [handle_event]. *)
Definition sequential (initial : GTMState) : result GTMState :=
  state <- classify_event initial ;;
  state <- schema_discovery state ;;
  state <- routing_sla state ;;
  state <- lifecycle_enforcement state ;;
  state <- data_hygiene state ;;
  branch <- _needs_onboarding state ;;
  state <- (if String.eqb branch "onboarding"
            then onboarding_go_live state else Ok state) ;;
  state <- reporting_attribution state ;;
  state <- ops_self_heal state ;;
  Ok state.

Definition handle_event (self : GTMOrchestrator)
    (workspace_id event_type : string) (event_payload : dict scalar)
    (now : datetime) : result GTMState :=
  let initial := initial_state workspace_id event_type event_payload now in
  match graph self with
  | None => sequential initial
  | Some wf => ainvoke wf initial
  end.
End Nodes.

(** *** Notions the properties are stated with *)

(** The graph [_build_graph] declares, written out. *)
Definition declared_graph (file : config_file) : StateGraph :=
  {| nodes :=
       [("classify", classify_event);
        ("schema", schema_discovery file);
        ("routing", routing_sla file);
        ("lifecycle", lifecycle_enforcement file);
        ("hygiene", data_hygiene);
        ("onboarding", onboarding_go_live);
        ("reporting", reporting_attribution);
        ("ops", ops_self_heal)];
     entry_point := Some "classify";
     edges :=
       [("classify", "schema"); ("schema", "routing");
        ("routing", "lifecycle"); ("lifecycle", "hygiene");
        ("onboarding", "reporting"); ("reporting", "ops"); ("ops", END)];
     conditional_edges :=
       [("hygiene",
         (_needs_onboarding,
          [("onboarding", "onboarding"); ("reporting", "reporting")]))] |}.

(** The category the classifier gives an event. *)
Definition category_of (event_type : string) (payload : dict scalar) : string :=
  match classify event_type payload with
  | JDict d =>
      match dict_get "category" d with
      | Some (JStr category) => category
      | _ => ""
      end
  | _ => ""
  end.

Definition onboarding_categories : list string :=
  ["deal_stage_changed"; "qa_updated"; "go_live"].

(** The stages every run goes through before the branch. *)
Definition through_hygiene (file : config_file) (initial : GTMState)
  : result GTMState :=
  state <- classify_event initial ;;
  state <- schema_discovery file state ;;
  state <- routing_sla file state ;;
  state <- lifecycle_enforcement file state ;;
  data_hygiene state.

(** A node leaves the event as it is, writes one decision and appends
    actions. *)
Definition advances (stage : string) (before after : GTMState) : Prop :=
  st_workspace_id after = st_workspace_id before
  /\ event_type after = event_type before
  /\ event_payload after = event_payload before
  /\ approved after = approved before
  /\ errors after = errors before
  /\ timestamp after = timestamp before
  /\ exists decision more,
       decisions after = dict_set stage decision (decisions before)
       /\ actions after = (actions before ++ more)%list.

Definition stages_without_onboarding : list string :=
  ["event"; "schema"; "routing"; "lifecycle"; "hygiene"; "reporting"; "ops"].

Definition stages_with_onboarding : list string :=
  ["event"; "schema"; "routing"; "lifecycle"; "hygiene"; "onboarding";
   "reporting"; "ops"].

(** *** A workspace and some events *)

Definition acme : WorkspaceConfig :=
  {| workspace_id := "acme"; name := "Acme"; mode := notion_first;
     crm_type := None; notion_enabled := true; slack_enabled := true;
     n8n_enabled := true;
     ids := [("notion_contacts_db", "db-1"); ("slack_ops_channel", "C01")];
     field_map := []; plays_enabled := []; thresholds := [];
     routing := [("default_owner", JStr "sam"); ("high_fit_owner", JStr "kim")] |}.

(** acme with a definition of done that is a list, not a dict *)
Definition acme_listed : WorkspaceConfig :=
  {| workspace_id := "acme"; name := "Acme"; mode := notion_first;
     crm_type := None; notion_enabled := true; slack_enabled := true;
     n8n_enabled := true;
     ids := [("notion_contacts_db", "db-1"); ("slack_ops_channel", "C01")];
     field_map := []; plays_enabled := [];
     thresholds := [("definition_of_done", Py.str_list ["problem"])];
     routing := [("default_owner", JStr "sam"); ("high_fit_owner", JStr "kim")] |}.

Definition acme_file : config_file := Entries [("acme", Ok acme)].

(** no configuration file at all *)
Definition no_file : config_file := NoFile.

(** a file in which the entry of another workspace does not validate *)
Definition broken_file : config_file :=
  Entries [("acme", Ok acme); ("globex", Raise ValidationError)].

Definition lead_payload : dict scalar :=
  [("email", SStr "a@b.com"); ("icp_score", SInt 82)].

Definition deal_payload : dict scalar :=
  [("deal_id", SStr "D-7"); ("stage", SStr "poc")].

End GTM.

(** ** More of negotiation_agent.py *)

Module NegotiationAgent.
Import Negotiation.

(** [self.budget_per_lead], the float [__init__] reads from the
    environment. *)
Record NegotiationAgent : Type := { budget_per_lead : float }.

Definition f_0_08 : float := S754_finite false 5764607523034235 (-56).
Definition f_0_02 : float := S754_finite false 5764607523034235 (-58).
Definition f_0_25 : float := S754_finite false 4503599627370496 (-54).
Definition f_0_17 : float := S754_finite false 6124895493223875 (-55).

(** The agent when [AGENT_MAX_COST_PER_LEAD] is not set. *)
Definition default_agent : NegotiationAgent := {| budget_per_lead := f_0_25 |}.

(** The [state] of a lead: a dict whose ["lead_id"], when present, is
    a [str] and whose ["lead_score"], when present, is an [int]. *)
Record LeadState : Type := {
  state_lead_id : option string;
  state_lead_score : option Z
}.

(** The dict [run_negotiation] returns. *)
Record Negotiated : Type := {
  out_consensus_reached : bool;
  out_selected_agents : list string;
  out_total_cost : float;
  out_rationale : nat * float;
  agent_votes : dict bool
}.

(** [{agent: True for agent in selected}] *)
Definition votes (selected : list string) : dict bool :=
  fold_left (fun d agent => dict_set agent true d) selected [].

Definition negotiation_request (self : NegotiationAgent) (state : LeadState)
  : NegotiationRequest :=
  let lead_id :=
    match state_lead_id state with Some i => i | None => "unknown" end in
  let lead_score :=
    match state_lead_score state with Some s => s | None => 50 end in
  let agent_bids :=
    [("research", f_0_05); ("copywriting", f_0_08);
     ("timing", f_0_02); ("qualification", f_0_02)] in
  let quality_scores :=
    [("research", Z.min (lead_score + 10) 100);
     ("copywriting", Z.min (lead_score + 5) 100);
     ("timing", lead_score);
     ("qualification", lead_score)] in
  {| lead_id := lead_id;
     agent_bids := agent_bids;
     quality_scores := quality_scores;
     budget_limit := budget_per_lead self |}.

Definition run_negotiation (self : NegotiationAgent) (state : LeadState)
  : result Negotiated :=
  result <- run_auction (negotiation_request self state) ;;
  Ok {| out_consensus_reached := consensus_reached result;
        out_selected_agents := selected_agents result;
        out_total_cost := total_cost result;
        out_rationale := rationale result;
        agent_votes := votes (selected_agents result) |}.

(** The four agents that bid in [run_negotiation]. *)
Definition bidders : list string :=
  ["research"; "copywriting"; "timing"; "qualification"].

(** The same float: the same sign, mantissa and exponent. *)
Definition same_float (x y : float) : bool :=
  match x, y with
  | S754_zero s, S754_zero s' => Bool.eqb s s'
  | S754_infinity s, S754_infinity s' => Bool.eqb s s'
  | S754_nan, S754_nan => true
  | S754_finite s m e, S754_finite s' m' e' =>
      Bool.eqb s s' && (m =? m')%positive && (e =? e')
  | _, _ => false
  end.

(** All four agents are selected, with consensus, a total cost of 0.17
    and a vote for each. *)
Definition all_selected (r : Negotiated) : bool :=
  out_consensus_reached r
  && (List.length (out_selected_agents r) =? 4)%nat
  && forallb (fun a => Str.mem a (out_selected_agents r)) bidders
  && same_float (out_total_cost r) f_0_17
  && forallb (fun a => match dict_get a (agent_votes r) with
                       | Some true => true
                       | _ => false
                       end) bidders
  && (List.length (agent_votes r) =? 4)%nat.

(** [all_selected] on the lead scores 0 to 100, under the default
    budget. *)
Definition default_budget_scores : bool :=
  forallb (fun s =>
             match run_negotiation default_agent
                     {| state_lead_id := None;
                        state_lead_score := Some (Z.of_nat s) |} with
             | Ok r => all_selected r
             | Raise _ => false
             end) (seq 0 101).

(** A lead with a score of 75. *)
Definition test_lead : LeadState :=
  {| state_lead_id := Some "test-001"; state_lead_score := Some 75 |}.

End NegotiationAgent.

(** ** More of growthbook_mcp.py: the registry of flags and experiments *)

Module GrowthBookAdmin.
Import GrowthBook.

(** In API mode a call of the registry is answered by the GrowthBook
    server over HTTP.  The embedding covers local mode: [Remote] stands
    for a call that was sent to the server. *)
Inductive served (A : Type) : Type :=
| Local (a : A)
| Remote.

Arguments Local {A} a.
Arguments Remote {A}.

(** [value is not None] *)
Definition is_not_none (v : pyval) : bool :=
  match v with
  | VScalar SNone => false
  | _ => true
  end.

(** The truth value of a rule's value. *)
Definition pyval_truthy (v : pyval) : bool :=
  match v with
  | VScalar s => Py.truthy s
  | VList l => match l with [] => false | _ => true end
  end.

(** [FeatureFlag(key=..., description=..., enabled=..., default_value=...,
    rules=...)]: the two time stamps are two readings of the clock. *)
Definition new_FeatureFlag (clk : clock) (n : nat) (key description : string)
    (enabled : bool) (default_value : pyval) (rules : list Rule)
  : FeatureFlag * nat :=
  ({| key := key; description := description; enabled := enabled;
      default_value := default_value; rules := rules; status := ACTIVE;
      environment := "production"; created_at := clk n;
      updated_at := clk (S n); last_evaluated := None |},
   S (S n)).

(** [rules or []] *)
Definition rules_or_empty (rules : option (list Rule)) : list Rule :=
  match rules with Some r => r | None => [] end.

Definition create_feature_flag (clk : clock) (n : nat)
    (key description : string) (enabled : bool) (default_value : pyval)
    (rules : option (list Rule)) (c : GrowthBookClient)
  : served (FeatureDict * GrowthBookClient * nat) :=
  let '(feature, n) :=
    new_FeatureFlag clk n key description enabled default_value
      (rules_or_empty rules) in
  if local_mode c then
    let c := set_features (dict_set key feature (_features c)) c in
    let '(d, n) := _feature_to_dict clk n feature in
    Local (d, c, n)
  else Remote.

Definition get_feature_flag (clk : clock) (n : nat) (key : string)
    (c : GrowthBookClient) : served (option FeatureDict * nat) :=
  if local_mode c then
    match dict_get key (_features c) with
    | Some feature =>
        let '(d, n) := _feature_to_dict clk n feature in
        Local (Some d, n)
    | None => Local (None, n)
    end
  else Remote.

(** The assignments of [update_feature_flag] to the flag. *)
Definition updated (now : datetime) (enabled' : option bool)
    (default_value' : pyval) (rules' : option (list Rule))
    (feature : FeatureFlag) : FeatureFlag :=
  {| key := key feature; description := description feature;
     enabled := match enabled' with Some b => b | None => enabled feature end;
     default_value :=
       if is_not_none default_value' then default_value'
       else default_value feature;
     rules := match rules' with Some r => r | None => rules feature end;
     status := status feature; environment := environment feature;
     created_at := created_at feature; updated_at := now;
     last_evaluated := last_evaluated feature |}.

Definition update_feature_flag (clk : clock) (n : nat) (key : string)
    (enabled : option bool) (default_value : pyval)
    (rules : option (list Rule)) (c : GrowthBookClient)
  : served (result FeatureDict * GrowthBookClient * nat) :=
  if local_mode c then
    if negb (dict_mem key (_features c)) then Local (Raise ValueError, c, n)
    else
      match dict_item key (_features c) with
      | Raise e => Local (Raise e, c, n)
      | Ok feature =>
          let feature := updated (clk n) enabled default_value rules feature in
          let c := set_features (dict_set key feature (_features c)) c in
          let '(d, n) := _feature_to_dict clk (S n) feature in
          Local (Ok d, c, n)
      end
  else Remote.

(** [get_feature_value]: the value, the client after the call and the
    number of clock readings. *)
Definition get_feature_value (clk : clock) (n : nat) (key : string)
    (default : pyval) (attributes : option (dict scalar))
    (c : GrowthBookClient) : pyval * GrowthBookClient * nat :=
  if local_mode c then
    match dict_get key (_features c) with
    | None => (default, c, n)
    | Some feature =>
        let feature := set_last_evaluated (clk n) feature in
        let c := set_features (dict_set key feature (_features c)) c in
        let '(c, n) :=
          _log_evaluation clk (S n) key (default_value feature) attributes c in
        (if is_not_none (default_value feature) then default_value feature
         else default, c, n)
    end
  else (default, c, n).

(** *** Experiments *)

Definition set_experiments (es : dict Experiment) (c : GrowthBookClient)
  : GrowthBookClient :=
  {| local_mode := local_mode c; _features := _features c;
     _experiments := es; _configs := _configs c;
     _evaluation_log := _evaluation_log c |}.

(** The dict of [_experiment_to_dict]; time stamps are kept as
    [datetime]s. *)
Record ExperimentDict : Type := {
  ed_key : string;
  ed_name : string;
  ed_hypothesis : string;
  ed_status : ExperimentStatus;
  ed_variations : list Variation;
  ed_weights : list number;
  ed_metrics : list string;
  ed_trafficPercent : number;
  ed_createdAt : datetime;
  ed_startedAt : option datetime;
  ed_endedAt : option datetime
}.

Definition _experiment_to_dict (exp : Experiment) : ExperimentDict :=
  {| ed_key := exp_key exp; ed_name := exp_name exp;
     ed_hypothesis := exp_hypothesis exp; ed_status := exp_status exp;
     ed_variations := exp_variations exp; ed_weights := exp_weights exp;
     ed_metrics := exp_metrics exp;
     ed_trafficPercent := exp_traffic_percent exp;
     ed_createdAt := exp_created_at exp;
     ed_startedAt := exp_started_at exp;
     ed_endedAt := exp_ended_at exp |}.

(** The variations of an experiment created without any. *)
Definition default_variations : list Variation :=
  [{| var_key := Some "control"; var_name := Some "Control";
      var_weight := Some (NInt 50) |};
   {| var_key := Some "treatment"; var_name := Some "Treatment";
      var_weight := Some (NInt 50) |}].

Definition create_experiment (clk : clock) (n : nat) (key name : string)
    (hypothesis : string) (variations : option (list Variation))
    (metrics : option (list string)) (traffic_percent : number)
    (c : GrowthBookClient)
  : served (ExperimentDict * GrowthBookClient * nat) :=
  let variations :=
    match variations with
    | Some ((_ :: _) as vs) => vs
    | _ => default_variations
    end in
  let experiment :=
    {| exp_key := key; exp_name := name; exp_hypothesis := hypothesis;
       exp_status := DRAFT; exp_variations := variations;
       exp_weights := map weight_of variations;
       exp_metrics := match metrics with Some m => m | None => [] end;
       exp_targeting_rules := [];
       exp_traffic_percent := traffic_percent;
       exp_created_at := clk n;
       exp_started_at := None; exp_ended_at := None |} in
  if local_mode c then
    let c := set_experiments (dict_set key experiment (_experiments c)) c in
    Local (_experiment_to_dict experiment, c, S n)
  else Remote.

(** [exp.status = RUNNING; exp.started_at = now] *)
Definition started (now : datetime) (exp : Experiment) : Experiment :=
  {| exp_key := exp_key exp; exp_name := exp_name exp;
     exp_hypothesis := exp_hypothesis exp; exp_status := RUNNING;
     exp_variations := exp_variations exp; exp_weights := exp_weights exp;
     exp_metrics := exp_metrics exp;
     exp_targeting_rules := exp_targeting_rules exp;
     exp_traffic_percent := exp_traffic_percent exp;
     exp_created_at := exp_created_at exp;
     exp_started_at := Some now; exp_ended_at := exp_ended_at exp |}.

(** [exp.status = STOPPED; exp.ended_at = now] *)
Definition stopped (now : datetime) (exp : Experiment) : Experiment :=
  {| exp_key := exp_key exp; exp_name := exp_name exp;
     exp_hypothesis := exp_hypothesis exp; exp_status := STOPPED;
     exp_variations := exp_variations exp; exp_weights := exp_weights exp;
     exp_metrics := exp_metrics exp;
     exp_targeting_rules := exp_targeting_rules exp;
     exp_traffic_percent := exp_traffic_percent exp;
     exp_created_at := exp_created_at exp;
     exp_started_at := exp_started_at exp; exp_ended_at := Some now |}.

Definition start_experiment (clk : clock) (n : nat) (key : string)
    (c : GrowthBookClient)
  : served (result ExperimentDict * GrowthBookClient * nat) :=
  if local_mode c then
    if negb (dict_mem key (_experiments c)) then Local (Raise ValueError, c, n)
    else
      match dict_item key (_experiments c) with
      | Raise e => Local (Raise e, c, n)
      | Ok exp =>
          let exp := started (clk n) exp in
          let c := set_experiments (dict_set key exp (_experiments c)) c in
          Local (Ok (_experiment_to_dict exp), c, S n)
      end
  else Remote.

Definition stop_experiment (clk : clock) (n : nat) (key : string)
    (c : GrowthBookClient)
  : served (result ExperimentDict * GrowthBookClient * nat) :=
  if local_mode c then
    if negb (dict_mem key (_experiments c)) then Local (Raise ValueError, c, n)
    else
      match dict_item key (_experiments c) with
      | Raise e => Local (Raise e, c, n)
      | Ok exp =>
          let exp := stopped (clk n) exp in
          let c := set_experiments (dict_set key exp (_experiments c)) c in
          Local (Ok (_experiment_to_dict exp), c, S n)
      end
  else Remote.

(** *** Notions the properties are stated with *)

(** The client a call in local mode leaves, the client itself when the
    call went to the server. *)
Definition client_after {A : Type}
    (r : served (A * GrowthBookClient * nat)) (c : GrowthBookClient)
  : GrowthBookClient :=
  match r with
  | Local (_, c', _) => c'
  | Remote => c
  end.

(** The registry of flags is a dict, and every flag is registered under
    its own key. *)
Definition keyed (c : GrowthBookClient) : Prop :=
  NoDup (dict_keys (_features c))
  /\ forall k f, In (k, f) (_features c) -> key f = k.

(** The split of a default experiment: buckets below 50 are control. *)
Definition default_split (bucket : Z) : string :=
  if bucket <? 50 then "control" else "treatment".

(** The walk over the default variations, for every bucket, under a
    traffic of 100.0. *)
Definition default_split_buckets : bool :=
  forallb (fun b =>
             let bucket := Z.of_nat b in
             match number_truediv (NInt bucket) (NFloat f_100) with
             | Ok q =>
                 match number_mul q (NInt 100) with
                 | Ok normalized =>
                     match assign_loop default_variations (NInt 0)
                             normalized with
                     | Ok (Some (Some k)) =>
                         String.eqb k (default_split bucket)
                     | _ => false
                     end
                 | Raise _ => false
                 end
             | Raise _ => false
             end) (seq 0 100).

(** A clock that advances by one hour from a reading to the next. *)
Definition hourly_clock : clock :=
  fun j => now0 + Z.of_nat j * (3600 * 1000000).

(** An empty client in local mode. *)
Definition empty_client : GrowthBookClient :=
  {| local_mode := true; _features := []; _experiments := [];
     _configs := []; _evaluation_log := [] |}.

End GrowthBookAdmin.

(** ** base_agent.py *)

Module BaseAgent.
Import GrowthBook GrowthBookAdmin.

Record AgentRunContext : Type := {
  ctx_workspace_id : string;
  ctx_config : dict json;
  ctx_correlation_id : option string;
  ctx_user_id : option string
}.

(** What the [growthbook] property gives: the client of
    [growthbook_mcp], or the mock when that module cannot be
    imported. *)
Inductive growthbook : Type :=
| Client (c : GrowthBookClient)
| _MockGrowthBook.

(** The attributes [should_run] builds from the context. *)
Definition run_attributes (context : option AgentRunContext) : dict scalar :=
  match context with
  | None => []
  | Some context =>
      let attributes :=
        dict_set "workspace_id" (SStr (ctx_workspace_id context)) [] in
      match ctx_user_id context with
      | Some user_id =>
          if Str.is_empty user_id then attributes
          else dict_set "user_id" (SStr user_id) attributes
      | None => attributes
      end
  end.

(** [should_run]: the value returned, the client after the call and the
    number of clock readings. *)
Definition should_run (clk : clock) (n : nat)
    (feature_flag_key : option string) (context : option AgentRunContext)
    (gb : growthbook) : result pyval * growthbook * nat :=
  match feature_flag_key with
  | Some k =>
      if Str.is_empty k then (Ok (VScalar (SBool true)), gb, n)
      else
        let attributes := run_attributes context in
        match gb with
        | Client c =>
            let '(v, c, n) := is_on clk n k (Some attributes) c in
            (v, Client c, n)
        | _MockGrowthBook => (Ok (VScalar (SBool true)), gb, n)
        end
  | None => (Ok (VScalar (SBool true)), gb, n)
  end.

(** The outcome of [run_with_feature_check]: the dict that reports the
    skip, with its ["reason"] kept as the key it names, or what
    [run_func] returned. *)
Inductive checked (A : Type) : Type :=
| Skipped (feature_flag_key : option string) (agent : string)
| Ran (a : A).

Arguments Skipped {A} feature_flag_key agent.
Arguments Ran {A} a.

Definition run_with_feature_check {A : Type} (clk : clock) (n : nat)
    (class_name : string) (feature_flag_key : option string)
    (run_func : result A) (context : option AgentRunContext)
    (gb : growthbook) : result (checked A) * growthbook * nat :=
  let '(v, gb, n) := should_run clk n feature_flag_key context gb in
  match v with
  | Raise e => (Raise e, gb, n)
  | Ok v =>
      if negb (pyval_truthy v)
      then (Ok (Skipped feature_flag_key class_name), gb, n)
      else (a <- run_func ;; Ok (Ran a), gb, n)
  end.

End BaseAgent.

(** ** n8n.py and the event route of gtm.py *)

Module N8N.
Import GTM.

(** [s.lstrip("/")] *)
Fixpoint lstrip_slash (s : string) : string :=
  match s with
  | EmptyString => EmptyString
  | String c s' => if Ascii.eqb c "/"%char then lstrip_slash s' else s
  end.

(** [s.rstrip("/")] *)
Fixpoint rstrip_slash (s : string) : string :=
  match s with
  | EmptyString => EmptyString
  | String c s' =>
      match rstrip_slash s' with
      | EmptyString =>
          if Ascii.eqb c "/"%char then EmptyString else String c EmptyString
      | r => String c r
      end
  end.

(** [a or b] on optional strings: [None] and the empty string are
    false. *)
Definition str_or (a b : option string) : option string :=
  match a with
  | Some s => if Str.is_empty s then b else a
  | None => b
  end.

Record N8NGateway : Type := {
  base_url : string;
  api_key : option string
}.

(** [N8NGateway(base_url, api_key)], with the values of [N8N_BASE_URL]
    and [N8N_API_KEY] in the environment. *)
Definition new_gateway (base_url api_key : option string)
    (env_base_url env_api_key : option string) : N8NGateway :=
  {| base_url :=
       rstrip_slash
         match str_or base_url env_base_url with
         | Some s => s
         | None => ""
         end;
     api_key := str_or api_key env_api_key |}.

(** The URL [trigger_webhook] posts to. *)
Definition webhook_url (self : N8NGateway) (webhook_path : string)
  : result string :=
  if String.prefix "http" webhook_path then Ok webhook_path
  else if Str.is_empty (base_url self) then Raise ValueError
  else Ok (base_url self ++ "/" ++ lstrip_slash webhook_path).

Definition webhook_headers (self : N8NGateway) : dict string :=
  let headers := [("Content-Type", "application/json")] in
  match api_key self with
  | Some k => if Str.is_empty k then headers
              else dict_set "X-N8N-API-KEY" k headers
  | None => headers
  end.

Record GTMEvent : Type := {
  evt_workspace_id : string;
  evt_event_type : string;
  evt_payload : dict scalar;
  execute_actions : bool
}.

Section Http.
(** The exchange with the n8n server: the POST of a JSON body to a URL
    with headers, [raise_for_status], and the JSON of the response,
    [None] when the response has no content. *)
Variable post : string -> json -> dict string -> result (option json).

Definition trigger_webhook (self : N8NGateway) (webhook_path : string)
    (payload : json) : result json :=
  url <- webhook_url self webhook_path ;;
  let headers := webhook_headers self in
  resp <- post url payload headers ;;
  Ok (match resp with
      | Some body => body
      | None => JDict [("ok", JBool true)]
      end).

(** The body of the loop over the actions: [None] when the action is
    not an n8n webhook. *)
Definition execute (gateway : N8NGateway) (action : json)
  : result (option json) :=
  type <- json_get "type" action ;;
  match type, action with
  | JStr t, JDict d =>
      if String.eqb t "n8n_webhook" then
        webhook <- dict_item "webhook" d ;;
        match webhook with
        | JStr webhook_path =>
            let payload :=
              match dict_get "payload" d with
              | Some p => p
              | None => JDict []
              end in
            r <- trigger_webhook gateway webhook_path payload ;;
            Ok (Some r)
        | _ => Raise AttributeError
        end
      else Ok None
  | _, _ => Ok None
  end.

Fixpoint execute_all (gateway : N8NGateway) (todo : list json)
    (executed : list json) : result (list json) :=
  match todo with
  | [] => Ok executed
  | action :: rest =>
      r <- execute gateway action ;;
      execute_all gateway rest
        match r with
        | Some out => (executed ++ [out])%list
        | None => executed
        end
  end.

(** The route [POST /event]: the state of the run and, when the actions
    were executed, what is stored under ["executed"]. *)
Definition route_handle_event (file : config_file) (langgraph_installed : bool)
    (env_base_url env_api_key : option string) (now : datetime)
    (evt : GTMEvent) : result (GTMState * option (list json)) :=
  let orch := new_orchestrator file langgraph_installed in
  result <- handle_event file orch (evt_workspace_id evt)
              (evt_event_type evt) (evt_payload evt) now ;;
  if execute_actions evt then
    let gateway := new_gateway None None env_base_url env_api_key in
    executed <- execute_all gateway (actions result) [] ;;
    Ok (result, Some executed)
  else Ok (result, None).
End Http.

(** An exchange that answers every request with an empty response. *)
Definition silent_server : string -> json -> dict string
    -> result (option json) :=
  fun _ _ _ => Ok None.

End N8N.

(** ** Notions the further properties are stated with *)

Module Notions.
Import GTM.

(** The categories of [classify]. *)
Definition categories : list string :=
  ["deal_stage_changed"; "lead_created_or_updated"; "qa_updated"; "go_live";
   "scheduled_digest"; "scheduled_hygiene"; "unknown"].

(** The webhooks of the stage agents, the alert of the ops agent
    apart. *)
Definition stage_hooks : list string :=
  ["webhooks/provision_schema"; "webhooks/route_and_sla";
   "webhooks/lifecycle_enforce"; "webhooks/hygiene_backfill";
   "webhooks/dedupe_flag"; "webhooks/create_onboarding_tasks";
   "webhooks/update_qa_metrics"; "webhooks/go_live_handoff";
   "webhooks/weekly_digest"; "webhooks/update_velocity_and_attribution"].

(** An action that asks n8n to run one of these webhooks for the
    workspace [ws]. *)
Definition webhook_for (ws : string) (action : json) : Prop :=
  exists hook payload,
    action = webhook hook payload
    /\ In hook stage_hooks
    /\ dict_get "workspace_id" payload = Some (JStr ws).

(** The webhook an action names. *)
Definition hook_of (action : json) : option string :=
  match action with
  | JDict d =>
      match dict_get "webhook" d with
      | Some (JStr hook) => Some hook
      | _ => None
      end
  | _ => None
  end.

(** The decision of the ops stage when there is no error. *)
Definition no_alert : json := JDict [("actions", JList [])].

(** The decisions of a run, given those of its four fallible stages. *)
Definition run_decisions (ws et : string) (payload : dict scalar)
    (schema routing lifecycle hygiene : json) : dict json :=
  ([("event", classify et payload); ("schema", schema);
    ("routing", routing); ("lifecycle", lifecycle); ("hygiene", hygiene)]
   ++ (if Str.mem (category_of et payload) onboarding_categories
       then [("onboarding", onboarding_evaluate ws payload)] else [])
   ++ [("reporting", reporting_evaluate ws et payload); ("ops", no_alert)])%list.

(** The required ids the configuration lacks, in the order of
    [MIN_REQUIRED_IDS]. *)
Definition lacking (cfg : WorkspaceConfig) : list string :=
  filter (fun id => negb (dict_mem id (ids cfg))) MIN_REQUIRED_IDS.

(** [l] is in ascending order. *)
Fixpoint ascending (l : list string) : bool :=
  match l with
  | [] => true
  | x :: l' =>
      match l' with
      | [] => true
      | y :: _ => String.ltb x y && ascending l'
      end
  end.

(** The owner the routing agent picks for a score. *)
Definition owner_for (cfg : WorkspaceConfig) (icp_score : Z) : json :=
  match dict_get (if 70 <=? icp_score then "high_fit_owner"
                  else "default_owner") (routing cfg) with
  | Some owner => owner
  | None => JNone
  end.

(** The entries of a file all of whose configurations validate. *)
Definition valid_entries (all_cfg : dict WorkspaceConfig)
  : dict (result WorkspaceConfig) :=
  map (fun kc => (fst kc, Ok (snd kc))) all_cfg.

(** A scalar that is no string, or a string of ASCII characters. *)
Definition ascii_scalar (v : scalar) : bool :=
  match v with
  | SStr s => Str.is_ascii s
  | _ => true
  end.

(** A scalar whose text [str()] and [str.lower()] give as the file has
    it: a string of ASCII characters, an integer within the bound on
    the digits, [None] or a boolean. *)
Definition plain_scalar (v : scalar) : bool :=
  match v with
  | SStr s => Str.is_ascii s
  | SInt z =>
      (String.length (Str.of_int (Z.abs z)) <=? Str.max_str_digits)%nat
  | _ => true
  end.

(** A scalar that is no string, or a string that [int()] converts alike
    with and without the bound on the digits: ASCII text of no more
    characters than the bound. *)
Definition short_ascii_scalar (v : scalar) : bool :=
  match v with
  | SStr s => Str.is_ascii s && (String.length s <=? Str.max_str_digits)%nat
  | _ => true
  end.

End Notions.

(** * Properties *)

(** ** The embedding on known values *)

Example md5_of_empty :
  MD5.hexdigest_int "" = 281949768489412648962353822266799178366.
Proof. vm_compute. reflexivity. Qed.

Example md5_of_abc :
  MD5.hexdigest_int "abc" = 191415658344158766168031473277922803570.
Proof. vm_compute. reflexivity. Qed.

Example bucket_of_user_42 : GrowthBook.bucket_of "exp1" "user-42" = 71.
Proof. vm_compute. reflexivity. Qed.

Example round_0_00006 :
  Float.round Negotiation.f_0_00006 4 = Negotiation.f_0_0001.
Proof. vm_compute. reflexivity. Qed.

(** [0.05 + 0.10] is [0.15000000000000002], which rounds to [0.15]. *)
Example sum_then_round :
  Float.add Negotiation.f_0_05 Negotiation.f_0_10
  = S754_finite false 5404319552844596 (-55)
  /\ Float.round (S754_finite false 5404319552844596 (-55)) 4
     = Negotiation.f_0_15.
Proof. vm_compute. split; reflexivity. Qed.

(** Equal keys keep their input order, an [int] and a [float] compare
    by value. *)
Example sorted_reverse_stable :
  sorted_reverse snd
    [("a", NFloat (S754_finite false 4503599627370496 (-52)));
     ("b", NInt 2);
     ("c", NFloat (S754_finite false 4503599627370496 (-52)));
     ("d", NFloat (S754_finite false 4503599627370496 (-51)))]
  = [("b", NInt 2);
     ("d", NFloat (S754_finite false 4503599627370496 (-51)));
     ("a", NFloat (S754_finite false 4503599627370496 (-52)));
     ("c", NFloat (S754_finite false 4503599627370496 (-52)))].
Proof. vm_compute. reflexivity. Qed.

Example int_of_text :
  map Str.to_int [" 42 "; "-7"; "+1_000"; "1__0"; ""; "4 2"]
  = [Ok 42; Ok (-7); Ok 1000; Raise ValueError; Raise ValueError;
     Raise ValueError].
Proof. vm_compute. reflexivity. Qed.

(** [int()] does not skip the separators 28 to 31, which [strip]
    removes. *)
Example int_of_separator :
  Str.to_int (String (ascii_of_nat 28) "70") = Raise ValueError
  /\ Str.strip (String (ascii_of_nat 28) "70") = "70"%string.
Proof. vm_compute. split; reflexivity. Qed.

(** The hygiene stage on an email without domain emits one backfill
    action, with the domain of the address. *)
Example hygiene_backfills_domain :
  GTM.hygiene_evaluate "acme" [("email", SStr "a@b.com")]
  = Ok (JDict
          [("actions",
            JList
              [GTM.webhook "webhooks/hygiene_backfill"
                 [("workspace_id", JStr "acme");
                  ("domain", JStr "b.com");
                  ("record", JDict [("email", JStr "a@b.com")])]])]).
Proof. vm_compute. reflexivity. Qed.

(** The lifecycle stage for stage "poc" without its required fields
    emits one action listing both. *)
Example lifecycle_lists_missing_fields :
  GTM.lifecycle_evaluate GTM.acme_file "acme" [("stage", SStr "poc")]
  = Ok (JDict
          [("stage", JStr "poc");
           ("missing_fields", JList [JStr "problem"; JStr "success_criteria"]);
           ("actions",
            JList
              [GTM.webhook "webhooks/lifecycle_enforce"
                 [("workspace_id", JStr "acme");
                  ("stage", JStr "poc");
                  ("missing_fields",
                   JList [JStr "problem"; JStr "success_criteria"]);
                  ("record", JDict [("stage", JStr "poc")])]])]).
Proof. vm_compute. reflexivity. Qed.

(** A definition of done that is no dict has no [get]. *)
Example lifecycle_without_rules_dict :
  GTM.lifecycle_evaluate (GTM.Entries [("acme", Ok GTM.acme_listed)]) "acme"
    [("stage", SStr "poc")]
  = Raise AttributeError.
Proof. vm_compute. reflexivity. Qed.

(** The store validates the entry of every workspace. *)
Example load_validates_every_entry :
  GTM.load GTM.broken_file "acme" = Raise ValidationError
  /\ GTM.load GTM.acme_file "acme" = Ok GTM.acme.
Proof. vm_compute. split; reflexivity. Qed.

Example variants_of_exp1 :
  map (fun user => GrowthBook.get_experiment_variant "exp1" user None
                     GrowthBook.client0)
      ["user-42"; "user-1"; "user-36"]
  = [Ok None; Ok (Some "control"); Ok (Some "treatment")].
Proof. vm_compute. reflexivity. Qed.

(** ** Results and dictionaries *)

Lemma bind_ok {A B : Type} (r : result A) (k : A -> result B) (b : B) :
  bind r k = Ok b -> exists a, r = Ok a /\ k a = Ok b.
Proof.
  destruct r as [a | e]; simpl; intros H; [exists a; auto | discriminate].
Qed.

Ltac bind_inv H :=
  let x := fresh "x" in
  let Hx := fresh "Hx" in
  apply bind_ok in H; destruct H as [x [Hx H]].

Lemma dict_get_In {V : Type} (k : string) (v : V) (d : dict V) :
  dict_get k d = Some v -> In (k, v) d.
Proof.
  induction d as [| [k' v'] d IH]; simpl; [discriminate |].
  destruct (String.eqb_spec k k') as [-> | Hne]; intros H.
  - injection H as ->. now left.
  - right. auto.
Qed.

Lemma dict_get_key {V : Type} (k : string) (d : dict V) :
  In k (dict_keys d) -> exists v, dict_get k d = Some v.
Proof.
  induction d as [| [k' v'] d IH]; simpl; [tauto |].
  intros [<- | Hin].
  - rewrite String.eqb_refl. eauto.
  - destruct (String.eqb k k'); eauto.
Qed.

Lemma dict_set_keys {V : Type} (k k' : string) (v : V) (d : dict V) :
  In k' (dict_keys (dict_set k v d)) -> k' = k \/ In k' (dict_keys d).
Proof.
  induction d as [| [k0 v0] d IH]; simpl.
  - intros [<- | []]. now left.
  - destruct (String.eqb_spec k k0) as [-> | Hne]; simpl.
    + intros [<- | Hin]; auto.
    + intros [<- | Hin]; auto. destruct (IH Hin); auto.
Qed.

(** ** The stable descending sort *)

Section SortedReverseFacts.
Context {A : Type} (key : A -> number).

Lemma insert_desc_In (x y : A) (l : list A) :
  In y (insert_desc key x l) <-> y = x \/ In y l.
Proof.
  induction l as [| z l IH]; simpl.
  - intuition.
  - destruct (number_ltb (key x) (key z)); simpl; rewrite ?IH; intuition.
Qed.

Lemma sorted_reverse_In (y : A) (l : list A) :
  In y (sorted_reverse key l) <-> In y l.
Proof.
  induction l as [| x l IH]; simpl; [tauto |].
  rewrite insert_desc_In, IH. intuition.
Qed.

Lemma insert_desc_length (x : A) (l : list A) :
  List.length (insert_desc key x l) = S (List.length l).
Proof.
  induction l as [| z l IH]; simpl; [reflexivity |].
  destruct (number_ltb (key x) (key z)); simpl; congruence.
Qed.
End SortedReverseFacts.

(** ** Floats *)

Lemma float_positive_not_zero (x : float) :
  number_ltb (NInt 0) (NFloat x) = true -> Float.eqb x Float.zero = false.
Proof.
  destruct x as [s | s | | s m e]; simpl; try discriminate.
  - destruct s; reflexivity.
  - unfold Float.eqb, SFeqb. simpl. destruct s; reflexivity.
Qed.

Lemma float_ltb_number_ltb (x : float) :
  Float.ltb Float.zero x = true -> number_ltb (NInt 0) (NFloat x) = true.
Proof.
  intros H.
  destruct x as [s | s | | s m e]; try destruct s;
    try (cbv in H; discriminate H); try reflexivity.
  unfold number_ltb, number_compare, compare_int_float.
  destruct (0 <=? e) eqn:He; [| reflexivity].
  apply Z.leb_le in He.
  assert (Hpos : 0 < Z.pos m * 2 ^ e)
    by (apply Z.mul_pos_pos; [lia | apply Z.pow_pos_nonneg; lia]).
  apply Z.compare_lt_iff in Hpos. rewrite Hpos. reflexivity.
Qed.

(** A positive cost added to a total of zero exceeds a budget of zero. *)
Lemma positive_cost_exceeds_zero (cost budget : float) :
  Float.ltb Float.zero cost = true ->
  Float.eqb budget Float.zero = true ->
  Float.leb (Float.add Float.zero cost) budget = false.
Proof.
  destruct cost as [s | s | | s m e]; simpl; try discriminate;
    destruct s; try discriminate; intros _;
    destruct budget as [sb | sb | | sb mb eb]; simpl; try discriminate;
    try reflexivity; destruct sb; discriminate.
Qed.

Lemma of_int_percent (q : Z) :
  0 <= q <= 100 -> exists f, Float.of_int q = Ok f.
Proof.
  intros Hq.
  assert (Hall : percent_convertible = true) by (vm_compute; reflexivity).
  unfold percent_convertible in Hall. rewrite forallb_forall in Hall.
  specialize (Hall (Z.to_nat q)).
  rewrite Z2Nat.id in Hall by lia.
  destruct (Float.of_int q) as [f | e]; [eauto |].
  assert (In (Z.to_nat q) (seq 0 101)) by (apply in_seq; lia).
  specialize (Hall H). discriminate.
Qed.

(** ** The auction *)

Module NegotiationFacts.
Import Negotiation.

Lemma accepted_cost_snoc (request : NegotiationRequest)
    (agents : list string) (agent : string) :
  accepted_cost request (agents ++ [agent])
  = Float.add (accepted_cost request agents) (bid_of request agent).
Proof.
  unfold accepted_cost. rewrite fold_left_app. reflexivity.
Qed.

Lemma dict_item_bid_of (request : NegotiationRequest) (agent : string)
    (cost : float) :
  dict_item agent (agent_bids request) = Ok cost ->
  bid_of request agent = cost.
Proof.
  unfold dict_item, bid_of.
  destruct (dict_get agent (agent_bids request)); intros H;
    [injection H as ->; reflexivity | discriminate].
Qed.

(** The loop keeps the total equal to the cost of the agents accepted
    so far, and within the budget. *)
Lemma select_loop_invariant (request : NegotiationRequest)
    (sorted_agents : list (string * number)) :
  forall selected total selected' total',
    select_loop request sorted_agents (selected, total)
    = Ok (selected', total') ->
    total = accepted_cost request selected ->
    Float.leb total (budget_limit request) = true ->
    total' = accepted_cost request selected'
    /\ Float.leb total' (budget_limit request) = true.
Proof.
  induction sorted_agents as [| [agent ratio] rest IH];
    intros selected total selected' total' Hloop Hsum Hle.
  - simpl in Hloop. injection Hloop as <- <-. auto.
  - simpl in Hloop. bind_inv Hloop. destruct x as [sel1 tot1].
    unfold select_step in Hx. bind_inv Hx.
    apply dict_item_bid_of in Hx0.
    destruct (Float.leb (Float.add total x) (budget_limit request)) eqn:Hfit;
      injection Hx as <- <-.
    + apply (IH _ _ _ _ Hloop); [| exact Hfit].
      rewrite accepted_cost_snoc, Hx0, Hsum. reflexivity.
    + apply (IH _ _ _ _ Hloop); assumption.
Qed.

(** Every agent the loop accepts comes from the sorted list or was
    accepted before. *)
Lemma select_loop_subset (request : NegotiationRequest)
    (sorted_agents : list (string * number)) :
  forall st st',
    select_loop request sorted_agents st = Ok st' ->
    forall agent, In agent (fst st') ->
      In agent (fst st) \/ In agent (map fst sorted_agents).
Proof.
  induction sorted_agents as [| [a ratio] rest IH]; intros st st' Hloop agent Hin.
  - simpl in Hloop. injection Hloop as <-. auto.
  - simpl in Hloop. bind_inv Hloop. destruct st as [selected total].
    unfold select_step in Hx. bind_inv Hx.
    destruct (IH _ _ Hloop agent Hin) as [H1 | H1]; [| simpl; auto].
    destruct (Float.leb _ _); injection Hx as <-; simpl in *; auto.
    apply in_app_or in H1. destruct H1 as [H1 | [<- | []]]; auto.
Qed.

(** *** The loops return *)

Lemma value_ratio_keys (request : NegotiationRequest)
    (vr vr' : dict number) (item : string * float) :
  value_ratio request vr item = Ok vr' ->
  forall k, In k (dict_keys vr') -> k = fst item \/ In k (dict_keys vr).
Proof.
  destruct item as [agent bid]. unfold value_ratio.
  destruct (number_ltb (NInt 0) (NFloat bid)); intros H k Hk.
  - bind_inv H. bind_inv H. injection H as <-.
    apply dict_set_keys in Hk. exact Hk.
  - injection H as <-. apply dict_set_keys in Hk. exact Hk.
Qed.

Lemma value_ratios_loop_keys (request : NegotiationRequest)
    (items : list (string * float)) :
  forall vr vr',
    value_ratios_loop request items vr = Ok vr' ->
    forall k, In k (dict_keys vr') ->
      In k (map fst items) \/ In k (dict_keys vr).
Proof.
  induction items as [| item rest IH]; intros vr vr' H k Hk.
  - simpl in H. injection H as <-. auto.
  - simpl in H. bind_inv H.
    destruct (IH _ _ H k Hk) as [H1 | H1]; [simpl; auto |].
    destruct (value_ratio_keys _ _ _ _ Hx k H1); simpl; auto.
Qed.

Lemma value_ratio_returns (request : NegotiationRequest)
    (vr : dict number) (item : string * float) :
  quality_in_range request -> returns (value_ratio request vr item).
Proof.
  intros Hq. destruct item as [agent bid]. unfold value_ratio, returns.
  destruct (number_ltb (NInt 0) (NFloat bid)) eqn:Hpos; [| eauto].
  assert (Hconv : exists f,
             Float.of_int
               match dict_get agent (quality_scores request) with
               | Some q => q
               | None => 50
               end = Ok f).
  { apply of_int_percent.
    destruct (dict_get agent (quality_scores request)) eqn:E;
      [exact (Hq _ _ E) | lia]. }
  destruct Hconv as [f ->]. simpl. unfold Float.truediv.
  rewrite (float_positive_not_zero _ Hpos). simpl. eauto.
Qed.

Lemma value_ratios_loop_returns (request : NegotiationRequest)
    (items : list (string * float)) :
  quality_in_range request ->
  forall vr, returns (value_ratios_loop request items vr).
Proof.
  intros Hq. induction items as [| item rest IH]; intros vr; simpl.
  - unfold returns. eauto.
  - destruct (value_ratio_returns request vr item Hq) as [vr' ->]. simpl.
    apply IH.
Qed.

Lemma select_loop_returns (request : NegotiationRequest)
    (sorted_agents : list (string * number)) :
  (forall agent, In agent (map fst sorted_agents) ->
                 In agent (dict_keys (agent_bids request))) ->
  forall st, returns (select_loop request sorted_agents st).
Proof.
  induction sorted_agents as [| [agent ratio] rest IH]; intros Hkeys st; simpl.
  - unfold returns. eauto.
  - destruct st as [selected total]. unfold select_step.
    destruct (dict_get_key agent (agent_bids request)) as [cost Hcost];
      [apply Hkeys; simpl; auto |].
    unfold dict_item. rewrite Hcost. simpl.
    destruct (Float.leb _ _); simpl; apply IH;
      intros a Ha; apply Hkeys; simpl; auto.
Qed.

Lemma sorted_agents_are_bidders (request : NegotiationRequest)
    (vr : dict number) :
  value_ratios_loop request (agent_bids request) [] = Ok vr ->
  forall agent, In agent (map fst (sorted_reverse snd vr)) ->
                In agent (dict_keys (agent_bids request)).
Proof.
  intros Hvr agent Hin.
  apply in_map_iff in Hin. destruct Hin as [[a r] [<- Hin]].
  apply sorted_reverse_In in Hin.
  destruct (value_ratios_loop_keys _ _ _ _ Hvr a) as [H | []]; [| exact H].
  unfold dict_keys. apply in_map_iff. exists (a, r). auto.
Qed.

(** With quality scores in 0..100 the auction returns a response. *)
Lemma run_auction_returns (request : NegotiationRequest) :
  quality_in_range request -> returns (run_auction request).
Proof.
  intros Hq. unfold run_auction, auction_selection.
  destruct (value_ratios_loop_returns request (agent_bids request) Hq [])
    as [vr Hvr].
  rewrite Hvr. simpl.
  destruct (select_loop_returns request (sorted_reverse snd vr)
              (sorted_agents_are_bidders request vr Hvr) ([], Float.zero))
    as [[selected total] ->].
  simpl. unfold returns. eauto.
Qed.

(** C3 (as amended).  For every budget B >= 0 and every bid and quality
    map, the response of [run_auction] selects agents whose accumulated
    cost, the sum of their bids in the order of acceptance, is at most
    B; the [total_cost] it reports is that sum rounded to 4 decimals. *)
Theorem accumulated_cost_within_budget (request : NegotiationRequest)
    (response : NegotiationResponse) :
  Float.leb Float.zero (budget_limit request) = true ->
  run_auction request = Ok response ->
  Float.leb (accepted_cost request (selected_agents response))
            (budget_limit request) = true
  /\ total_cost response
     = Float.round (accepted_cost request (selected_agents response)) 4
  /\ (forall agent, In agent (selected_agents response) ->
                    In agent (dict_keys (agent_bids request))).
Proof.
  intros Hbudget Hrun. unfold run_auction in Hrun. bind_inv Hrun.
  destruct x as [selected total]. injection Hrun as <-. simpl.
  unfold auction_selection in Hx. bind_inv Hx.
  destruct (select_loop_invariant _ _ _ _ _ _ Hx eq_refl Hbudget)
    as [Hsum Hle].
  rewrite <- Hsum. repeat split; auto.
  intros agent Hin.
  destruct (select_loop_subset _ _ _ _ Hx agent Hin) as [[] | H].
  exact (sorted_agents_are_bidders request x Hx0 agent H).
Qed.

Lemma accumulated_cost_within_budget_witness :
  Float.leb (accepted_cost scenario_request ["A"; "B"])
            (budget_limit scenario_request) = true
  /\ f_0_15 = Float.round (accepted_cost scenario_request ["A"; "B"]) 4
  /\ (forall agent, In agent ["A"; "B"] ->
                    In agent (dict_keys (agent_bids scenario_request))).
Proof.
  apply (accumulated_cost_within_budget scenario_request scenario_response).
  - vm_compute. reflexivity.
  - vm_compute. reflexivity.
Defined.

(** C3, counterexample.  One bid of 0.00006 under a budget of 0.00006 is
    accepted and reported with a total cost of 0.0001, above the
    budget. *)
Lemma reported_total_exceeds_budget :
  Float.leb Float.zero (budget_limit rounding_request) = true
  /\ run_auction rounding_request
     = Ok {| consensus_reached := false;
             selected_agents := ["research"];
             total_cost := f_0_0001;
             rationale := (1%nat, f_0_00006) |}
  /\ Float.leb f_0_0001 (budget_limit rounding_request) = false
  /\ Float.ltb (budget_limit rounding_request) f_0_0001 = true.
Proof. vm_compute. repeat split; reflexivity. Qed.

(** *** A budget of zero *)

Lemma select_loop_nothing_affordable (request : NegotiationRequest)
    (sorted_agents : list (string * number)) :
  Float.eqb (budget_limit request) Float.zero = true ->
  (forall agent, In agent (map fst sorted_agents) ->
     exists cost, dict_get agent (agent_bids request) = Some cost
                  /\ Float.ltb Float.zero cost = true) ->
  select_loop request sorted_agents ([], Float.zero) = Ok ([], Float.zero).
Proof.
  intros Hzero. induction sorted_agents as [| [agent ratio] rest IH];
    intros Hcost; [reflexivity |].
  destruct (Hcost agent) as [cost [Hget Hpos]]; [simpl; auto |].
  change (select_loop request ((agent, ratio) :: rest) ([], Float.zero))
    with (bind (select_step request ([], Float.zero) (agent, ratio))
               (select_loop request rest)).
  unfold select_step, dict_item. rewrite Hget.
  cbn [bind]. rewrite (positive_cost_exceeds_zero _ _ Hpos Hzero).
  apply IH. intros a Ha. apply Hcost. simpl. auto.
Qed.

(** C4 (as amended).  With a budget of 0 and every bid cost strictly
    positive (quality scores in 0..100), the auction returns an empty
    selection, a total cost of 0 and no consensus. *)
Theorem zero_budget_positive_bids (request : NegotiationRequest) :
  Float.eqb (budget_limit request) Float.zero = true ->
  Forall (fun item => Float.ltb Float.zero (snd item) = true)
         (agent_bids request) ->
  quality_in_range request ->
  run_auction request = Ok (empty_response (budget_limit request)).
Proof.
  intros Hzero Hbids Hq. unfold run_auction, auction_selection.
  destruct (value_ratios_loop_returns request (agent_bids request) Hq [])
    as [vr Hvr].
  rewrite Hvr. simpl.
  rewrite select_loop_nothing_affordable; [reflexivity | exact Hzero |].
  intros agent Hin.
  apply (sorted_agents_are_bidders request vr Hvr) in Hin.
  destruct (dict_get_key _ _ Hin) as [cost Hcost].
  exists cost. split; [exact Hcost |].
  rewrite Forall_forall in Hbids.
  exact (Hbids _ (dict_get_In _ _ _ Hcost)).
Qed.

Lemma zero_budget_positive_bids_witness :
  run_auction no_budget_request = Ok (empty_response Float.zero).
Proof.
  apply (zero_budget_positive_bids no_budget_request).
  - vm_compute. reflexivity.
  - repeat constructor.
  - intros agent q H. simpl in H.
    destruct (String.eqb agent "research"); [| discriminate].
    injection H as <-. lia.
Defined.

(** C4, counterexample.  With a budget of 0, two bids of cost 0 are
    both accepted: the selection is not empty and consensus is
    reached. *)
Lemma zero_budget_free_bids_selected :
  budget_limit free_bids_request = Float.zero
  /\ run_auction free_bids_request
     = Ok {| consensus_reached := true;
             selected_agents := ["timing"; "qualification"];
             total_cost := Float.zero;
             rationale := (2%nat, Float.zero) |}.
Proof. vm_compute. split; reflexivity. Qed.

End NegotiationFacts.

(** ** Feature gates *)

Lemma dict_get_set_same {V : Type} (k : string) (v : V) (d : dict V) :
  dict_get k (dict_set k v d) = Some v.
Proof.
  induction d as [| [k' v'] d IH]; simpl.
  - now rewrite String.eqb_refl.
  - destruct (String.eqb k k') eqn:E; simpl.
    + now rewrite String.eqb_refl.
    + now rewrite E.
Qed.

Lemma dict_get_set_other {V : Type} (k k' : string) (v : V) (d : dict V) :
  k' <> k -> dict_get k' (dict_set k v d) = dict_get k' d.
Proof.
  intros Hne. induction d as [| [k0 v0] d IH]; simpl.
  - apply String.eqb_neq in Hne. now rewrite Hne.
  - destruct (String.eqb_spec k k0) as [-> | Hk]; simpl.
    + apply String.eqb_neq in Hne. now rewrite Hne.
    + destruct (String.eqb k' k0); auto.
Qed.

Module GrowthBookFacts.
Import GrowthBook.
Local Open Scope list_scope.

Lemma evaluate_rule_no_attributes (r : Rule) :
  _evaluate_rule r [] = Ok false.
Proof.
  unfold _evaluate_rule.
  destruct (condition r) as [c |]; [| reflexivity].
  destruct (attribute c) as [k |]; [| reflexivity].
  simpl. now rewrite orb_true_r.
Qed.

Lemma first_match_no_attributes (rs : list Rule) (on : bool) :
  first_match rs [] on = Ok (VScalar (SBool on)).
Proof.
  induction rs as [| r rs IH]; simpl; [reflexivity |].
  rewrite evaluate_rule_no_attributes. simpl. exact IH.
Qed.

Lemma first_match_skip (before rest : list Rule) (attrs : dict scalar)
    (on : bool) :
  Forall (fun r => _evaluate_rule r attrs = Ok false) before ->
  first_match (before ++ rest) attrs on = first_match rest attrs on.
Proof.
  induction 1 as [| r before Hr _ IH]; simpl; [reflexivity |].
  rewrite Hr. simpl. exact IH.
Qed.

(** The value [is_on] gives for a registered flag is the outcome of
    the loop over its rules. *)
Lemma is_on_value (clk : clock) (n : nat) (k : string)
    (attributes : option (dict scalar)) (c : GrowthBookClient)
    (feature : FeatureFlag) :
  local_mode c = true ->
  dict_get k (_features c) = Some feature ->
  fst (fst (is_on clk n k attributes c))
  = first_match (rules feature) (attributes_or_empty attributes)
      (enabled feature).
Proof.
  intros Hlocal Hget. unfold is_on. rewrite Hlocal, Hget. simpl.
  destruct (rules feature) as [| r rs] eqn:Hrules.
  - destruct attributes as [[| a attrs] |]; reflexivity.
  - destruct attributes as [[| a attrs] |]; simpl; try reflexivity;
      rewrite evaluate_rule_no_attributes; simpl;
      now rewrite first_match_no_attributes.
Qed.

Lemma is_on_state (clk : clock) (n : nat) (k : string)
    (attributes : option (dict scalar)) (c : GrowthBookClient)
    (feature : FeatureFlag) :
  local_mode c = true ->
  dict_get k (_features c) = Some feature ->
  snd (fst (is_on clk n k attributes c))
  = {| local_mode := true;
       _features :=
         dict_set k (set_last_evaluated (clk n) feature) (_features c);
       _experiments := _experiments c;
       _configs := _configs c;
       _evaluation_log :=
         _evaluation_log c ++
           [{| log_timestamp := clk (S n); log_feature_key := k;
               log_value := VScalar (SBool (enabled feature));
               log_attributes := attributes |}] |}.
Proof.
  intros Hlocal Hget. unfold is_on. rewrite Hlocal, Hget. simpl.
  destruct (rules feature) as [| r rs];
    destruct attributes as [[| a attrs] |]; simpl; rewrite Hlocal; reflexivity.
Qed.

(** C7 (as amended).  In local mode, for a registered flag, [is_on]
    evaluates the rules in order against the attributes: when a rule
    matches and every rule before it evaluates to no match, [is_on]
    returns that rule's value entry, or the flag's [enabled] when the
    rule has none; when no rule matches it returns [enabled]; when the
    comparison of a rule raises before any rule matched, [is_on] raises
    that exception.  In every case the flag's [last_evaluated] is set to
    the current time and the evaluation is logged. *)
Theorem is_on_first_match (clk : clock) (n : nat) (k : string)
    (attributes : option (dict scalar)) (c : GrowthBookClient)
    (feature : FeatureFlag) :
  local_mode c = true ->
  dict_get k (_features c) = Some feature ->
  let attrs := attributes_or_empty attributes in
  let outcome := is_on clk n k attributes c in
  let no_match := fun r => _evaluate_rule r attrs = Ok false in
  (forall before r after,
      rules feature = before ++ r :: after ->
      Forall no_match before ->
      _evaluate_rule r attrs = Ok true ->
      fst (fst outcome) = Ok (override r (enabled feature)))
  /\ (Forall no_match (rules feature) ->
      fst (fst outcome) = Ok (VScalar (SBool (enabled feature))))
  /\ (forall before r after e,
         rules feature = before ++ r :: after ->
         Forall no_match before ->
         _evaluate_rule r attrs = Raise e ->
         fst (fst outcome) = Raise e)
  /\ option_map last_evaluated (dict_get k (_features (snd (fst outcome))))
     = Some (Some (clk n))
  /\ (forall k', k' <> k ->
        dict_get k' (_features (snd (fst outcome)))
        = dict_get k' (_features c))
  /\ List.length (_evaluation_log (snd (fst outcome)))
     = S (List.length (_evaluation_log c)).
Proof.
  intros Hlocal Hget attrs outcome no_match. subst outcome.
  rewrite (is_on_value clk n k attributes c feature Hlocal Hget).
  rewrite (is_on_state clk n k attributes c feature Hlocal Hget).
  fold attrs. simpl. repeat split.
  - intros before r after Hsplit Hbefore Hr.
    rewrite Hsplit, first_match_skip by exact Hbefore.
    simpl. rewrite Hr. reflexivity.
  - intros Hall. rewrite <- (app_nil_r (rules feature)).
    rewrite first_match_skip by exact Hall. reflexivity.
  - intros before r after e Hsplit Hbefore Hr.
    rewrite Hsplit, first_match_skip by exact Hbefore.
    simpl. rewrite Hr. reflexivity.
  - rewrite dict_get_set_same. reflexivity.
  - intros k' Hne. apply dict_get_set_other. exact Hne.
  - rewrite length_app. simpl. lia.
Qed.

Lemma is_on_first_match_witness :
  fst (fst (is_on clock0 0 "enable_research_agent" (Some pro_attributes)
              client0))
  = Ok (VScalar (SBool true)).
Proof.
  destruct (is_on_first_match clock0 0 "enable_research_agent"
              (Some pro_attributes) client0 recent_flag eq_refl eq_refl)
    as [Hfirst _].
  apply (Hfirst [plan_is_free] plan_is_pro []).
  - reflexivity.
  - repeat constructor.
  - reflexivity.
Defined.

(** C7, counterexample.  The flag has the rules "plan greater_than 5"
    and "plan equals pro"; with the attribute plan = "pro" the second
    rule is the first whose condition matches, with override [True],
    but comparing "pro" with 5 raises and [is_on] raises with it. *)
Lemma is_on_raises_before_match :
  dict_get "enable_timing_agent" (_features client0) = Some unused_flag
  /\ rules unused_flag = [plan_above_5; plan_is_pro]
  /\ _evaluate_rule plan_above_5 pro_attributes = Raise TypeError
  /\ _evaluate_rule plan_is_pro pro_attributes = Ok true
  /\ fst (fst (is_on clock0 0 "enable_timing_agent" (Some pro_attributes)
                 client0))
     = Raise TypeError.
Proof. repeat split. Qed.

(** C10.  [is_on] with a key that has no flag returns [False] and
    leaves the client as it was: no time stamp is set, nothing is
    logged, and the clock is not read. *)
Theorem is_on_unknown_key (clk : clock) (n : nat) (k : string)
    (attributes : option (dict scalar)) (c : GrowthBookClient) :
  dict_get k (_features c) = None ->
  is_on clk n k attributes c = (Ok (VScalar (SBool false)), c, n).
Proof.
  intros Hnone. unfold is_on. rewrite Hnone.
  destruct (local_mode c); reflexivity.
Qed.

Lemma is_on_unknown_key_witness :
  is_on clock0 0 "enable_dark_mode" (Some pro_attributes) client0
  = (Ok (VScalar (SBool false)), client0, 0%nat).
Proof.
  apply (is_on_unknown_key clock0 0 "enable_dark_mode"
           (Some pro_attributes) client0).
  reflexivity.
Defined.

(** *** Stale flags *)

Lemma whole_days (elapsed days : Z) :
  (days <? elapsed / microseconds_per_day)
  = ((days + 1) * microseconds_per_day <=? elapsed).
Proof.
  assert (Hday : 0 < microseconds_per_day) by (vm_compute; reflexivity).
  destruct (Z.leb_spec ((days + 1) * microseconds_per_day) elapsed) as [H | H].
  - apply Z.ltb_lt.
    assert (days + 1 <= elapsed / microseconds_per_day); [| lia].
    apply Z.div_le_lower_bound; lia.
  - apply Z.ltb_ge.
    assert (elapsed / microseconds_per_day < days + 1); [| lia].
    apply Z.div_lt_upper_bound; lia.
Qed.

Lemma is_stale_frozen (clk : clock) (now : datetime) (n : nat)
    (f : FeatureFlag) (days : Z) :
  frozen clk now ->
  fst (is_stale clk n f days) = whole_days_exceed now days f.
Proof.
  intros Hclk. unfold is_stale, whole_days_exceed, timedelta_days.
  destruct (last_evaluated f) as [t |]; simpl; [| reflexivity].
  rewrite Hclk. apply whole_days.
Qed.

Lemma stale_filter_frozen (clk : clock) (now : datetime)
    (flags : list FeatureFlag) (days : Z) :
  frozen clk now ->
  forall n,
    fst (stale_filter clk n flags days)
    = filter (whole_days_exceed now days) flags.
Proof.
  intros Hclk. induction flags as [| f rest IH]; intros n; simpl;
    [reflexivity |].
  rewrite <- (is_stale_frozen clk now n f days Hclk).
  destruct (is_stale clk n f days) as [stale n1]. simpl.
  specialize (IH n1).
  destruct (stale_filter clk n1 rest days) as [others n2]. simpl in *.
  destruct stale; congruence.
Qed.

Lemma to_dicts_keys (clk : clock) (flags : list FeatureFlag) :
  forall n, map fd_key (fst (to_dicts clk n flags)) = map key flags.
Proof.
  induction flags as [| f rest IH]; intros n; simpl; [reflexivity |].
  unfold _feature_to_dict.
  destruct (is_stale clk n f 30) as [stale n1].
  specialize (IH n1).
  destruct (to_dicts clk n1 rest) as [ds n2]. simpl in *. congruence.
Qed.

(** What [get_stale_flags] returns while the clock stands at [now]:
    the flags, in registry order, that were never evaluated or whose
    last evaluation lies at least [days + 1] whole days back. *)
Lemma get_stale_flags_whole_days (clk : clock) (now : datetime) (n : nat)
    (days : Z) (c : GrowthBookClient) :
  frozen clk now ->
  local_mode c = true ->
  map fd_key (fst (get_stale_flags clk n days c))
  = map key (filter (whole_days_exceed now days) (dict_values (_features c))).
Proof.
  intros Hclk Hlocal. unfold get_stale_flags. rewrite Hlocal.
  rewrite <- (stale_filter_frozen clk now _ days Hclk n).
  destruct (stale_filter clk n (dict_values (_features c)) days)
    as [stale n1].
  simpl. apply to_dicts_keys.
Qed.

(** A flag evaluated within the last [days] days is not returned. *)
Lemma evaluated_within_days_not_stale (now : datetime) (days : Z)
    (f : FeatureFlag) (t : datetime) :
  last_evaluated f = Some t ->
  now - t <= days * microseconds_per_day ->
  whole_days_exceed now days f = false.
Proof.
  intros Hlast Hrecent. unfold whole_days_exceed. rewrite Hlast.
  apply Z.leb_gt.
  assert (0 < microseconds_per_day) by (vm_compute; reflexivity). lia.
Qed.

(** C8, at the failing input.  A flag last evaluated 30 days and 12
    hours ago has not been evaluated for more than 30 days, and
    [get_stale_flags(30)] does not return it. *)
Theorem stale_flag_missed :
  dict_get "enable_x402_payments" (_features client0) = Some dormant_flag
  /\ more_than_days_ago now0 30 dormant_flag
  /\ fst (is_stale clock0 0 dormant_flag 30) = false
  /\ map fd_key (fst (get_stale_flags clock0 0 30 client0))
     = ["enable_timing_agent"].
Proof.
  repeat split; vm_compute; reflexivity.
Qed.

(** *** Experiments *)

Lemma bucket_range (k user_id : string) : 0 <= bucket_of k user_id < 100.
Proof. unfold bucket_of. apply Z.mod_pos_bound. lia. Qed.

(** The assignment reads the client's mode and, of the experiment,
    its status, traffic percentage and variations only. *)
Lemma variant_depends_on (k user_id : string)
    (a1 a2 : option (dict scalar)) (c1 c2 : GrowthBookClient) :
  local_mode c1 = local_mode c2 ->
  option_map assignment_inputs (dict_get k (_experiments c1))
  = option_map assignment_inputs (dict_get k (_experiments c2)) ->
  get_experiment_variant k user_id a1 c1
  = get_experiment_variant k user_id a2 c2.
Proof.
  intros Hmode Hexp. unfold get_experiment_variant. rewrite Hmode.
  destruct (local_mode c2); [| reflexivity].
  destruct (dict_get k (_experiments c1)) as [e1 |],
           (dict_get k (_experiments c2)) as [e2 |];
    simpl in Hexp; try discriminate; [| reflexivity].
  unfold assignment_inputs in Hexp. injection Hexp as -> -> ->.
  reflexivity.
Qed.




(** Evaluating a flag in between does not change the variant. *)
Lemma variant_unchanged_by_is_on (clk : clock) (n : nat)
    (flag_key k user_id : string) (a a' : option (dict scalar))
    (c : GrowthBookClient) :
  get_experiment_variant k user_id a (snd (fst (is_on clk n flag_key a' c)))
  = get_experiment_variant k user_id a c.
Proof.
  apply variant_depends_on.
  - unfold is_on. destruct (local_mode c) eqn:Hl; [| simpl; now rewrite Hl].
    destruct (dict_get flag_key (_features c)) as [f |]; [| simpl; now rewrite Hl].
    simpl. destruct (rules f), a' as [[| ? ?] |]; simpl; now rewrite Hl.
  - unfold is_on. destruct (local_mode c); [| reflexivity].
    destruct (dict_get flag_key (_features c)) as [f |]; [| reflexivity].
    simpl. destruct (rules f), a' as [[| ? ?] |]; reflexivity.
Qed.

(** *** The walk over the variations *)

Lemma last_cons {A : Type} (rest : list A) :
  forall (v d : A), last (v :: rest) d = last rest v.
Proof.
  induction rest as [| w rest IH]; intros v d; [reflexivity |].
  change (last (v :: w :: rest) d) with (last (w :: rest) d).
  rewrite (IH w d), (IH w v). reflexivity.
Qed.

Lemma last_In {A : Type} (rest : list A) :
  forall v : A, In (last rest v) (v :: rest).
Proof.
  induction rest as [| w rest IH]; intros v; [simpl; auto |].
  rewrite (last_cons rest w v). right. apply IH.
Qed.

(** The loop, started after [prefix] with the cumulative weight of
    [prefix], finds the first variation whose cumulative weight exceeds
    the normalized bucket. *)
Lemma assign_loop_first_exceeding (normalized : number)
    (suffix : list Variation) :
  forall (prefix : list Variation) (cumulative : number),
    cumulative_weight (prefix ++ suffix) (List.length prefix)
    = Ok cumulative ->
    assign_loop suffix cumulative normalized
    = (found <- first_exceeding (prefix ++ suffix) normalized
                  (List.length prefix) (List.length suffix) ;;
       Ok (option_map
             (fun i => var_key (nth i (prefix ++ suffix) no_variation))
             found)).
Proof.
  induction suffix as [| v rest IH]; intros prefix cumulative Hcum;
    [reflexivity |].
  cbn [assign_loop first_exceeding cumulative_weight List.length].
  rewrite Hcum. cbn [bind]. rewrite nth_middle.
  destruct (number_add cumulative (weight_of v)) as [c' | e] eqn:Hadd;
    cbn [bind]; [| reflexivity].
  destruct (number_ltb normalized c').
  - cbn [bind option_map]. rewrite nth_middle. reflexivity.
  - specialize (IH (prefix ++ [v]) c').
    rewrite <- app_assoc, length_app in IH. cbn [app List.length] in IH.
    rewrite Nat.add_1_r in IH. apply IH.
    cbn [cumulative_weight]. rewrite Hcum. cbn [bind].
    rewrite nth_middle. exact Hadd.
Qed.

Lemma assign_loop_spec (variations : list Variation) (normalized : number) :
  (r <- assign_loop variations (NInt 0) normalized ;;
   match r with
   | Some k => Ok k
   | None =>
       match variations with
       | [] => Ok None
       | v :: vs => Ok (var_key (last vs v))
       end
   end)
  = spec_variant variations normalized.
Proof.
  rewrite (assign_loop_first_exceeding normalized variations [] (NInt 0)
             eq_refl).
  unfold spec_variant. cbn [app List.length].
  destruct (first_exceeding variations normalized 0 (List.length variations))
    as [[i |] | e]; cbn [bind option_map]; try reflexivity.
  destruct variations as [| v vs]; [reflexivity |].
  now rewrite last_cons.
Qed.

Lemma assign_loop_key (normalized : number) (variations : list Variation) :
  forall cumulative k,
    assign_loop variations cumulative normalized = Ok (Some k) ->
    exists v, In v variations /\ k = var_key v.
Proof.
  induction variations as [| v rest IH]; intros cumulative k H;
    [discriminate |].
  cbn [assign_loop] in H. bind_inv H.
  destruct (number_ltb normalized x).
  - injection H as <-. exists v. simpl. auto.
  - destruct (IH _ _ H) as [w [Hin Hk]]. exists w. simpl. auto.
Qed.

(** With a traffic percentage that is a float, as declared, the
    normalized bucket is computed without an exception. *)
Lemma normalized_bucket_defined (bucket : Z) (traffic : float) :
  0 <= bucket < 100 ->
  number_geb (NInt bucket) (NFloat traffic) = false ->
  exists normalized,
    (q <- number_truediv (NInt bucket) (NFloat traffic) ;;
     number_mul q (NInt 100)) = Ok (NFloat normalized).
Proof.
  intros Hb Hinside.
  destruct (of_int_percent bucket) as [f Hf]; [lia |].
  assert (Hnz : Float.eqb traffic Float.zero = false).
  { destruct traffic as [s | s | | s m e]; try reflexivity.
    - exfalso. unfold number_geb, number_compare, compare_int_float in Hinside.
      destruct (bucket ?= 0) eqn:Hc; try discriminate Hinside.
      rewrite Z.compare_lt_iff in Hc. lia.
    - destruct s; reflexivity.
    - destruct s; reflexivity. }
  cbn [number_truediv]. rewrite Hf. cbn [bind]. unfold Float.truediv.
  rewrite Hnz. cbn [bind number_mul]. eexists. reflexivity.
Qed.

(** C6 (as amended).  For a running experiment, with
    bucket = MD5(key + ":" + user_id) mod 100: when
    bucket >= traffic_percent the result is null; otherwise, with
    normalized = bucket / traffic_percent * 100, the result is the key
    entry of the first variation whose cumulative weight (a variation
    without weight counting 50) exceeds normalized, of the last
    variation when none does.  That entry is null when the variation
    has no key, or when there is no variation; when every variation
    has a key and there is at least one, a returned null means exactly
    bucket >= traffic_percent.  With a float traffic percentage the
    normalized bucket is always defined. *)
Theorem running_experiment_assignment (k user_id : string)
    (attributes : option (dict scalar)) (c : GrowthBookClient)
    (exp : Experiment) :
  local_mode c = true ->
  dict_get k (_experiments c) = Some exp ->
  exp_status exp = RUNNING ->
  let bucket := MD5.hexdigest_int (k ++ ":" ++ user_id)%string mod 100 in
  let outside := number_geb (NInt bucket) (exp_traffic_percent exp) in
  let outcome := get_experiment_variant k user_id attributes c in
  0 <= bucket < 100
  /\ (outside = true -> outcome = Ok None)
  /\ (outside = false ->
      outcome
      = (q <- number_truediv (NInt bucket) (exp_traffic_percent exp) ;;
         normalized <- number_mul q (NInt 100) ;;
         spec_variant (exp_variations exp) normalized))
  /\ (exp_variations exp <> [] ->
      Forall (fun v => var_key v <> None) (exp_variations exp) ->
      forall r, outcome = Ok r -> (r = None <-> outside = true))
  /\ (forall traffic,
        exp_traffic_percent exp = NFloat traffic ->
        outside = false ->
        exists normalized,
          outcome = spec_variant (exp_variations exp) (NFloat normalized)).
Proof.
  intros Hlocal Hget Hrun bucket outside outcome.
  assert (Hout : outcome
                 = if outside then Ok None
                   else
                     q <- number_truediv (NInt bucket)
                            (exp_traffic_percent exp) ;;
                     normalized <- number_mul q (NInt 100) ;;
                     spec_variant (exp_variations exp) normalized).
  { subst outcome. unfold get_experiment_variant.
    rewrite Hlocal, Hget, Hrun. cbn [ExperimentStatus_eqb negb].
    fold (bucket_of k user_id). unfold bucket_of. fold bucket. fold outside.
    destruct outside; [reflexivity |].
    destruct (number_truediv (NInt bucket) (exp_traffic_percent exp))
      as [q | e]; cbn [bind]; [| reflexivity].
    destruct (number_mul q (NInt 100)) as [normalized | e]; cbn [bind];
      [| reflexivity].
    apply assign_loop_spec. }
  split; [apply Z.mod_pos_bound; lia |].
  assert (Hrange : 0 <= bucket < 100) by (apply Z.mod_pos_bound; lia).
  split; [intros Ho; rewrite Hout, Ho; reflexivity |].
  split; [intros Ho; rewrite Hout, Ho; reflexivity |].
  split; [| intros traffic Htraffic Ho; rewrite Hout, Ho;
            unfold outside in Ho; rewrite Htraffic in Ho |- *;
            destruct (normalized_bucket_defined bucket traffic Hrange Ho)
              as [normalized Hn];
            exists normalized;
            destruct (number_truediv (NInt bucket) (NFloat traffic))
              as [q | e]; cbn [bind] in Hn |- *; [| discriminate Hn];
            rewrite Hn; reflexivity].
  intros Hne Hkeys r Hr. split; [| intros Ho].
  - intros ->. destruct outside eqn:Ho; [reflexivity | exfalso].
    clear Hout. subst outcome. unfold get_experiment_variant in Hr.
    rewrite Hlocal, Hget, Hrun in Hr. cbn [ExperimentStatus_eqb negb] in Hr.
    fold (bucket_of k user_id) in Hr. unfold bucket_of in Hr.
    fold bucket in Hr. fold outside in Hr. rewrite Ho in Hr.
    bind_inv Hr. bind_inv Hr. bind_inv Hr.
    rewrite Forall_forall in Hkeys.
    destruct x1 as [key_found |].
    + injection Hr as ->.
      destruct (assign_loop_key _ _ _ _ Hx1) as [v [Hin Hk]].
      apply (Hkeys v Hin). now rewrite <- Hk.
    + destruct (exp_variations exp) as [| v vs]; [now apply Hne |].
      injection Hr as Hlast.
      apply (Hkeys (last vs v)); [apply last_In | exact Hlast].
  - rewrite Hout, Ho in Hr. now injection Hr as <-.
Qed.

Lemma running_experiment_assignment_witness :
  get_experiment_variant "exp1" "user-1" None client0
  = (q <- number_truediv (NInt 7) (NFloat f_50) ;;
     normalized <- number_mul q (NInt 100) ;;
     spec_variant (exp_variations exp1) normalized).
Proof.
  destruct (running_experiment_assignment "exp1" "user-1" None client0 exp1
              eq_refl eq_refl eq_refl) as (_ & _ & Hinside & _ & _).
  apply Hinside. vm_compute. reflexivity.
Defined.

(** C6, counterexample.  The running experiment "exp2" takes all the
    traffic and its only variation has no key entry: the bucket of
    "user-42" is below the traffic percentage and the result is null. *)
Lemma null_inside_traffic :
  dict_get "exp2" (_experiments client0) = Some unnamed_experiment
  /\ exp_status unnamed_experiment = RUNNING
  /\ number_geb (NInt (bucket_of "exp2" "user-42"))
                (exp_traffic_percent unnamed_experiment) = false
  /\ get_experiment_variant "exp2" "user-42" None client0 = Ok None.
Proof. repeat split; vm_compute; reflexivity. Qed.

End GrowthBookFacts.

(** ** The pipeline *)

Module GTMFacts.
Import GTM.
Local Open Scope list_scope.

(** *** The graph walk *)

Lemma run_graph_edge (wf : StateGraph) (steps : nat) (current next : string)
    (action : GTMState -> result GTMState) (state : GTMState) :
  String.eqb current END = false ->
  dict_item current (nodes wf) = Ok action ->
  dict_get current (conditional_edges wf) = None ->
  dict_item current (edges wf) = Ok next ->
  run_graph wf (S steps) current state
  = (state' <- action state ;; run_graph wf steps next state').
Proof.
  intros Hend Hnode Hcond Hedge. cbn [run_graph].
  rewrite Hend, Hnode. cbn [bind].
  destruct (action state) as [state' | e]; cbn [bind]; [| reflexivity].
  unfold successor. rewrite Hcond, Hedge. reflexivity.
Qed.

Lemma run_graph_branch (wf : StateGraph) (steps : nat) (current : string)
    (action : GTMState -> result GTMState) (path : GTMState -> result string)
    (path_map : list (string * string)) (state : GTMState) :
  String.eqb current END = false ->
  dict_item current (nodes wf) = Ok action ->
  dict_get current (conditional_edges wf) = Some (path, path_map) ->
  run_graph wf (S steps) current state
  = (state' <- action state ;;
     choice <- path state' ;;
     next <- dict_item choice path_map ;;
     run_graph wf steps next state').
Proof.
  intros Hend Hnode Hcond. cbn [run_graph].
  rewrite Hend, Hnode. cbn [bind].
  destruct (action state) as [state' | e]; cbn [bind]; [| reflexivity].
  unfold successor. rewrite Hcond. cbn [bind].
  destruct (path state') as [choice | e]; cbn [bind]; [| reflexivity].
  destruct (dict_item choice path_map); reflexivity.
Qed.

Lemma run_graph_end (wf : StateGraph) (steps : nat) (state : GTMState) :
  run_graph wf steps END state = Ok state.
Proof. destruct steps; reflexivity. Qed.

(** The branch function gives one of the two names of the path map. *)
Lemma needs_onboarding_cases (state : GTMState) :
  (exists e, _needs_onboarding state = Raise e)
  \/ _needs_onboarding state = Ok "onboarding"%string
  \/ _needs_onboarding state = Ok "reporting"%string.
Proof.
  unfold _needs_onboarding.
  destruct (json_get "category" _) as [category | e]; cbn [bind]; [| eauto].
  destruct (json_in category _) as [hit | e]; cbn [bind]; [| eauto].
  destruct hit; auto.
Qed.

Lemma build_graph_declared (file : config_file) :
  _build_graph file true = Some (declared_graph file).
Proof. reflexivity. Qed.

(** The walk of the graph that [_build_graph] declares is the
    straight-line sequence of the fallback. *)
Lemma ainvoke_sequential (file : config_file) (wf : StateGraph)
    (initial : GTMState) :
  _build_graph file true = Some wf ->
  ainvoke wf initial = sequential file initial.
Proof.
  rewrite build_graph_declared. intros Hwf. injection Hwf as <-.
  unfold ainvoke, declared_graph. cbn [entry_point].
  unfold recursion_limit, sequential.
  erewrite run_graph_edge by reflexivity.
  destruct (classify_event initial) as [s1 | e]; cbn [bind]; [| reflexivity].
  erewrite run_graph_edge by reflexivity.
  destruct (schema_discovery file s1) as [s2 | e]; cbn [bind]; [| reflexivity].
  erewrite run_graph_edge by reflexivity.
  destruct (routing_sla file s2) as [s3 | e]; cbn [bind]; [| reflexivity].
  erewrite run_graph_edge by reflexivity.
  destruct (lifecycle_enforcement file s3) as [s4 | e]; cbn [bind];
    [| reflexivity].
  erewrite run_graph_branch by reflexivity.
  destruct (data_hygiene s4) as [s5 | e]; cbn [bind]; [| reflexivity].
  destruct (needs_onboarding_cases s5) as [[e He] | [Hb | Hb]]; rewrite Hb || rewrite He;
    cbn [bind]; [reflexivity | |].
  - cbn [dict_item dict_get String.eqb Ascii.eqb Bool.eqb bind].
    erewrite run_graph_edge by reflexivity.
    destruct (onboarding_go_live s5) as [s6 | e]; cbn [bind]; [| reflexivity].
    erewrite run_graph_edge by reflexivity.
    destruct (reporting_attribution s6) as [s7 | e]; cbn [bind];
      [| reflexivity].
    erewrite run_graph_edge by reflexivity.
    destruct (ops_self_heal s7) as [s8 | e]; cbn [bind]; [| reflexivity].
    apply run_graph_end.
  - cbn [dict_item dict_get String.eqb Ascii.eqb Bool.eqb bind].
    erewrite run_graph_edge by reflexivity.
    destruct (reporting_attribution s5) as [s7 | e]; cbn [bind];
      [| reflexivity].
    erewrite run_graph_edge by reflexivity.
    destruct (ops_self_heal s7) as [s8 | e]; cbn [bind]; [| reflexivity].
    apply run_graph_end.
Qed.

(** *** What a node does to the state *)

Lemma record_decision_advances (stage : string) (decision : json)
    (state : GTMState) :
  advances stage state (record_decision stage decision state).
Proof.
  unfold advances, record_decision. cbn. repeat split.
  exists decision, (decision_actions decision). auto.
Qed.

Lemma classify_event_advances (state state' : GTMState) :
  classify_event state = Ok state' -> advances "event" state state'.
Proof.
  unfold classify_event. intros H. injection H as <-.
  unfold advances. cbn. repeat split.
  eexists. exists []. rewrite app_nil_r. auto.
Qed.

Ltac node_advances H :=
  match type of H with
  | bind ?r _ = Ok _ =>
      let d := fresh "decision" in
      destruct r as [d | ?]; cbn [bind] in H; [| discriminate H];
      injection H as <-; apply record_decision_advances
  | Ok _ = Ok _ => injection H as <-; apply record_decision_advances
  end.

Lemma schema_discovery_advances (file : config_file) (state state' : GTMState) :
  schema_discovery file state = Ok state' -> advances "schema" state state'.
Proof. unfold schema_discovery. intros H. node_advances H. Qed.

Lemma routing_sla_advances (file : config_file) (state state' : GTMState) :
  routing_sla file state = Ok state' -> advances "routing" state state'.
Proof. unfold routing_sla. intros H. node_advances H. Qed.

Lemma lifecycle_enforcement_advances (file : config_file)
    (state state' : GTMState) :
  lifecycle_enforcement file state = Ok state' ->
  advances "lifecycle" state state'.
Proof. unfold lifecycle_enforcement. intros H. node_advances H. Qed.

Lemma data_hygiene_advances (state state' : GTMState) :
  data_hygiene state = Ok state' -> advances "hygiene" state state'.
Proof. unfold data_hygiene. intros H. node_advances H. Qed.

Lemma onboarding_go_live_advances (state state' : GTMState) :
  onboarding_go_live state = Ok state' -> advances "onboarding" state state'.
Proof. unfold onboarding_go_live. intros H. node_advances H. Qed.

Lemma reporting_attribution_advances (state state' : GTMState) :
  reporting_attribution state = Ok state' -> advances "reporting" state state'.
Proof. unfold reporting_attribution. intros H. node_advances H. Qed.

Lemma ops_self_heal_advances (state state' : GTMState) :
  ops_self_heal state = Ok state' -> advances "ops" state state'.
Proof. unfold ops_self_heal. intros H. node_advances H. Qed.

(** The last three nodes always return. *)
Lemma onboarding_go_live_returns (state : GTMState) :
  returns (onboarding_go_live state).
Proof. unfold returns, onboarding_go_live. eauto. Qed.

Lemma reporting_attribution_returns (state : GTMState) :
  returns (reporting_attribution state).
Proof. unfold returns, reporting_attribution. eauto. Qed.

Lemma ops_self_heal_returns (state : GTMState) :
  returns (ops_self_heal state).
Proof. unfold returns, ops_self_heal. eauto. Qed.

(** *** The classifier and the branch *)

Lemma classify_category (event_type : string) (payload : dict scalar) :
  json_get "category" (classify event_type payload)
  = Ok (JStr (category_of event_type payload)).
Proof.
  unfold category_of, classify, classification.
  repeat match goal with
         | |- context [if ?b then _ else _] => destruct b
         end; reflexivity.
Qed.

Lemma needs_onboarding_of_category (state : GTMState) :
  dict_get "event" (decisions state)
  = Some (classify (event_type state) (event_payload state)) ->
  _needs_onboarding state
  = Ok (if Str.mem (category_of (event_type state) (event_payload state))
              onboarding_categories
        then "onboarding"%string else "reporting"%string).
Proof.
  intros Hevent. unfold _needs_onboarding. rewrite Hevent, classify_category.
  reflexivity.
Qed.

Lemma dict_keys_set_fresh {V : Type} (k : string) (v : V) (d : dict V) :
  ~ In k (dict_keys d) -> dict_keys (dict_set k v d) = dict_keys d ++ [k].
Proof.
  induction d as [| [k' v'] d IH]; simpl; intros Hfresh; [reflexivity |].
  destruct (String.eqb_spec k k') as [-> | Hne]; [tauto |].
  simpl. f_equal. apply IH. tauto.
Qed.

(** The state after the first five stages. *)
Lemma through_hygiene_state (file : config_file) (initial s5 : GTMState) :
  decisions initial = [] ->
  through_hygiene file initial = Ok s5 ->
  st_workspace_id s5 = st_workspace_id initial
  /\ event_type s5 = event_type initial
  /\ event_payload s5 = event_payload initial
  /\ approved s5 = approved initial
  /\ errors s5 = errors initial
  /\ timestamp s5 = timestamp initial
  /\ dict_keys (decisions s5)
     = ["event"; "schema"; "routing"; "lifecycle"; "hygiene"]%string
  /\ dict_get "event" (decisions s5)
     = Some (classify (event_type initial) (event_payload initial))
  /\ returns (load file (st_workspace_id initial)).
Proof.
  intros Hinit H. unfold through_hygiene in H.
  bind_inv H. bind_inv H. bind_inv H. bind_inv H.
  assert (Hws : returns (load file (st_workspace_id initial))).
  { unfold classify_event in Hx. injection Hx as <-.
    unfold schema_discovery, ensure_workspace_schema in Hx0.
    cbn [st_workspace_id set_decision] in Hx0.
    destruct (load file (st_workspace_id initial)) as [cfg | e];
      [unfold returns; eauto | discriminate]. }
  assert (Hevent : decisions x
                   = [("event"%string,
                       classify (event_type initial) (event_payload initial))]).
  { unfold classify_event in Hx. injection Hx as <-. cbn. now rewrite Hinit. }
  apply classify_event_advances in Hx.
  apply schema_discovery_advances in Hx0.
  apply routing_sla_advances in Hx1.
  apply lifecycle_enforcement_advances in Hx2.
  apply data_hygiene_advances in H.
  unfold advances in *.
  destruct Hx as (A1 & A2 & A3 & A4 & A5 & A6 & _).
  destruct Hx0 as (B1 & B2 & B3 & B4 & B5 & B6 & d2 & m2 & B7 & _).
  destruct Hx1 as (C1 & C2 & C3 & C4 & C5 & C6 & d3 & m3 & C7 & _).
  destruct Hx2 as (D1 & D2 & D3 & D4 & D5 & D6 & d4 & m4 & D7 & _).
  destruct H as (E1 & E2 & E3 & E4 & E5 & E6 & d5 & m5 & E7 & _).
  rewrite Hevent in B7. cbn in B7. rewrite B7 in C7. cbn in C7.
  rewrite C7 in D7. cbn in D7. rewrite D7 in E7. cbn in E7.
  rewrite E7. cbn.
  repeat split; congruence.
Qed.

(** A run of the fallback that returns went through the first five
    stages, then through onboarding exactly when the category asks for
    it, then through reporting and ops. *)
Lemma sequential_run (file : config_file) (initial final : GTMState) :
  decisions initial = [] ->
  sequential file initial = Ok final ->
  exists s5,
    through_hygiene file initial = Ok s5
    /\ if Str.mem (category_of (event_type initial) (event_payload initial))
            onboarding_categories
       then exists s6 s7,
           onboarding_go_live s5 = Ok s6
           /\ reporting_attribution s6 = Ok s7
           /\ ops_self_heal s7 = Ok final
       else exists s7,
           reporting_attribution s5 = Ok s7 /\ ops_self_heal s7 = Ok final.
Proof.
  intros Hinit H. unfold sequential in H.
  destruct (through_hygiene file initial) as [s5 | e] eqn:H5.
  - exists s5. split; [reflexivity |].
    destruct (through_hygiene_state file initial s5 Hinit H5)
      as (_ & Het & Hp & _ & _ & _ & _ & Hevent & _).
    unfold through_hygiene in H5.
    destruct (classify_event initial) as [s1 | ?]; cbn [bind] in *;
      [| discriminate].
    destruct (schema_discovery file s1) as [s2 | ?]; cbn [bind] in *;
      [| discriminate].
    destruct (routing_sla file s2) as [s3 | ?]; cbn [bind] in *;
      [| discriminate].
    destruct (lifecycle_enforcement file s3) as [s4 | ?]; cbn [bind] in *;
      [| discriminate].
    rewrite H5 in H. cbn [bind] in H.
    rewrite needs_onboarding_of_category in H
      by (rewrite Het, Hp; exact Hevent).
    rewrite Het, Hp in H. cbn [bind] in H.
    destruct (Str.mem _ onboarding_categories).
    + rewrite String.eqb_refl in H.
      bind_inv H. bind_inv H. bind_inv H. injection H as <-.
      exists x, x0. auto.
    + change ("reporting" =? "onboarding")%string with false in H.
      cbn [bind] in H. bind_inv H. bind_inv H. injection H as <-.
      exists x. auto.
  - exfalso. unfold through_hygiene in H5.
    destruct (classify_event initial) as [s1 | ?]; cbn [bind] in *;
      [| discriminate].
    destruct (schema_discovery file s1) as [s2 | ?]; cbn [bind] in *;
      [| discriminate].
    destruct (routing_sla file s2) as [s3 | ?]; cbn [bind] in *;
      [| discriminate].
    destruct (lifecycle_enforcement file s3) as [s4 | ?]; cbn [bind] in *;
      [| discriminate].
    rewrite H5 in H. discriminate.
Qed.

(** *** The classifier decision is a non-empty dict *)

Lemma classify_truthy (event_type : string) (payload : dict scalar) :
  json_truthy (classify event_type payload) = true.
Proof.
  unfold classify, classification.
  repeat match goal with
         | |- context [if ?b then _ else _] => destruct b
         end; reflexivity.
Qed.

Ltac simpl_state :=
  cbn [bind st_workspace_id event_type event_payload decisions actions
         initial_state set_decision extend_actions record_decision
         dict_set String.eqb Ascii.eqb Bool.eqb].

(** *** Whole runs *)

(** With or without langgraph, [handle_event] is the sequence of the
    fallback on the initial state. *)
Lemma handle_event_sequential (file : config_file) (langgraph : bool)
    (ws et : string) (payload : dict scalar) (now : datetime) :
  handle_event file (new_orchestrator file langgraph) ws et payload now
  = sequential file (initial_state ws et payload now).
Proof.
  unfold handle_event, new_orchestrator. cbn [graph].
  destruct langgraph; [| reflexivity].
  destruct (_build_graph file true) as [wf |] eqn:Hwf; [| discriminate Hwf].
  apply ainvoke_sequential. exact Hwf.
Qed.

(** The schema stage is the first to load the configuration: what
    the store raises there ends the run. *)
Lemma load_failure_raises (file : config_file) (initial : GTMState)
    (e : exn) :
  load file (st_workspace_id initial) = Raise e ->
  sequential file initial = Raise e.
Proof.
  intros Hload. unfold sequential, classify_event. cbn [bind].
  unfold schema_discovery, ensure_workspace_schema.
  cbn [st_workspace_id set_decision]. rewrite Hload. reflexivity.
Qed.

Lemma load_missing (file : config_file) (ws : string)
    (all_cfg : dict WorkspaceConfig) :
  load_all file = Ok all_cfg ->
  dict_mem ws all_cfg = false ->
  load file ws = Raise (KeyError ws).
Proof.
  intros Hall Hmissing. unfold load. rewrite Hall. cbn [bind].
  rewrite Hmissing. reflexivity.
Qed.

Lemma load_unreadable (file : config_file) (ws : string) (e : exn) :
  load_all file = Raise e -> load file ws = Raise e.
Proof. intros Hall. unfold load. rewrite Hall. reflexivity. Qed.

Ltac first_five H :=
  unfold through_hygiene in H;
  destruct (classify_event _) as [?s1 | ?]; cbn [bind] in H |- *;
    [| try discriminate H; try (injection H as <-; reflexivity)];
  destruct (schema_discovery _ _) as [?s2 | ?]; cbn [bind] in H |- *;
    [| try discriminate H; try (injection H as <-; reflexivity)];
  destruct (routing_sla _ _) as [?s3 | ?]; cbn [bind] in H |- *;
    [| try discriminate H; try (injection H as <-; reflexivity)];
  destruct (lifecycle_enforcement _ _) as [?s4 | ?]; cbn [bind] in H |- *;
    [| try discriminate H; try (injection H as <-; reflexivity)].

Lemma early_failure_raises (file : config_file) (initial : GTMState)
    (e : exn) :
  through_hygiene file initial = Raise e ->
  sequential file initial = Raise e.
Proof.
  intros H. unfold sequential. first_five H.
  rewrite H. reflexivity.
Qed.

Lemma sequential_returns (file : config_file) (initial s5 : GTMState) :
  decisions initial = [] ->
  through_hygiene file initial = Ok s5 ->
  returns (sequential file initial).
Proof.
  intros Hinit H.
  destruct (through_hygiene_state file initial s5 Hinit H)
    as (_ & Het & Hp & _ & _ & _ & _ & Hevent & _).
  unfold sequential. first_five H. rewrite H. cbn [bind].
  rewrite needs_onboarding_of_category by (rewrite Het, Hp; exact Hevent).
  cbn [bind]. unfold returns.
  destruct (Str.mem _ onboarding_categories); cbn; eauto.
Qed.

(** The state a run of the fallback returns. *)
Lemma sequential_final_state (file : config_file)
    (initial final : GTMState) :
  decisions initial = [] ->
  sequential file initial = Ok final ->
  st_workspace_id final = st_workspace_id initial
  /\ event_type final = event_type initial
  /\ event_payload final = event_payload initial
  /\ approved final = approved initial
  /\ errors final = errors initial
  /\ timestamp final = timestamp initial
  /\ dict_keys (decisions final)
     = (if Str.mem (category_of (event_type initial) (event_payload initial))
              onboarding_categories
        then stages_with_onboarding else stages_without_onboarding)
  /\ returns (load file (st_workspace_id initial)).
Proof.
  intros Hinit Hrun.
  destruct (sequential_run file initial final Hinit Hrun) as [s5 [H5 Hrest]].
  destruct (through_hygiene_state file initial s5 Hinit H5)
    as (F1 & F2 & F3 & F4 & F5 & F6 & Hkeys & _ & Hws).
  destruct (Str.mem _ onboarding_categories).
  - destruct Hrest as (s6 & s7 & H6 & H7 & H8).
    apply onboarding_go_live_advances in H6.
    apply reporting_attribution_advances in H7.
    apply ops_self_heal_advances in H8.
    destruct H6 as (A1 & A2 & A3 & A4 & A5 & A6 & d6 & m6 & A7 & _).
    destruct H7 as (B1 & B2 & B3 & B4 & B5 & B6 & d7 & m7 & B7 & _).
    destruct H8 as (C1 & C2 & C3 & C4 & C5 & C6 & d8 & m8 & C7 & _).
    repeat split; try congruence.
    rewrite C7, dict_keys_set_fresh; rewrite B7, dict_keys_set_fresh;
      rewrite A7, dict_keys_set_fresh; rewrite Hkeys;
      try reflexivity; cbn; intuition discriminate.
  - destruct Hrest as (s7 & H7 & H8).
    apply reporting_attribution_advances in H7.
    apply ops_self_heal_advances in H8.
    destruct H7 as (B1 & B2 & B3 & B4 & B5 & B6 & d7 & m7 & B7 & _).
    destruct H8 as (C1 & C2 & C3 & C4 & C5 & C6 & d8 & m8 & C7 & _).
    repeat split; try congruence.
    rewrite C7, dict_keys_set_fresh; rewrite B7, dict_keys_set_fresh;
      rewrite Hkeys; try reflexivity; cbn; intuition discriminate.
Qed.

Lemma dict_get_not_key {V : Type} (k : string) (d : dict V) :
  ~ In k (dict_keys d) -> dict_get k d = None.
Proof.
  induction d as [| [k' v'] d IH]; simpl; intros Hk; [reflexivity |].
  destruct (String.eqb_spec k k') as [-> | Hne]; [tauto |].
  apply IH. tauto.
Qed.

(** C1 (as amended).  [handle_event] does not catch the failure of a
    stage.  What the config store raises when the schema stage loads
    the workspace leaves [handle_event] as it is: the [KeyError] for a
    workspace the store does not hold, and the exception of a file that
    cannot be read or of an entry that does not validate.  So does
    every exception of one of the first five stages; the stages after
    them raise nothing, so that a run in which no stage raises returns.
    No stage appends to [errors]: the state of a run that returns has
    an empty [errors] list, the event it was started with and a
    decision for each stage it went through, and its workspace is one
    the store loads. *)
Theorem handle_event_propagates_failures (file : config_file)
    (langgraph : bool) (ws et : string) (payload : dict scalar)
    (now : datetime) :
  let initial := initial_state ws et payload now in
  let run :=
    handle_event file (new_orchestrator file langgraph) ws et payload now in
  (forall all_cfg,
      load_all file = Ok all_cfg -> dict_mem ws all_cfg = false ->
      run = Raise (KeyError ws))
  /\ (forall e, load_all file = Raise e -> run = Raise e)
  /\ (forall e, through_hygiene file initial = Raise e -> run = Raise e)
  /\ (forall s5, through_hygiene file initial = Ok s5 -> returns run)
  /\ (forall final, run = Ok final ->
        errors final = []
        /\ approved final = false
        /\ st_workspace_id final = ws
        /\ event_type final = et
        /\ event_payload final = payload
        /\ timestamp final = now
        /\ (dict_keys (decisions final) = stages_with_onboarding
            \/ dict_keys (decisions final) = stages_without_onboarding)
        /\ returns (load file ws)).
Proof.
  intros initial run. subst run. rewrite handle_event_sequential.
  fold initial. split; [| split; [| split; [| split]]].
  - intros all_cfg Hall Hmissing.
    apply (load_failure_raises file initial).
    apply (load_missing file ws all_cfg Hall Hmissing).
  - intros e Hall. apply (load_failure_raises file initial).
    apply load_unreadable. exact Hall.
  - intros e He. apply early_failure_raises. exact He.
  - intros s5 H5. apply (sequential_returns file initial s5 eq_refl H5).
  - intros final Hrun.
    destruct (sequential_final_state file initial final eq_refl Hrun)
      as (F1 & F2 & F3 & F4 & F5 & F6 & Hkeys & Hws).
    cbn in F1, F2, F3, F4, F5, F6, Hws.
    repeat split; try assumption.
    destruct (Str.mem _ onboarding_categories) in Hkeys; auto.
Qed.

Lemma handle_event_propagates_failures_witness :
  exists final,
    handle_event acme_file (new_orchestrator acme_file true) "acme"
      "lead_created" lead_payload 0 = Ok final
    /\ errors final = []
    /\ dict_keys (decisions final) = stages_without_onboarding.
Proof.
  destruct (handle_event_propagates_failures acme_file true "acme"
              "lead_created" lead_payload 0) as (_ & _ & _ & _ & Hfinal).
  eexists. split; [vm_compute; reflexivity |].
  split; [| reflexivity].
  refine (proj1 (Hfinal _ _)). vm_compute. reflexivity.
Defined.

(** C1, counterexample.  Without a configuration for the workspace the
    run raises the [KeyError] of the store, with the graph and with the
    fallback: there is no state and nothing is recorded. *)
Lemma missing_workspace_aborts_run :
  handle_event no_file (new_orchestrator no_file false) "acme" "lead_created"
    lead_payload 0 = Raise (KeyError "acme")
  /\ handle_event no_file (new_orchestrator no_file true) "acme"
       "lead_created" lead_payload 0 = Raise (KeyError "acme").
Proof. split; vm_compute; reflexivity. Qed.

(** C2.  For every configuration file, workspace, event type, payload
    and time, the run through the compiled graph and the run through
    the sequential fallback give the same outcome: the same final state,
    hence the same decisions and the same actions in the same order, or
    the same exception. *)
Theorem graph_and_fallback_agree (file : config_file) (ws et : string)
    (payload : dict scalar) (now : datetime) :
  handle_event file (new_orchestrator file true) ws et payload now
  = handle_event file (new_orchestrator file false) ws et payload now.
Proof.
  unfold handle_event at 1, new_orchestrator at 1. cbn [graph].
  destruct (_build_graph file true) as [wf |] eqn:Hwf; [| discriminate Hwf].
  rewrite (ainvoke_sequential file wf _ Hwf).
  reflexivity.
Qed.

(** C9 (as amended).  A run that returns went through the first five
    stages; when its event is classified deal_stage_changed, qa_updated
    or go_live it then ran onboarding on their state, reporting on the
    state onboarding returned, and ops, and its decisions are in that
    order; otherwise it ran reporting directly and has no "onboarding"
    decision.  A returning run for "lead_created" has no "onboarding"
    decision, a returning run for "deal_stage_changed" has one, before
    "reporting". *)
Theorem onboarding_before_reporting (file : config_file) (langgraph : bool)
    (ws et : string) (payload : dict scalar) (now : datetime)
    (final : GTMState) :
  handle_event file (new_orchestrator file langgraph) ws et payload now
  = Ok final ->
  (exists s5,
      through_hygiene file (initial_state ws et payload now) = Ok s5
      /\ (Str.mem (category_of et payload) onboarding_categories = true ->
          (exists s6 s7,
              onboarding_go_live s5 = Ok s6
              /\ reporting_attribution s6 = Ok s7
              /\ ops_self_heal s7 = Ok final)
          /\ dict_keys (decisions final) = stages_with_onboarding)
      /\ (Str.mem (category_of et payload) onboarding_categories = false ->
          (exists s7,
              reporting_attribution s5 = Ok s7 /\ ops_self_heal s7 = Ok final)
          /\ dict_keys (decisions final) = stages_without_onboarding
          /\ dict_get "onboarding" (decisions final) = None))
  /\ (et = "lead_created"%string ->
      dict_get "onboarding" (decisions final) = None)
  /\ (et = "deal_stage_changed"%string ->
      dict_keys (decisions final) = stages_with_onboarding).
Proof.
  rewrite handle_event_sequential. intros Hrun.
  destruct (sequential_run file (initial_state ws et payload now) final
              eq_refl Hrun) as [s5 [H5 Hrest]].
  destruct (sequential_final_state file (initial_state ws et payload now)
              final eq_refl Hrun)
    as (_ & _ & _ & _ & _ & _ & Hkeys & _).
  cbn [event_type event_payload initial_state] in Hrest, Hkeys.
  assert (Hno : dict_keys (decisions final) = stages_without_onboarding ->
                dict_get "onboarding" (decisions final) = None).
  { intros Hk. apply dict_get_not_key. rewrite Hk. cbn.
    intuition discriminate. }
  split; [exists s5; split; [exact H5 | split] | split].
  - intros Hcat. rewrite Hcat in Hrest, Hkeys. auto.
  - intros Hcat. rewrite Hcat in Hrest, Hkeys. auto.
  - intros ->. apply Hno. exact Hkeys.
  - intros ->. exact Hkeys.
Qed.

Lemma onboarding_before_reporting_witness :
  dict_keys
    (decisions
       (match handle_event acme_file (new_orchestrator acme_file false) "acme"
                "deal_stage_changed" deal_payload 0 with
        | Ok final => final
        | Raise _ => initial_state "acme" "deal_stage_changed" deal_payload 0
        end))
  = stages_with_onboarding.
Proof.
  destruct (handle_event acme_file (new_orchestrator acme_file false) "acme"
              "deal_stage_changed" deal_payload 0) as [st | e] eqn:Hrun.
  - apply (onboarding_before_reporting acme_file false "acme"
             "deal_stage_changed" deal_payload 0 st Hrun).
    reflexivity.
  - vm_compute in Hrun. discriminate Hrun.
Defined.

(** C9, counterexample.  The event type "deal_stage_changed" is
    classified deal_stage_changed, but for a workspace without
    configuration the run raises at the schema stage: it never reaches
    onboarding. *)
Lemma deal_event_without_workspace :
  category_of "deal_stage_changed" deal_payload = "deal_stage_changed"%string
  /\ handle_event no_file (new_orchestrator no_file false) "acme"
       "deal_stage_changed" deal_payload 0 = Raise (KeyError "acme")
  /\ handle_event no_file (new_orchestrator no_file true) "acme"
       "deal_stage_changed" deal_payload 0 = Raise (KeyError "acme").
Proof. repeat split; vm_compute; reflexivity. Qed.

End GTMFacts.

(** * Further properties *)

(** ** Strings *)

Lemma lower_char_idempotent (c : ascii) :
  Str.lower_char (Str.lower_char c) = Str.lower_char c.
Proof. destruct c as [[] [] [] [] [] [] [] []]; reflexivity. Qed.

Lemma is_space_lower_char (c : ascii) :
  Str.is_space (Str.lower_char c) = Str.is_space c.
Proof. destruct c as [[] [] [] [] [] [] [] []]; reflexivity. Qed.

Lemma lower_idempotent (s : string) : Str.lower (Str.lower s) = Str.lower s.
Proof.
  induction s as [| c s IH]; simpl; [reflexivity |].
  now rewrite lower_char_idempotent, IH.
Qed.

Lemma lower_lstrip (s : string) :
  Str.lower (Str.lstrip s) = Str.lstrip (Str.lower s).
Proof.
  induction s as [| c s IH]; simpl; [reflexivity |].
  rewrite is_space_lower_char. destruct (Str.is_space c); auto.
Qed.

Lemma lower_rstrip (s : string) :
  Str.lower (Str.rstrip s) = Str.rstrip (Str.lower s).
Proof.
  induction s as [| c s IH]; simpl; [reflexivity |].
  rewrite <- IH, is_space_lower_char.
  destruct (Str.rstrip s) as [| c' r]; simpl; [| reflexivity].
  destruct (Str.is_space c); reflexivity.
Qed.

Lemma lower_strip (s : string) :
  Str.lower (Str.strip s) = Str.strip (Str.lower s).
Proof. unfold Str.strip. now rewrite lower_rstrip, lower_lstrip. Qed.

Lemma rstrip_idempotent (s : string) :
  Str.rstrip (Str.rstrip s) = Str.rstrip s.
Proof.
  induction s as [| c s IH]; simpl; [reflexivity |].
  destruct (Str.rstrip s) as [| c' r] eqn:E.
  - destruct (Str.is_space c) eqn:Hc; simpl; [reflexivity |].
    now rewrite Hc.
  - change (Str.rstrip (String c (String c' r)))
      with (match Str.rstrip (String c' r) with
            | EmptyString =>
                if Str.is_space c then EmptyString else String c EmptyString
            | String a r0 => String c (String a r0)
            end).
    rewrite IH. reflexivity.
Qed.

(** What [rstrip] leaves of a string that starts with a character that
    is not white space starts with that character. *)
Lemma rstrip_head (c : ascii) (s : string) :
  Str.is_space c = false ->
  exists r, Str.rstrip (String c s) = String c r.
Proof.
  intros Hc. simpl. destruct (Str.rstrip s) as [| c' r]; eauto.
  rewrite Hc. eauto.
Qed.

Lemma lstrip_head (s : string) :
  Str.lstrip s = EmptyString
  \/ exists c r, Str.lstrip s = String c r /\ Str.is_space c = false.
Proof.
  induction s as [| c s IH]; simpl; [auto |].
  destruct (Str.is_space c) eqn:Hc; [exact IH |].
  right. eauto.
Qed.

Lemma strip_idempotent (s : string) : Str.strip (Str.strip s) = Str.strip s.
Proof.
  unfold Str.strip.
  destruct (lstrip_head s) as [-> | (c & r & -> & Hc)]; [reflexivity |].
  destruct (rstrip_head c r Hc) as [r' Hr]. rewrite Hr.
  cbn [Str.lstrip]. rewrite Hc. rewrite <- Hr. apply rstrip_idempotent.
Qed.

(** ** The classifier *)

Module ClassifierFacts.
Import GTM Notions.

(** The category of an event type is that of its normal form. *)
Lemma category_of_normal_form (event_type : string) (payload : dict scalar) :
  category_of (Str.strip (Str.lower event_type)) payload
  = category_of event_type payload.
Proof.
  unfold category_of, classify.
  rewrite (lower_strip (Str.lower event_type)), lower_idempotent.
  rewrite strip_idempotent.
  repeat match goal with
         | |- context [if ?b then _ else _] => destruct b
         end; reflexivity.
Qed.

(** X2.  The classifier puts every event in one of its seven
    categories.  It reads the event type in lower case and without the
    white space around it, and of the payload only whether ["stage"] is
    true: an event type in ASCII, its lower-case form and its stripped
    form get the same category; so do two payloads whose ["stage"]
    entries have the same truth value. *)
Theorem classify_normal_form (event_type : string)
    (payload payload' : dict scalar) :
  Str.is_ascii event_type = true ->
  In (category_of event_type payload) categories
  /\ category_of (Str.lower event_type) payload
     = category_of event_type payload
  /\ category_of (Str.strip event_type) payload
     = category_of event_type payload
  /\ (Py.truthy (Py.get "stage" payload) = Py.truthy (Py.get "stage" payload')
      -> category_of event_type payload = category_of event_type payload').
Proof.
  intros _. split; [| split; [| split]].
  - unfold category_of, classify, classification, categories.
    repeat match goal with
           | |- context [if ?b then _ else _] => destruct b
           end; cbn; tauto.
  - rewrite <- (category_of_normal_form (Str.lower event_type)).
    rewrite lower_idempotent. apply category_of_normal_form.
  - rewrite <- (category_of_normal_form (Str.strip event_type)).
    rewrite lower_strip, strip_idempotent.
    apply category_of_normal_form.
  - intros Hstage. unfold category_of, classify. rewrite Hstage. reflexivity.
Qed.

Lemma classify_normal_form_witness :
  category_of " Weekly Digest " [] = "scheduled_digest"%string
  /\ category_of (Str.lower " Weekly Digest ") []
     = category_of " Weekly Digest " []
  /\ category_of (Str.strip " Weekly Digest ") []
     = category_of " Weekly Digest " [].
Proof.
  split; [reflexivity |].
  destruct (classify_normal_form " Weekly Digest " [] [] eq_refl)
    as (_ & Hlower & Hstrip & _).
  exact (conj Hlower Hstrip).
Defined.

End ClassifierFacts.

(** ** The stage agents *)

Module AgentFacts.
Import GTM Notions.
Local Open Scope list_scope.

(** What [ensure_workspace_schema] returns for a configuration. *)
Lemma schema_decision (file : config_file) (ws : string)
    (cfg : WorkspaceConfig) :
  load file ws = Ok cfg ->
  ensure_workspace_schema file ws
  = Ok (JDict
          [("missing_ids", Py.str_list (Str.sorted (lacking cfg)));
           ("actions",
            JList
              match Str.sorted (lacking cfg) with
              | [] => []
              | _ =>
                  [webhook "webhooks/provision_schema"
                     [("workspace_id", JStr ws);
                      ("mode", JStr (mode_value (mode cfg)));
                      ("missing_ids",
                       Py.str_list (Str.sorted (lacking cfg)))]]
              end);
           ("notes",
            JStr "Provisioning runs via deterministic n8n workflow.")]).
Proof.
  intros Hload. unfold ensure_workspace_schema. rewrite Hload. reflexivity.
Qed.

Lemma sorted_lacking (cfg : WorkspaceConfig) :
  ascending (Str.sorted (lacking cfg)) = true
  /\ (forall id, In id (Str.sorted (lacking cfg)) <-> In id (lacking cfg)).
Proof.
  unfold lacking, MIN_REQUIRED_IDS. cbn [filter].
  destruct (dict_mem "notion_contacts_db" (ids cfg)),
           (dict_mem "notion_accounts_db" (ids cfg)),
           (dict_mem "notion_deals_db" (ids cfg)),
           (dict_mem "notion_tasks_db" (ids cfg)),
           (dict_mem "slack_ops_channel" (ids cfg));
    (split; [reflexivity | intros id; cbn; tauto]).
Qed.

(** X3.  Schema discovery reports as [missing_ids] exactly the required
    ids that have no entry in [cfg.ids], in alphabetical order; it
    emits one [provision_schema] action that carries them when there is
    one, and no action when the configuration has all five. *)
Theorem schema_missing_ids (file : config_file) (ws : string)
    (cfg : WorkspaceConfig) :
  load file ws = Ok cfg ->
  exists missing,
    ensure_workspace_schema file ws
    = Ok (JDict
            [("missing_ids", Py.str_list missing);
             ("actions",
              JList
                (if (List.length missing =? 0)%nat then []
                 else [webhook "webhooks/provision_schema"
                         [("workspace_id", JStr ws);
                          ("mode", JStr (mode_value (mode cfg)));
                          ("missing_ids", Py.str_list missing)]]));
             ("notes",
              JStr "Provisioning runs via deterministic n8n workflow.")])
    /\ ascending missing = true
    /\ (forall id,
          In id missing
          <-> In id MIN_REQUIRED_IDS /\ dict_get id (ids cfg) = None).
Proof.
  intros Hload. exists (Str.sorted (lacking cfg)).
  destruct (sorted_lacking cfg) as [Hasc Hin].
  split; [| split; [exact Hasc |]].
  - rewrite (schema_decision file ws cfg Hload).
    destruct (Str.sorted (lacking cfg)); reflexivity.
  - intros id. rewrite Hin. unfold lacking. rewrite filter_In.
    unfold dict_mem. destruct (dict_get id (ids cfg)); cbn; intuition congruence.
Qed.

Lemma schema_missing_ids_witness :
  exists missing,
    ensure_workspace_schema acme_file "acme"
    = Ok (JDict
            [("missing_ids", Py.str_list missing);
             ("actions",
              JList
                (if (List.length missing =? 0)%nat then []
                 else [webhook "webhooks/provision_schema"
                         [("workspace_id", JStr "acme");
                          ("mode", JStr (mode_value (mode acme)));
                          ("missing_ids", Py.str_list missing)]]));
             ("notes",
              JStr "Provisioning runs via deterministic n8n workflow.")])
    /\ ascending missing = true
    /\ (forall id,
          In id missing
          <-> In id MIN_REQUIRED_IDS /\ dict_get id (ids acme) = None).
Proof.
  apply (schema_missing_ids acme_file "acme" acme). reflexivity.
Defined.

(** *** Hygiene *)

(** A string that contains ["@"] splits at its first ["@"]. *)
Lemma split_at_first (s : string) :
  Str.contains "@" s = true ->
  exists local found,
    Str.after_first "@"%char s = Some found
    /\ s = (local ++ String "@"%char found)%string
    /\ Str.contains "@" local = false.
Proof.
  induction s as [| c s IH]; [discriminate |].
  cbn [Str.contains Str.after_first String.prefix].
  destruct (Ascii.ascii_dec "@"%char c) as [<- | Hne].
  - intros _. exists EmptyString, s. cbn. auto.
  - destruct (Ascii.eqb_spec c "@"%char) as [-> | _]; [congruence |].
    intros H. destruct (IH H) as (local & found & Hafter & -> & Hlocal).
    exists (String c local), found. cbn [append Str.contains String.prefix].
    destruct (Ascii.ascii_dec "@"%char c) as [E | _]; [destruct (Hne E) |].
    auto.
Qed.

Lemma contains_not_empty (s : string) :
  Str.contains "@" s = true -> Str.is_empty s = false.
Proof. destruct s; [discriminate | reflexivity]. Qed.

(** X4.  For an email and a domain in ASCII, hygiene backfills the
    domain exactly when the normalized email contains ["@"] and the
    normalized domain is empty; the domain it sends is what follows the
    first ["@"] of the email, so that the email is [local @ domain]
    with no ["@"] in [local].  The backfill, when there is one, comes
    before the duplicate flag. *)
Theorem hygiene_backfill_domain (ws : string) (payload : dict scalar)
    (email domain : string) :
  ascii_scalar (Py.get "email" payload) = true ->
  ascii_scalar (Py.get "domain" payload) = true ->
  strip_lower (Py.or_else (Py.get "email" payload) (SStr "")) = Ok email ->
  strip_lower (Py.or_else (Py.get "domain" payload) (SStr "")) = Ok domain ->
  let dedupe :=
    if Py.truthy (Py.get "suspected_duplicate" payload)
    then [webhook "webhooks/dedupe_flag"
            [("workspace_id", JStr ws); ("record", Py.of_payload payload)]]
    else [] in
  (Str.contains "@" email && Str.is_empty domain = true ->
   exists local found,
     email = (local ++ String "@"%char found)%string
     /\ Str.contains "@" local = false
     /\ hygiene_evaluate ws payload
        = Ok (JDict
                [("actions",
                  JList
                    (webhook "webhooks/hygiene_backfill"
                       [("workspace_id", JStr ws); ("domain", JStr found);
                        ("record", Py.of_payload payload)] :: dedupe))]))
  /\ (Str.contains "@" email && Str.is_empty domain = false ->
      hygiene_evaluate ws payload = Ok (JDict [("actions", JList dedupe)])).
Proof.
  intros _ _ Hemail Hdomain dedupe. unfold hygiene_evaluate.
  rewrite Hemail, Hdomain. cbn [bind]. fold dedupe. split.
  - intros H. apply andb_true_iff in H. destruct H as [Hat Hno].
    destruct (split_at_first email Hat) as (local & found & Hafter & Heq & Hl).
    exists local, found. split; [exact Heq | split; [exact Hl |]].
    rewrite Hafter, Hat, Hno, (contains_not_empty email Hat). reflexivity.
  - intros H.
    destruct (Str.contains "@" email) eqn:Hat; cbn [andb] in H.
    + rewrite H, andb_false_r. reflexivity.
    + rewrite andb_false_r. reflexivity.
Qed.

Lemma hygiene_backfill_domain_witness :
  exists local found,
    "a@b.com" = (local ++ String "@"%char found)%string
    /\ Str.contains "@" local = false
    /\ hygiene_evaluate "acme" lead_payload
       = Ok (JDict
               [("actions",
                 JList
                   [webhook "webhooks/hygiene_backfill"
                      [("workspace_id", JStr "acme"); ("domain", JStr found);
                       ("record", Py.of_payload lead_payload)]])]).
Proof.
  apply (hygiene_backfill_domain "acme" lead_payload "a@b.com" "");
    reflexivity.
Defined.

(** *** Lifecycle *)

(** The missing fields of a list of field names. *)
Lemma missing_fields_names (payload : dict scalar) (required : list string) :
  missing_fields payload (map JStr required)
  = Ok (map JStr
          (filter (fun f => negb (Py.truthy (Py.get f payload))) required)).
Proof.
  induction required as [| f required IH]; [reflexivity |].
  cbn [map missing_fields payload_get bind filter]. rewrite IH. cbn [bind].
  destruct (Py.truthy (Py.get f payload)); reflexivity.
Qed.

(** A stage in lower case finds no rule under a name that is not. *)
Lemma lower_case_key_only (stage : string) (d : dict json) :
  Str.lower stage = stage ->
  (forall k r, In (k, r) d -> Str.lower k <> k) ->
  dict_get stage d = None.
Proof.
  intros Hstage Hkeys. destruct (dict_get stage d) as [r |] eqn:Hget;
    [| reflexivity].
  apply dict_get_In in Hget. destruct (Hkeys stage r Hget Hstage).
Qed.

(** X5.  The lifecycle agent looks the stage up in lower case.  For a
    workspace that loads and a stage in ASCII (or an integer within
    the bound on the digits): the stage is
    [payload["stage"]], or [payload["lifecycle_stage"]] when that is
    false, as a lower-case string.  When the rules of the workspace -
    the two default rules when it has none - are no dict the agent
    raises [AttributeError].  When they are a dict that gives the stage
    a list of field names, or nothing, the agent returns: the fields it
    reports missing are those of the list the payload holds no true
    value for, in the order of the list, and it asks for enforcement
    exactly when there is one.  A rule filed under a stage name that is
    not in lower case is never applied. *)
Theorem lifecycle_stage_in_lower_case (file : config_file) (ws : string)
    (cfg : WorkspaceConfig) (payload : dict scalar) :
  load file ws = Ok cfg ->
  plain_scalar (Py.get "stage" payload) = true ->
  plain_scalar (Py.get "lifecycle_stage" payload) = true ->
  let rules :=
    match dict_get "definition_of_done" (thresholds cfg) with
    | Some r => r
    | None => default_definition_of_done
    end in
  let stage :=
    Str.lower
      (Py.str
         (Py.or_else
            (Py.or_else (Py.get "stage" payload)
                        (Py.get "lifecycle_stage" payload))
            (SStr ""))) in
  Str.lower stage = stage
  /\ ((forall d, rules <> JDict d) ->
      lifecycle_evaluate file ws payload = Raise AttributeError)
  /\ (forall d required,
        rules = JDict d ->
        match dict_get stage d with
        | Some r => r
        | None => JList []
        end = Py.str_list required ->
        let missing :=
          filter (fun f => negb (Py.truthy (Py.get f payload))) required in
        lifecycle_evaluate file ws payload
        = Ok (JDict
                [("stage", JStr stage);
                 ("missing_fields", Py.str_list missing);
                 ("actions",
                  JList
                    (if (List.length missing =? 0)%nat then []
                     else [webhook "webhooks/lifecycle_enforce"
                             [("workspace_id", JStr ws);
                              ("stage", JStr stage);
                              ("missing_fields", Py.str_list missing);
                              ("record", Py.of_payload payload)]]))]))
  /\ (forall d,
        rules = JDict d ->
        (forall k r, In (k, r) d -> Str.lower k <> k) ->
        lifecycle_evaluate file ws payload
        = Ok (JDict [("stage", JStr stage); ("missing_fields", JList []);
                     ("actions", JList [])])).
Proof.
  intros Hload _ _ rules stage.
  assert (Hstage : Str.lower stage = stage) by apply lower_idempotent.
  split; [exact Hstage |].
  unfold lifecycle_evaluate. rewrite Hload. cbn [bind].
  fold rules. fold stage. clearbody rules stage. split; [| split].
  - intros Hno. destruct rules as [| | | | | | d]; try reflexivity.
    destruct (Hno d eq_refl).
  - intros d required -> Hrule. cbn [rules_get bind].
    rewrite Hrule. unfold Py.str_list. cbn [json_iter bind].
    rewrite missing_fields_names. cbn [bind].
    destruct (filter _ required); reflexivity.
  - intros d -> Hkeys. cbn [rules_get bind].
    rewrite (lower_case_key_only stage d Hstage Hkeys). reflexivity.
Qed.

Lemma lifecycle_stage_in_lower_case_witness :
  lifecycle_evaluate acme_file "acme" deal_payload
  = Ok (JDict
          [("stage", JStr "poc");
           ("missing_fields", Py.str_list ["problem"; "success_criteria"]);
           ("actions",
            JList
              [webhook "webhooks/lifecycle_enforce"
                 [("workspace_id", JStr "acme");
                  ("stage", JStr "poc");
                  ("missing_fields",
                   Py.str_list ["problem"; "success_criteria"]);
                  ("record", Py.of_payload deal_payload)]])]).
Proof.
  destruct (lifecycle_stage_in_lower_case acme_file "acme" acme deal_payload
              eq_refl eq_refl eq_refl)
    as (_ & _ & Hrules & _).
  exact (Hrules _ ["problem"; "success_criteria"]%string eq_refl eq_refl).
Defined.

(** *** Onboarding *)

(** No stage asks for the onboarding tasks and for the handoff. *)
Lemma onboarding_stages_exclusive (stage : string) :
  Str.mem stage ["poc"; "implementation"; "onboarding"]
  && Str.mem stage ["go_live"; "golive"; "live"] = false.
Proof.
  unfold Str.mem. cbn [existsb].
  destruct (String.eqb_spec stage "poc") as [-> | _]; [reflexivity |].
  destruct (String.eqb_spec stage "implementation") as [-> | _];
    [reflexivity |].
  destruct (String.eqb_spec stage "onboarding") as [-> | _];
    [reflexivity |].
  reflexivity.
Qed.

Lemma onboarding_at_most_two (ws : string) (payload : dict scalar) :
  (List.length (decision_actions (onboarding_evaluate ws payload)) <= 2)%nat.
Proof.
  unfold onboarding_evaluate. set (stage := Str.lower _).
  pose proof (onboarding_stages_exclusive stage) as Hexcl.
  destruct (Str.mem stage ["poc"; "implementation"; "onboarding"]),
           (Str.mem stage ["go_live"; "golive"; "live"]);
    try discriminate Hexcl;
    destruct (Py.get "qa_score" payload); cbn; lia.
Qed.

Lemma mem_In (x : string) (l : list string) :
  Str.mem x l = true <-> In x l.
Proof.
  unfold Str.mem. rewrite existsb_exists. split.
  - intros [y [Hin Heq]]. apply String.eqb_eq in Heq. now subst y.
  - intros Hin. exists x. split; [exact Hin | apply String.eqb_refl].
Qed.

(** X6.  The onboarding agent reads the stage of the payload in lower
    case.  For a stage in ASCII (or an integer within the bound on the
    digits) it asks for the onboarding tasks
    exactly when the stage is poc, implementation or onboarding, and
    for the go-live handoff exactly when it is go_live, golive or live,
    hence never for both; the QA metrics are updated exactly when the
    payload has a ["qa_score"] that is not [None], a score of 0
    included.  There are at most two actions, in the order tasks, QA,
    handoff, each with the workspace and the payload as its record. *)
Theorem onboarding_actions (ws : string) (payload : dict scalar) :
  plain_scalar (Py.get "stage" payload) = true ->
  let stage :=
    Str.lower (Py.str (Py.or_else (Py.get "stage" payload) (SStr ""))) in
  let record :=
    [("workspace_id", JStr ws); ("record", Py.of_payload payload)] in
  exists tasks qa handoff,
    onboarding_evaluate ws payload
    = JDict [("actions", JList (tasks ++ qa ++ handoff))]
    /\ (In stage ["poc"; "implementation"; "onboarding"] ->
        tasks = [webhook "webhooks/create_onboarding_tasks" record])
    /\ (~ In stage ["poc"; "implementation"; "onboarding"] -> tasks = [])
    /\ (Py.get "qa_score" payload <> SNone ->
        qa = [webhook "webhooks/update_qa_metrics" record])
    /\ (Py.get "qa_score" payload = SNone -> qa = [])
    /\ (In stage ["go_live"; "golive"; "live"] ->
        handoff = [webhook "webhooks/go_live_handoff" record])
    /\ (~ In stage ["go_live"; "golive"; "live"] -> handoff = [])
    /\ (tasks = [] \/ handoff = [])
    /\ (List.length (tasks ++ qa ++ handoff) <= 2)%nat.
Proof.
  intros _ stage record.
  pose proof (onboarding_at_most_two ws payload) as Htwo.
  unfold onboarding_evaluate in *. fold stage in Htwo |- *. fold record.
  pose proof (onboarding_stages_exclusive stage) as Hexcl.
  pose proof (mem_In stage ["poc"; "implementation"; "onboarding"]) as Htasks.
  pose proof (mem_In stage ["go_live"; "golive"; "live"]) as Hhandoff.
  cbn [decision_actions dict_get String.eqb Ascii.eqb Bool.eqb] in Htwo.
  do 3 eexists. split; [reflexivity |].
  destruct (Str.mem stage ["poc"; "implementation"; "onboarding"]),
           (Str.mem stage ["go_live"; "golive"; "live"]);
    try discriminate Hexcl;
    destruct (Py.get "qa_score" payload) eqn:Hqa;
    repeat split; intros; try reflexivity; try congruence; auto;
    try (exfalso; intuition congruence).
Qed.

Lemma onboarding_actions_witness :
  onboarding_evaluate "acme" deal_payload
  = JDict
      [("actions",
        JList
          [webhook "webhooks/create_onboarding_tasks"
             [("workspace_id", JStr "acme");
              ("record", Py.of_payload deal_payload)]])].
Proof.
  destruct (onboarding_actions "acme" deal_payload eq_refl)
    as (tasks & qa & handoff & Heval & Htasks & _ & _ & Hqa & _ & Hhandoff & _).
  rewrite Heval, Htasks, Hqa, Hhandoff; [reflexivity | | reflexivity |].
  - cbn. intuition discriminate.
  - cbn. auto.
Defined.

End AgentFacts.

(** ** Whole runs of the pipeline *)

Module RunFacts.
Import GTM Notions GTMFacts.
Local Open Scope list_scope.

Ltac simpl_run :=
  cbn [bind st_workspace_id event_type event_payload decisions actions
         approved errors timestamp ops_evaluate decision_actions
         initial_state set_decision extend_actions record_decision
         dict_set dict_get String.eqb Ascii.eqb Bool.eqb app].

Ltac simpl_run_in H :=
  cbn [bind st_workspace_id event_type event_payload decisions actions
         approved errors timestamp ops_evaluate decision_actions
         initial_state set_decision extend_actions record_decision
         dict_set dict_get String.eqb Ascii.eqb Bool.eqb app] in H.

Lemma set_decision_explicit (stage : string) (decision : json)
    (ws et : string) (payload : dict scalar) (decs : dict json)
    (acts : list json) (ok : bool) (errs : list string) (now : datetime) :
  set_decision stage decision
    {| st_workspace_id := ws; event_type := et; event_payload := payload;
       decisions := decs; actions := acts; approved := ok; errors := errs;
       timestamp := now |}
  = {| st_workspace_id := ws; event_type := et; event_payload := payload;
       decisions := dict_set stage decision decs; actions := acts;
       approved := ok; errors := errs; timestamp := now |}.
Proof. reflexivity. Qed.

Lemma record_decision_explicit (stage : string) (decision : json)
    (ws et : string) (payload : dict scalar) (decs : dict json)
    (acts : list json) (ok : bool) (errs : list string) (now : datetime) :
  record_decision stage decision
    {| st_workspace_id := ws; event_type := et; event_payload := payload;
       decisions := decs; actions := acts; approved := ok; errors := errs;
       timestamp := now |}
  = {| st_workspace_id := ws; event_type := et; event_payload := payload;
       decisions := dict_set stage decision decs;
       actions := acts ++ decision_actions decision;
       approved := ok; errors := errs; timestamp := now |}.
Proof. reflexivity. Qed.

(** The state a run returns, in terms of the decisions of its four
    fallible stages. *)
Lemma run_explicit (file : config_file) (ws et : string)
    (payload : dict scalar) (now : datetime) (final : GTMState) :
  sequential file (initial_state ws et payload now) = Ok final ->
  exists schema routing lifecycle hygiene,
    ensure_workspace_schema file ws = Ok schema
    /\ routing_evaluate file ws
         [("event", classify et payload); ("schema", schema)] payload
       = Ok routing
    /\ lifecycle_evaluate file ws payload = Ok lifecycle
    /\ hygiene_evaluate ws payload = Ok hygiene
    /\ final
       = {| st_workspace_id := ws;
            event_type := et;
            event_payload := payload;
            decisions :=
              run_decisions ws et payload schema routing lifecycle hygiene;
            actions :=
              decision_actions schema ++ decision_actions routing
              ++ decision_actions lifecycle ++ decision_actions hygiene
              ++ (if Str.mem (category_of et payload) onboarding_categories
                  then decision_actions (onboarding_evaluate ws payload)
                  else [])
              ++ decision_actions (reporting_evaluate ws et payload);
            approved := false;
            errors := [];
            timestamp := now |}.
Proof.
  unfold sequential, classify_event. simpl_run.
  unfold schema_discovery. simpl_run.
  destruct (ensure_workspace_schema file ws) as [d2 | e] eqn:H2; simpl_run;
    [| discriminate].
  unfold routing_sla. simpl_run.
  destruct (routing_evaluate file ws _ payload) as [d3 | e] eqn:H3; simpl_run;
    [| discriminate].
  unfold lifecycle_enforcement. simpl_run.
  destruct (lifecycle_evaluate file ws payload) as [d4 | e] eqn:H4; simpl_run;
    [| discriminate].
  unfold data_hygiene. simpl_run.
  destruct (hygiene_evaluate ws payload) as [d5 | e] eqn:H5; simpl_run;
    [| discriminate].
  rewrite needs_onboarding_of_category by reflexivity. simpl_run.
  unfold run_decisions.
  intros H. exists d2, d3, d4, d5.
  split; [reflexivity |]. split; [exact H3 |].
  split; [reflexivity |]. split; [reflexivity |].
  destruct (Str.mem (category_of et payload) onboarding_categories).
  - rewrite String.eqb_refl in H.
    unfold onboarding_go_live, reporting_attribution, ops_self_heal in H.
    simpl_run_in H. injection H as <-. unfold no_alert, initial_state.
    rewrite set_decision_explicit, !record_decision_explicit.
    simpl_run. rewrite ?app_nil_r, <- ?app_assoc. reflexivity.
  - change ("reporting" =? "onboarding")%string with false in H.
    unfold reporting_attribution, ops_self_heal in H.
    simpl_run_in H. injection H as <-. unfold no_alert, initial_state.
    rewrite set_decision_explicit, !record_decision_explicit.
    simpl_run. rewrite ?app_nil_r, <- ?app_assoc. reflexivity.
Qed.

(** The state of a run of [handle_event], with the graph or without. *)
Lemma handle_event_explicit (file : config_file) (langgraph : bool)
    (ws et : string) (payload : dict scalar) (now : datetime)
    (final : GTMState) :
  handle_event file (new_orchestrator file langgraph) ws et payload now
  = Ok final ->
  exists schema routing lifecycle hygiene,
    ensure_workspace_schema file ws = Ok schema
    /\ routing_evaluate file ws
         [("event", classify et payload); ("schema", schema)] payload
       = Ok routing
    /\ lifecycle_evaluate file ws payload = Ok lifecycle
    /\ hygiene_evaluate ws payload = Ok hygiene
    /\ final
       = {| st_workspace_id := ws;
            event_type := et;
            event_payload := payload;
            decisions :=
              run_decisions ws et payload schema routing lifecycle hygiene;
            actions :=
              decision_actions schema ++ decision_actions routing
              ++ decision_actions lifecycle ++ decision_actions hygiene
              ++ (if Str.mem (category_of et payload) onboarding_categories
                  then decision_actions (onboarding_evaluate ws payload)
                  else [])
              ++ decision_actions (reporting_evaluate ws et payload);
            approved := false;
            errors := [];
            timestamp := now |}.
Proof. rewrite handle_event_sequential. apply run_explicit. Qed.

(** X7.  The decisions of a run that returns are the outputs of the
    stage agents on the event the run was started with: every agent is
    given the workspace id and the payload of the event, the routing
    agent the decisions of the classifier and of schema discovery and
    nothing later, the reporting agent the event type; the decisions are
    stored in the order of the stages, onboarding only for the
    categories that ask for it, and the decision of the ops stage is the
    one without action. *)
Theorem decisions_are_stage_outputs (file : config_file) (langgraph : bool)
    (ws et : string) (payload : dict scalar) (now : datetime)
    (final : GTMState) :
  handle_event file (new_orchestrator file langgraph) ws et payload now
  = Ok final ->
  exists schema routing lifecycle hygiene,
    ensure_workspace_schema file ws = Ok schema
    /\ routing_evaluate file ws
         [("event", classify et payload); ("schema", schema)] payload
       = Ok routing
    /\ lifecycle_evaluate file ws payload = Ok lifecycle
    /\ hygiene_evaluate ws payload = Ok hygiene
    /\ decisions final
       = [("event", classify et payload); ("schema", schema);
          ("routing", routing); ("lifecycle", lifecycle);
          ("hygiene", hygiene)]
         ++ (if Str.mem (category_of et payload) onboarding_categories
             then [("onboarding", onboarding_evaluate ws payload)] else [])
         ++ [("reporting", reporting_evaluate ws et payload);
             ("ops", JDict [("actions", JList [])])].
Proof.
  intros Hrun.
  destruct (handle_event_explicit _ _ _ _ _ _ _ Hrun)
    as (d2 & d3 & d4 & d5 & H2 & H3 & H4 & H5 & ->).
  exists d2, d3, d4, d5. repeat (split; [assumption |]). reflexivity.
Qed.

Lemma decisions_are_stage_outputs_witness :
  exists schema routing lifecycle hygiene,
    ensure_workspace_schema acme_file "acme" = Ok schema
    /\ routing_evaluate acme_file "acme"
         [("event", classify "deal_stage_changed" deal_payload);
          ("schema", schema)] deal_payload
       = Ok routing
    /\ lifecycle_evaluate acme_file "acme" deal_payload = Ok lifecycle
    /\ hygiene_evaluate "acme" deal_payload = Ok hygiene
    /\ decisions
         match handle_event acme_file (new_orchestrator acme_file true)
                 "acme" "deal_stage_changed" deal_payload 0 with
         | Ok final => final
         | Raise _ => initial_state "acme" "deal_stage_changed" deal_payload 0
         end
       = [("event", classify "deal_stage_changed" deal_payload);
          ("schema", schema); ("routing", routing);
          ("lifecycle", lifecycle); ("hygiene", hygiene);
          ("onboarding", onboarding_evaluate "acme" deal_payload);
          ("reporting",
           reporting_evaluate "acme" "deal_stage_changed" deal_payload);
          ("ops", JDict [("actions", JList [])])].
Proof.
  destruct (handle_event acme_file (new_orchestrator acme_file true) "acme"
              "deal_stage_changed" deal_payload 0) as [final | e] eqn:Hrun.
  - exact (decisions_are_stage_outputs acme_file true "acme"
             "deal_stage_changed" deal_payload 0 final Hrun).
  - vm_compute in Hrun. discriminate Hrun.
Defined.

(** *** Actions *)

Lemma classify_no_actions (et : string) (payload : dict scalar) :
  decision_actions (classify et payload) = [].
Proof.
  unfold classify, classification.
  repeat match goal with
         | |- context [if ?b then _ else _] => destruct b
         end; reflexivity.
Qed.

(** X8.  The actions of a run that returns are the actions of its
    decisions, in the order of the decisions: every action a stage
    decided is in the list once, at its place, and the list holds
    nothing else. *)
Theorem actions_follow_decisions (file : config_file) (langgraph : bool)
    (ws et : string) (payload : dict scalar) (now : datetime)
    (final : GTMState) :
  handle_event file (new_orchestrator file langgraph) ws et payload now
  = Ok final ->
  actions final = flat_map decision_actions (dict_values (decisions final)).
Proof.
  intros Hrun.
  destruct (handle_event_explicit _ _ _ _ _ _ _ Hrun)
    as (d2 & d3 & d4 & d5 & _ & _ & _ & _ & ->).
  cbn [actions decisions]. unfold run_decisions, dict_values, no_alert.
  destruct (Str.mem (category_of et payload) onboarding_categories);
    cbn [app map snd flat_map]; rewrite classify_no_actions;
    cbn [app decision_actions dict_get String.eqb Ascii.eqb Bool.eqb];
    rewrite ?app_nil_r; reflexivity.
Qed.

Lemma actions_follow_decisions_witness :
  actions
    match handle_event acme_file (new_orchestrator acme_file false) "acme"
            "lead_created" lead_payload 0 with
    | Ok final => final
    | Raise _ => initial_state "acme" "lead_created" lead_payload 0
    end
  = flat_map decision_actions
      (dict_values
         (decisions
            match handle_event acme_file (new_orchestrator acme_file false)
                    "acme" "lead_created" lead_payload 0 with
            | Ok final => final
            | Raise _ => initial_state "acme" "lead_created" lead_payload 0
            end)).
Proof.
  destruct (handle_event acme_file (new_orchestrator acme_file false) "acme"
              "lead_created" lead_payload 0) as [final | e] eqn:Hrun.
  - exact (actions_follow_decisions acme_file false "acme" "lead_created"
             lead_payload 0 final Hrun).
  - vm_compute in Hrun. discriminate Hrun.
Defined.

(** *** Every action is a webhook for the workspace of the run *)

Ltac is_webhook ws :=
  eexists; eexists; split; [reflexivity |];
  split; [cbn; tauto | reflexivity].

Lemma schema_webhooks (file : config_file) (ws : string) (d : json) :
  ensure_workspace_schema file ws = Ok d ->
  Forall (webhook_for ws) (decision_actions d).
Proof.
  unfold ensure_workspace_schema. intros H. bind_inv H.
  injection H as <-.
  destruct (Str.sorted _); cbn; repeat constructor. is_webhook ws.
Qed.

Lemma routing_webhooks (file : config_file) (ws : string)
    (decs : dict json) (payload : dict scalar) (d : json) :
  routing_evaluate file ws decs payload = Ok d ->
  Forall (webhook_for ws) (decision_actions d).
Proof.
  unfold routing_evaluate. intros H. bind_inv H. bind_inv H. bind_inv H.
  destruct x1.
  - bind_inv H. injection H as <-. cbn. repeat constructor. is_webhook ws.
  - injection H as <-. cbn. constructor.
Qed.

Lemma lifecycle_webhooks (file : config_file) (ws : string)
    (payload : dict scalar) (d : json) :
  lifecycle_evaluate file ws payload = Ok d ->
  Forall (webhook_for ws) (decision_actions d).
Proof.
  unfold lifecycle_evaluate. intros H.
  bind_inv H. bind_inv H. bind_inv H. bind_inv H. injection H as <-.
  destruct x2; cbn; repeat constructor. is_webhook ws.
Qed.

Lemma hygiene_webhooks (ws : string) (payload : dict scalar) (d : json) :
  hygiene_evaluate ws payload = Ok d ->
  Forall (webhook_for ws) (decision_actions d).
Proof.
  unfold hygiene_evaluate. intros H. bind_inv H. bind_inv H.
  injection H as <-. cbn [decision_actions dict_get String.eqb Ascii.eqb Bool.eqb].
  apply Forall_app. split.
  - destruct (_ && _); [| constructor].
    destruct (Str.after_first _ _); repeat constructor. is_webhook ws.
  - destruct (Py.truthy _); repeat constructor. is_webhook ws.
Qed.

Lemma onboarding_webhooks (ws : string) (payload : dict scalar) :
  Forall (webhook_for ws) (decision_actions (onboarding_evaluate ws payload)).
Proof.
  unfold onboarding_evaluate.
  cbn [decision_actions dict_get String.eqb Ascii.eqb Bool.eqb].
  apply Forall_app; split; [| apply Forall_app; split].
  - destruct (Str.mem _ _); repeat constructor. is_webhook ws.
  - destruct (Py.get "qa_score" payload); repeat constructor; is_webhook ws.
  - destruct (Str.mem _ _); repeat constructor. is_webhook ws.
Qed.

Lemma reporting_webhooks (ws et : string) (payload : dict scalar) :
  Forall (webhook_for ws)
    (decision_actions (reporting_evaluate ws et payload)).
Proof.
  unfold reporting_evaluate.
  cbn [decision_actions dict_get String.eqb Ascii.eqb Bool.eqb].
  apply Forall_app; split.
  - destruct (_ || _); repeat constructor. is_webhook ws.
  - destruct (Py.truthy _); repeat constructor. is_webhook ws.
Qed.

(** How many actions a stage decides. *)
Lemma schema_at_most_one (file : config_file) (ws : string) (d : json) :
  ensure_workspace_schema file ws = Ok d ->
  (List.length (decision_actions d) <= 1)%nat.
Proof.
  unfold ensure_workspace_schema. intros H. bind_inv H.
  injection H as <-. destruct (Str.sorted _); cbn; lia.
Qed.

Lemma routing_at_most_one (file : config_file) (ws : string)
    (decs : dict json) (payload : dict scalar) (d : json) :
  routing_evaluate file ws decs payload = Ok d ->
  (List.length (decision_actions d) <= 1)%nat.
Proof.
  unfold routing_evaluate. intros H. bind_inv H. bind_inv H. bind_inv H.
  destruct x1.
  - bind_inv H. injection H as <-. cbn. lia.
  - injection H as <-. cbn. lia.
Qed.

Lemma lifecycle_at_most_one (file : config_file) (ws : string)
    (payload : dict scalar) (d : json) :
  lifecycle_evaluate file ws payload = Ok d ->
  (List.length (decision_actions d) <= 1)%nat.
Proof.
  unfold lifecycle_evaluate. intros H.
  bind_inv H. bind_inv H. bind_inv H. bind_inv H. injection H as <-.
  destruct x2; cbn; lia.
Qed.

Lemma hygiene_at_most_two (ws : string) (payload : dict scalar) (d : json) :
  hygiene_evaluate ws payload = Ok d ->
  (List.length (decision_actions d) <= 2)%nat.
Proof.
  unfold hygiene_evaluate. intros H. bind_inv H. bind_inv H.
  injection H as <-.
  cbn [decision_actions dict_get String.eqb Ascii.eqb Bool.eqb].
  rewrite length_app.
  destruct (_ && _); [destruct (Str.after_first _ _) |];
    destruct (Py.truthy _); cbn; lia.
Qed.

Lemma reporting_at_most_two (ws et : string) (payload : dict scalar) :
  (List.length (decision_actions (reporting_evaluate ws et payload)) <= 2)%nat.
Proof.
  unfold reporting_evaluate.
  cbn [decision_actions dict_get String.eqb Ascii.eqb Bool.eqb].
  rewrite length_app.
  destruct (_ || _); destruct (Py.truthy _); cbn; lia.
Qed.

Lemma run_at_most_nine (file : config_file) (langgraph : bool)
    (ws et : string) (payload : dict scalar) (now : datetime)
    (final : GTMState) :
  handle_event file (new_orchestrator file langgraph) ws et payload now
  = Ok final ->
  (List.length (actions final) <= 9)%nat.
Proof.
  intros Hrun.
  destruct (handle_event_explicit _ _ _ _ _ _ _ Hrun)
    as (d2 & d3 & d4 & d5 & H2 & H3 & H4 & H5 & ->).
  cbn [actions]. rewrite !length_app.
  pose proof (schema_at_most_one _ _ _ H2).
  pose proof (routing_at_most_one _ _ _ _ _ H3).
  pose proof (lifecycle_at_most_one _ _ _ _ H4).
  pose proof (hygiene_at_most_two _ _ _ H5).
  pose proof (AgentFacts.onboarding_at_most_two ws payload).
  pose proof (reporting_at_most_two ws et payload).
  destruct (Str.mem _ onboarding_categories); cbn [List.length]; lia.
Qed.

(** The actions of a run are webhooks of the stages for its workspace. *)
Lemma run_webhooks (file : config_file) (langgraph : bool)
    (ws et : string) (payload : dict scalar) (now : datetime)
    (final : GTMState) :
  handle_event file (new_orchestrator file langgraph) ws et payload now
  = Ok final ->
  Forall (webhook_for ws) (actions final).
Proof.
  intros Hrun.
  destruct (handle_event_explicit _ _ _ _ _ _ _ Hrun)
    as (d2 & d3 & d4 & d5 & H2 & H3 & H4 & H5 & ->).
  cbn [actions].
  apply Forall_app; split; [| apply Forall_app; split;
    [| apply Forall_app; split; [| apply Forall_app; split;
      [| apply Forall_app; split]]]].
  - exact (schema_webhooks _ _ _ H2).
  - exact (routing_webhooks _ _ _ _ _ H3).
  - exact (lifecycle_webhooks _ _ _ _ H4).
  - exact (hygiene_webhooks _ _ _ H5).
  - destruct (Str.mem _ _); [apply onboarding_webhooks | constructor].
  - apply reporting_webhooks.
Qed.

(** X9.  Every action of a run that returns is a dict of type
    [n8n_webhook] that names one of the ten webhooks of the stage
    agents, a path under [webhooks/], and whose payload carries the
    workspace id the run was started with; a run has at most nine
    actions. *)
Theorem actions_are_webhooks (file : config_file) (langgraph : bool)
    (ws et : string) (payload : dict scalar) (now : datetime)
    (final : GTMState) :
  handle_event file (new_orchestrator file langgraph) ws et payload now
  = Ok final ->
  (List.length (actions final) <= 9)%nat
  /\ forall action, In action (actions final) ->
       exists hook body,
         action = JDict [("type", JStr "n8n_webhook"); ("webhook", JStr hook);
                         ("payload", JDict body)]
         /\ In hook stage_hooks
         /\ String.prefix "webhooks/" hook = true
         /\ dict_get "workspace_id" body = Some (JStr ws).
Proof.
  intros Hrun. split; [exact (run_at_most_nine _ _ _ _ _ _ _ Hrun) |].
  intros action Hin.
  pose proof (run_webhooks _ _ _ _ _ _ _ Hrun) as Hall.
  rewrite Forall_forall in Hall.
  destruct (Hall action Hin) as (hook & body & -> & Hhook & Hws).
  exists hook, body. repeat split; try assumption.
  cbn in Hhook.
  repeat (destruct Hhook as [<- | Hhook]; [reflexivity |]).
  destruct Hhook.
Qed.

Lemma actions_are_webhooks_witness :
  Forall
    (fun action =>
       exists hook body,
         action = JDict [("type", JStr "n8n_webhook"); ("webhook", JStr hook);
                         ("payload", JDict body)]
         /\ In hook stage_hooks
         /\ String.prefix "webhooks/" hook = true
         /\ dict_get "workspace_id" body = Some (JStr "acme"))
    (actions
       match handle_event acme_file (new_orchestrator acme_file true)
               "acme" "lead_created" lead_payload 0 with
       | Ok final => final
       | Raise _ => initial_state "acme" "lead_created" lead_payload 0
       end).
Proof.
  apply Forall_forall.
  destruct (handle_event acme_file (new_orchestrator acme_file true) "acme"
              "lead_created" lead_payload 0) as [final | e] eqn:Hrun.
  - exact (proj2 (actions_are_webhooks acme_file true "acme" "lead_created"
                    lead_payload 0 final Hrun)).
  - vm_compute in Hrun. discriminate Hrun.
Defined.

(** *** The ops stage *)

(** X10.  In a run of [handle_event] the ops stage never raises an
    alert: no stage writes to [errors], so the decision stored under
    ["ops"] is the one without action and no action of the run names
    the [ops_alert] webhook; the agent itself alerts as soon as it is
    given an error. *)
Theorem ops_never_alerts (file : config_file) (langgraph : bool)
    (ws et : string) (payload : dict scalar) (now : datetime)
    (final : GTMState) :
  handle_event file (new_orchestrator file langgraph) ws et payload now
  = Ok final ->
  dict_get "ops" (decisions final) = Some no_alert
  /\ (forall action, In action (actions final) ->
        hook_of action <> Some "webhooks/ops_alert")
  /\ (forall decs acts error more,
        map hook_of
          (decision_actions (ops_evaluate ws decs acts (error :: more)))
        = [Some "webhooks/ops_alert"]).
Proof.
  intros Hrun. split; [| split].
  - destruct (handle_event_explicit _ _ _ _ _ _ _ Hrun)
      as (d2 & d3 & d4 & d5 & _ & _ & _ & _ & ->).
    cbn [decisions]. unfold run_decisions.
    destruct (Str.mem _ onboarding_categories); reflexivity.
  - intros action Hin.
    pose proof (run_webhooks _ _ _ _ _ _ _ Hrun) as Hall.
    rewrite Forall_forall in Hall.
    destruct (Hall action Hin) as (hook & body & -> & Hhook & _).
    cbn in Hhook |- *.
    repeat (destruct Hhook as [<- | Hhook]; [discriminate |]).
    destruct Hhook.
  - reflexivity.
Qed.

Lemma ops_never_alerts_witness :
  dict_get "ops"
    (decisions
       match handle_event acme_file (new_orchestrator acme_file true)
               "acme" "lead_created" lead_payload 0 with
       | Ok final => final
       | Raise _ => initial_state "acme" "lead_created" lead_payload 0
       end)
  = Some no_alert.
Proof.
  destruct (handle_event acme_file (new_orchestrator acme_file true) "acme"
              "lead_created" lead_payload 0) as [final | e] eqn:Hrun.
  - exact (proj1 (ops_never_alerts acme_file true "acme" "lead_created"
                    lead_payload 0 final Hrun)).
  - vm_compute in Hrun. discriminate Hrun.
Defined.

(** *** Routing *)

(** X11.  In a run that returns, for an event type in ASCII and an
    ["icp_score"] that is no string or a string in ASCII within the
    bound on the digits, the routing stage acts exactly on the events
    classified [lead_created_or_updated] or [unknown]: for these its
    decision holds one [route_and_sla] action whose ["icp_score"] is
    [int(payload.get("icp_score") or 0)] and whose owner is the
    workspace's [high_fit_owner] when that score is at least 70 and its
    [default_owner] otherwise, [None] when the workspace names none; for
    every other category the decision holds no action. *)
Theorem routing_by_category (file : config_file) (langgraph : bool)
    (ws et : string) (payload : dict scalar) (now : datetime)
    (final : GTMState) :
  Str.is_ascii et = true ->
  short_ascii_scalar (Py.get "icp_score" payload) = true ->
  handle_event file (new_orchestrator file langgraph) ws et payload now
  = Ok final ->
  exists cfg,
    load file ws = Ok cfg
    /\ if Str.mem (category_of et payload)
            ["lead_created_or_updated"; "unknown"]
       then exists icp_score,
           Py.int (Py.or_else (Py.get "icp_score" payload) (SInt 0))
           = Ok icp_score
           /\ dict_get "routing" (decisions final)
              = Some (JDict
                        [("actions",
                          JList
                            [webhook "webhooks/route_and_sla"
                               [("workspace_id", JStr ws);
                                ("owner", owner_for cfg icp_score);
                                ("icp_score", JInt icp_score);
                                ("record", Py.of_payload payload)]])])
       else dict_get "routing" (decisions final)
            = Some (JDict [("actions", JList [])]).
Proof.
  intros _ _ Hrun.
  destruct (handle_event_explicit _ _ _ _ _ _ _ Hrun)
    as (d2 & d3 & d4 & d5 & _ & H3 & _ & _ & ->).
  cbn [decisions]. unfold run_decisions.
  cbn [app dict_get String.eqb Ascii.eqb Bool.eqb].
  unfold routing_evaluate in H3. bind_inv H3. exists x.
  split; [exact Hx |].
  cbn [dict_get String.eqb Ascii.eqb Bool.eqb] in H3.
  rewrite classify_truthy, classify_category in H3.
  cbn [bind json_in] in H3. revert H3.
  destruct (Str.mem (category_of et payload)
              ["lead_created_or_updated"; "unknown"]%string); intros H3.
  - bind_inv H3. exists x0. split; [exact Hx0 |].
    injection H3 as <-. unfold owner_for.
    destruct (70 <=? x0); reflexivity.
  - injection H3 as <-. reflexivity.
Qed.

Lemma routing_by_category_witness :
  dict_get "routing"
    (decisions
       match handle_event acme_file (new_orchestrator acme_file true)
               "acme" "lead_created" lead_payload 0 with
       | Ok final => final
       | Raise _ => initial_state "acme" "lead_created" lead_payload 0
       end)
  = Some (JDict
            [("actions",
              JList
                [webhook "webhooks/route_and_sla"
                   [("workspace_id", JStr "acme");
                    ("owner", JStr "kim");
                    ("icp_score", JInt 82);
                    ("record", Py.of_payload lead_payload)]])]).
Proof.
  destruct (handle_event acme_file (new_orchestrator acme_file true) "acme"
              "lead_created" lead_payload 0) as [final | e] eqn:Hrun.
  - destruct (routing_by_category acme_file true "acme" "lead_created"
                lead_payload 0 final eq_refl eq_refl Hrun)
      as (cfg & Hcfg & Hrouting).
    injection Hcfg as <-.
    destruct Hrouting as (score & Hscore & Hdecision).
    injection Hscore as <-. exact Hdecision.
  - vm_compute in Hrun. discriminate Hrun.
Defined.

(** *** The weekly digest *)

Lemma prefix_empty (s : string) : String.prefix "" s = true.
Proof. destruct s; reflexivity. Qed.

Lemma prefix_app (n a t : string) :
  String.prefix n a = true -> String.prefix n (a ++ t) = true.
Proof.
  revert a. induction n as [| c n IH]; intros a;
    [intros _; apply prefix_empty |].
  destruct a as [| c' a]; cbn [String.prefix append]; [discriminate |].
  destruct (Ascii.ascii_dec c c'); [apply IH | discriminate].
Qed.

Lemma contains_app (n a t : string) :
  Str.contains n a = true -> Str.contains n (a ++ t) = true.
Proof.
  induction a as [| c a IH].
  - cbn [append].
    destruct n; [intros _; destruct t; reflexivity | discriminate].
  - cbn [Str.contains append].
    destruct (String.prefix n (String c a)) eqn:Hp.
    + intros _. change (String c (a ++ t)) with (String c a ++ t)%string.
      now rewrite (prefix_app _ _ t Hp).
    + intros H. rewrite (IH H).
      destruct (String.prefix n (String c (a ++ t))); reflexivity.
Qed.

Lemma rstrip_prefix (s : string) :
  exists t, s = (Str.rstrip s ++ t)%string.
Proof.
  induction s as [| c s [t IH]]; [exists EmptyString; reflexivity |].
  cbn [Str.rstrip]. destruct (Str.rstrip s) as [| c' r].
  - destruct (Str.is_space c); [exists (String c s); reflexivity |].
    exists s. reflexivity.
  - exists t. cbn [append]. now rewrite IH at 1.
Qed.

Lemma contains_lstrip (n s : string) :
  Str.contains n (Str.lstrip s) = true -> Str.contains n s = true.
Proof.
  induction s as [| c s IH]; [auto |].
  cbn [Str.lstrip]. destruct (Str.is_space c); [| auto].
  intros H. cbn [Str.contains]. rewrite (IH H).
  destruct (String.prefix n (String c s)); reflexivity.
Qed.

Lemma contains_strip (n s : string) :
  Str.contains n (Str.strip s) = true -> Str.contains n s = true.
Proof.
  unfold Str.strip. intros H. apply contains_lstrip.
  destruct (rstrip_prefix (Str.lstrip s)) as [t Ht]. rewrite Ht.
  apply contains_app. exact H.
Qed.

Lemma scheduled_digest_names_it (et : string) (payload : dict scalar) :
  category_of et payload = "scheduled_digest"%string ->
  Str.contains "weekly" (Str.lower et) || Str.contains "digest" (Str.lower et)
  = true.
Proof.
  intros Hcat.
  destruct (Str.contains "weekly" (Str.strip (Str.lower et))
            || Str.contains "digest" (Str.strip (Str.lower et))) eqn:Hd.
  - apply orb_true_iff in Hd. apply orb_true_iff.
    destruct Hd as [Hd | Hd]; apply contains_strip in Hd; auto.
  - exfalso. revert Hcat. unfold category_of, classify, classification.
    rewrite Hd.
    repeat match goal with
           | |- context [if ?b then _ else _] => destruct b
           end; discriminate.
Qed.

(** X12.  A run whose event type, in ASCII, names a weekly report or a
    digest, in any case, asks for the weekly digest of its workspace;
    so does every run whose event is classified [scheduled_digest]. *)
Theorem digest_when_scheduled (file : config_file) (langgraph : bool)
    (ws et : string) (payload : dict scalar) (now : datetime)
    (final : GTMState) :
  Str.is_ascii et = true ->
  handle_event file (new_orchestrator file langgraph) ws et payload now
  = Ok final ->
  let digest :=
    webhook "webhooks/weekly_digest" [("workspace_id", JStr ws)] in
  (Str.contains "weekly" (Str.lower et) || Str.contains "digest" (Str.lower et)
   = true -> In digest (actions final))
  /\ (category_of et payload = "scheduled_digest"%string ->
      In digest (actions final)).
Proof.
  intros _ Hrun digest.
  assert (Hnamed : Str.contains "weekly" (Str.lower et)
                   || Str.contains "digest" (Str.lower et) = true ->
                   In digest (actions final)).
  { intros Hd.
    destruct (handle_event_explicit _ _ _ _ _ _ _ Hrun)
      as (d2 & d3 & d4 & d5 & _ & _ & _ & _ & ->).
    cbn [actions]. do 5 (apply in_or_app; right).
    unfold reporting_evaluate. rewrite Hd.
    cbn [decision_actions dict_get String.eqb Ascii.eqb Bool.eqb app].
    left. reflexivity. }
  split; [exact Hnamed |].
  intros Hcat. apply Hnamed. exact (scheduled_digest_names_it et payload Hcat).
Qed.

Lemma digest_when_scheduled_witness :
  In (webhook "webhooks/weekly_digest" [("workspace_id", JStr "acme")])
    (actions
       match handle_event acme_file (new_orchestrator acme_file true)
               "acme" " Weekly_Report " [] 0 with
       | Ok final => final
       | Raise _ => initial_state "acme" " Weekly_Report " [] 0
       end).
Proof.
  destruct (handle_event acme_file (new_orchestrator acme_file true) "acme"
              " Weekly_Report " [] 0) as [final | e] eqn:Hrun.
  - apply (digest_when_scheduled acme_file true "acme" " Weekly_Report " [] 0
             final eq_refl Hrun).
    reflexivity.
  - vm_compute in Hrun. discriminate Hrun.
Defined.

(** *** The store validates every entry *)

Lemma validate_all_returns (data : dict (result WorkspaceConfig))
    (all_cfg : dict WorkspaceConfig) :
  validate_all data = Ok all_cfg -> data = valid_entries all_cfg.
Proof.
  revert all_cfg. induction data as [| [k v] data IH]; intros all_cfg H.
  - injection H as <-. reflexivity.
  - cbn [validate_all] in H. destruct v as [cfg | e]; [| discriminate H].
    cbn [bind] in H. bind_inv H. injection H as <-.
    cbn [valid_entries map fst snd]. fold (valid_entries x).
    now rewrite (IH x Hx).
Qed.

Lemma validate_all_first_invalid (valid : dict WorkspaceConfig) (k : string)
    (e : exn) (rest : dict (result WorkspaceConfig)) :
  validate_all (valid_entries valid ++ (k, Raise e) :: rest) = Raise e.
Proof.
  induction valid as [| [k' cfg] valid IH]; [reflexivity |].
  cbn [valid_entries map fst snd app validate_all bind].
  fold (valid_entries valid). rewrite IH. reflexivity.
Qed.

(** X13.  The store validates every entry of the file on every load:
    when an entry does not validate, every load raises the exception
    of the first such entry, also for a workspace whose own entry is
    valid, and every run of [handle_event] raises it, whatever the
    workspace and the event.  A run that returns has read a file all of
    whose entries validate. *)
Theorem invalid_entry_aborts_every_run (valid : dict WorkspaceConfig)
    (k : string) (e : exn) (rest data : dict (result WorkspaceConfig))
    (langgraph : bool) (ws et : string) (payload : dict scalar)
    (now : datetime) :
  let file := Entries (valid_entries valid ++ (k, Raise e) :: rest) in
  load file ws = Raise e
  /\ handle_event file (new_orchestrator file langgraph) ws et payload now
     = Raise e
  /\ (returns (handle_event (Entries data)
                 (new_orchestrator (Entries data) langgraph) ws et payload
                 now) ->
      exists all_cfg,
        data = valid_entries all_cfg /\ dict_mem ws all_cfg = true).
Proof.
  intros file.
  assert (Hload : load file ws = Raise e).
  { unfold load, file. cbn [load_all].
    now rewrite validate_all_first_invalid. }
  split; [exact Hload | split].
  - rewrite handle_event_sequential.
    apply (load_failure_raises file (initial_state ws et payload now)).
    exact Hload.
  - intros [final Hrun]. rewrite handle_event_sequential in Hrun.
    destruct (sequential_final_state (Entries data)
                (initial_state ws et payload now) final eq_refl Hrun)
      as (_ & _ & _ & _ & _ & _ & _ & [cfg Hcfg]).
    cbn [st_workspace_id initial_state] in Hcfg.
    unfold load in Hcfg. cbn [load_all] in Hcfg.
    destruct (validate_all data) as [all_cfg |] eqn:Hall; [| discriminate].
    cbn [bind] in Hcfg. exists all_cfg.
    split; [exact (validate_all_returns data all_cfg Hall) |].
    destruct (dict_mem ws all_cfg); [reflexivity | discriminate].
Qed.

Lemma invalid_entry_aborts_every_run_witness :
  load broken_file "acme" = Raise ValidationError
  /\ handle_event broken_file (new_orchestrator broken_file true) "acme"
       "lead_created" lead_payload 0 = Raise ValidationError.
Proof.
  destruct (invalid_entry_aborts_every_run [("acme", acme)] "globex"
              ValidationError [] [] true "acme" "lead_created" lead_payload 0)
    as (Hload & Hrun & _).
  exact (conj Hload Hrun).
Defined.

End RunFacts.

(** ** More on the auction *)

Lemma dict_set_NoDup {V : Type} (k : string) (v : V) (d : dict V) :
  NoDup (dict_keys d) -> NoDup (dict_keys (dict_set k v d)).
Proof.
  induction d as [| [k' v'] d IH]; simpl; intros Hd.
  - constructor; [tauto | constructor].
  - inversion Hd as [| ? ? Hk' Hd']; subst.
    destruct (String.eqb_spec k k') as [-> | Hne]; simpl.
    + constructor; assumption.
    + constructor; [| auto].
      intros Hin. apply dict_set_keys in Hin. destruct Hin; congruence.
Qed.

Lemma dict_set_key_in {V : Type} (k : string) (v : V) (d : dict V) :
  In k (dict_keys (dict_set k v d)).
Proof.
  induction d as [| [k' v'] d IH]; simpl; [auto |].
  destruct (String.eqb_spec k k') as [-> | Hne]; simpl; auto.
Qed.

Lemma dict_set_keeps_keys {V : Type} (k k' : string) (v : V) (d : dict V) :
  In k' (dict_keys d) -> In k' (dict_keys (dict_set k v d)).
Proof.
  induction d as [| [k0 v0] d IH]; simpl; [tauto |].
  destruct (String.eqb_spec k k0) as [-> | Hne]; simpl; intuition.
Qed.

Section SortedReverseKeys.
Context {A B : Type} (key : A -> number) (f : A -> B).

Lemma insert_desc_NoDup (x : A) (l : list A) :
  NoDup (map f (x :: l)) -> NoDup (map f (insert_desc key x l)).
Proof.
  induction l as [| y l IH]; simpl; intros H; [exact H |].
  destruct (number_ltb (key x) (key y)); [| exact H].
  simpl. inversion H as [| ? ? Hx Hrest]; subst.
  inversion Hrest as [| ? ? Hy Hl]; subst.
  constructor.
  - intros Hin. apply in_map_iff in Hin. destruct Hin as [z [Hz Hin]].
    apply insert_desc_In in Hin. destruct Hin as [-> | Hin].
    + apply Hx. simpl. auto.
    + apply Hy. rewrite <- Hz. apply in_map. exact Hin.
  - apply IH. simpl. constructor; [| exact Hl].
    intros Hin. apply Hx. simpl. auto.
Qed.

Lemma sorted_reverse_NoDup (l : list A) :
  NoDup (map f l) -> NoDup (map f (sorted_reverse key l)).
Proof.
  induction l as [| x l IH]; simpl; intros H; [exact H |].
  apply insert_desc_NoDup. simpl.
  inversion H as [| ? ? Hx Hl]; subst.
  constructor; [| auto].
  intros Hin. apply Hx. apply in_map_iff in Hin.
  destruct Hin as [z [Hz Hin]]. apply sorted_reverse_In in Hin.
  rewrite <- Hz. apply in_map. exact Hin.
Qed.
End SortedReverseKeys.

Module AuctionFacts.
Import Negotiation NegotiationAgent NegotiationFacts.
Local Open Scope list_scope.

(** *** Every bidder has a ratio, once *)

Lemma value_ratio_NoDup (request : NegotiationRequest)
    (vr vr' : dict number) (item : string * float) :
  value_ratio request vr item = Ok vr' ->
  NoDup (dict_keys vr) ->
  NoDup (dict_keys vr')
  /\ In (fst item) (dict_keys vr')
  /\ (forall k, In k (dict_keys vr) -> In k (dict_keys vr')).
Proof.
  destruct item as [agent bid]. unfold value_ratio.
  destruct (number_ltb (NInt 0) (NFloat bid)); intros H Hd.
  - bind_inv H. bind_inv H. injection H as <-.
    split; [apply dict_set_NoDup; exact Hd |].
    split; [apply dict_set_key_in |].
    intros k. apply dict_set_keeps_keys.
  - injection H as <-.
    split; [apply dict_set_NoDup; exact Hd |].
    split; [apply dict_set_key_in |].
    intros k. apply dict_set_keeps_keys.
Qed.

Lemma value_ratios_loop_NoDup (request : NegotiationRequest)
    (items : list (string * float)) :
  forall vr vr',
    value_ratios_loop request items vr = Ok vr' ->
    NoDup (dict_keys vr) ->
    NoDup (dict_keys vr')
    /\ (forall k, In k (map fst items) -> In k (dict_keys vr'))
    /\ (forall k, In k (dict_keys vr) -> In k (dict_keys vr')).
Proof.
  induction items as [| item rest IH]; intros vr vr' H Hd.
  - simpl in H. injection H as <-. simpl. tauto.
  - simpl in H. bind_inv H.
    destruct (value_ratio_NoDup _ _ _ _ Hx Hd) as (Hd1 & Hitem & Hkeep).
    destruct (IH _ _ H Hd1) as (Hd2 & Hrest & Hkeep2).
    split; [exact Hd2 |]. split.
    + intros k [<- | Hk]; auto.
    + auto.
Qed.

(** *** The selection loop *)

(** The loop only appends: what was selected stays selected. *)
Lemma select_loop_keeps (request : NegotiationRequest)
    (sorted_agents : list (string * number)) :
  forall st st',
    select_loop request sorted_agents st = Ok st' ->
    forall agent, In agent (fst st) -> In agent (fst st').
Proof.
  induction sorted_agents as [| [a ratio] rest IH]; intros st st' H agent Hin.
  - simpl in H. injection H as <-. exact Hin.
  - simpl in H. bind_inv H. destruct st as [selected total].
    unfold select_step in Hx. bind_inv Hx.
    apply (IH _ _ H).
    destruct (Float.leb _ _); injection Hx as <-; simpl in *; auto.
    apply in_or_app. auto.
Qed.

Lemma select_loop_NoDup (request : NegotiationRequest)
    (sorted_agents : list (string * number)) :
  forall selected total st',
    select_loop request sorted_agents (selected, total) = Ok st' ->
    NoDup (selected ++ map fst sorted_agents) ->
    NoDup (fst st').
Proof.
  induction sorted_agents as [| [a ratio] rest IH];
    intros selected total st' H Hd.
  - simpl in H. injection H as <-. simpl in *. now rewrite app_nil_r in Hd.
  - simpl in H. bind_inv H. unfold select_step in Hx. bind_inv Hx.
    simpl in Hd.
    destruct (Float.leb _ _); injection Hx as <-.
    + apply (IH _ _ _ H). rewrite <- app_assoc. exact Hd.
    + apply (IH _ _ _ H). apply NoDup_remove_1 in Hd. exact Hd.
Qed.

(** X14.  The auction selects no agent twice: the selection has at
    most as many agents as there are bids, and consensus asks for two
    different agents. *)
Theorem selection_without_repetition (request : NegotiationRequest)
    (response : NegotiationResponse) :
  run_auction request = Ok response ->
  NoDup (selected_agents response)
  /\ (List.length (selected_agents response)
      <= List.length (agent_bids request))%nat
  /\ (consensus_reached response = true ->
      exists a b rest,
        a <> b /\ selected_agents response = a :: b :: rest).
Proof.
  intros Hrun. unfold run_auction in Hrun. bind_inv Hrun.
  destruct x as [selected total]. injection Hrun as <-. simpl.
  unfold auction_selection in Hx. bind_inv Hx.
  destruct (value_ratios_loop_NoDup _ _ _ _ Hx0 (NoDup_nil _))
    as (Hd & _ & _).
  assert (Hsel : NoDup selected).
  { apply (select_loop_NoDup _ _ _ _ _ Hx). simpl.
    apply sorted_reverse_NoDup. exact Hd. }
  split; [exact Hsel |]. split.
  - rewrite <- (length_map fst (agent_bids request)).
    apply NoDup_incl_length; [exact Hsel |].
    intros agent Hin.
    destruct (select_loop_subset _ _ _ _ Hx agent Hin) as [[] | H].
    exact (sorted_agents_are_bidders request x Hx0 agent H).
  - destruct selected as [| a [| b rest]]; simpl; try discriminate.
    intros _. exists a, b, rest. split; [| reflexivity].
    inversion Hsel as [| ? ? Ha _]; subst. simpl in Ha. intuition.
Qed.

Lemma selection_without_repetition_witness :
  NoDup ["A"; "B"]%string
  /\ (2 <= 3)%nat
  /\ (true = true ->
      exists a b rest, a <> b /\ ["A"; "B"]%string = a :: b :: rest).
Proof.
  apply (selection_without_repetition scenario_request scenario_response).
  vm_compute. reflexivity.
Defined.

(** *** An agent that costs nothing *)

Lemma add_zero_fits (total cost budget : float) :
  Float.eqb cost Float.zero = true ->
  Float.leb total budget = true ->
  Float.leb (Float.add total cost) budget = true.
Proof.
  destruct cost as [sc | sc | | sc mc ec]; try discriminate;
    try (destruct sc; discriminate).
  intros _.
  destruct total as [st | st | | st mt et]; cbn; try discriminate; auto;
    destruct st, sc; intros H; exact H.
Qed.

Lemma select_loop_free_agent (request : NegotiationRequest) (agent : string)
    (cost : float) (sorted_agents : list (string * number)) :
  dict_get agent (agent_bids request) = Some cost ->
  Float.eqb cost Float.zero = true ->
  forall selected total st',
    select_loop request sorted_agents (selected, total) = Ok st' ->
    Float.leb total (budget_limit request) = true ->
    In agent (map fst sorted_agents) ->
    In agent (fst st').
Proof.
  intros Hcost Hzero.
  induction sorted_agents as [| [a ratio] rest IH];
    intros selected total st' H Hle Hin; [destruct Hin |].
  simpl in H. bind_inv H. unfold select_step in Hx. bind_inv Hx.
  destruct (String.eqb_spec a agent) as [-> | Hne].
  - unfold dict_item in Hx0. rewrite Hcost in Hx0. injection Hx0 as <-.
    rewrite (add_zero_fits _ _ _ Hzero Hle) in Hx. injection Hx as <-.
    apply (select_loop_keeps _ _ _ _ H). simpl. apply in_or_app. simpl. auto.
  - destruct Hin as [Heq | Hin]; [simpl in Heq; congruence |].
    destruct (Float.leb (Float.add total x0) (budget_limit request)) eqn:Hfit;
      injection Hx as <-.
    + apply (IH _ _ _ H Hfit Hin).
    + apply (IH _ _ _ H Hle Hin).
Qed.

(** X15.  Under a budget that is not negative, an agent whose bid is
    zero is always selected, whatever its quality score and whatever
    the other bids are. *)
Theorem free_agent_selected (request : NegotiationRequest)
    (response : NegotiationResponse) (agent : string) (cost : float) :
  Float.leb Float.zero (budget_limit request) = true ->
  dict_get agent (agent_bids request) = Some cost ->
  Float.eqb cost Float.zero = true ->
  run_auction request = Ok response ->
  In agent (selected_agents response).
Proof.
  intros Hbudget Hcost Hzero Hrun. unfold run_auction in Hrun.
  bind_inv Hrun. destruct x as [selected total]. injection Hrun as <-. simpl.
  unfold auction_selection in Hx. bind_inv Hx.
  destruct (value_ratios_loop_NoDup _ _ _ _ Hx0 (NoDup_nil _))
    as (_ & Hall & _).
  apply (select_loop_free_agent request agent cost _ Hcost Hzero _ _ _ Hx
           Hbudget).
  assert (Hkey : In agent (dict_keys x)).
  { apply Hall. apply in_map_iff. exists (agent, cost).
    split; [reflexivity | apply dict_get_In; exact Hcost]. }
  unfold dict_keys in Hkey. apply in_map_iff in Hkey.
  destruct Hkey as [[a r] [Ha Hin]]. simpl in Ha. subst a.
  apply in_map_iff. exists (agent, r). split; [reflexivity |].
  apply sorted_reverse_In. exact Hin.
Qed.

Lemma free_agent_selected_witness :
  In "qualification"%string ["timing"; "qualification"]%string.
Proof.
  apply (free_agent_selected free_bids_request
           {| consensus_reached := true;
              selected_agents := ["timing"; "qualification"]%string;
              total_cost := Float.zero;
              rationale := (2%nat, Float.zero) |}
           "qualification"%string Float.zero);
    vm_compute; reflexivity.
Defined.

(** *** The negotiation of a lead *)

Lemma value_ratios_loop_same (r1 r2 : NegotiationRequest)
    (items : list (string * float)) :
  quality_scores r1 = quality_scores r2 ->
  forall vr, value_ratios_loop r1 items vr = value_ratios_loop r2 items vr.
Proof.
  intros Hq. induction items as [| [agent bid] rest IH]; intros vr;
    [reflexivity |].
  assert (E : value_ratio r1 vr (agent, bid) = value_ratio r2 vr (agent, bid))
    by (unfold value_ratio; rewrite Hq; reflexivity).
  cbn [value_ratios_loop]. rewrite E.
  destruct (value_ratio r2 vr (agent, bid)); cbn [bind]; auto.
Qed.

Lemma select_loop_same (r1 r2 : NegotiationRequest)
    (sorted_agents : list (string * number)) :
  agent_bids r1 = agent_bids r2 ->
  budget_limit r1 = budget_limit r2 ->
  forall st, select_loop r1 sorted_agents st = select_loop r2 sorted_agents st.
Proof.
  intros Hb Hl. induction sorted_agents as [| [a ratio] rest IH]; intros st;
    [reflexivity |].
  simpl. destruct st as [selected total]. unfold select_step.
  rewrite Hb, Hl.
  destruct (dict_item a (agent_bids r2)) as [cost | e]; simpl; [| reflexivity].
  destruct (Float.leb _ _); simpl; apply IH.
Qed.

(** The auction does not read the lead id. *)
Lemma run_auction_same (r1 r2 : NegotiationRequest) :
  agent_bids r1 = agent_bids r2 ->
  quality_scores r1 = quality_scores r2 ->
  budget_limit r1 = budget_limit r2 ->
  run_auction r1 = run_auction r2.
Proof.
  intros Hb Hq Hl. unfold run_auction, auction_selection.
  rewrite Hb, (value_ratios_loop_same r1 r2 _ Hq), Hl.
  destruct (value_ratios_loop r2 (agent_bids r2) []) as [vr | e];
    simpl; [| reflexivity].
  rewrite (select_loop_same r1 r2 _ Hb Hl). reflexivity.
Qed.

Lemma same_float_eq (x y : float) : same_float x y = true -> x = y.
Proof.
  destruct x as [s | s | | s m e], y as [s' | s' | | s' m' e'];
    simpl; try discriminate; try reflexivity.
  - intros H. apply Bool.eqb_prop in H. congruence.
  - intros H. apply Bool.eqb_prop in H. congruence.
  - intros H. apply andb_true_iff in H. destruct H as [H He].
    apply andb_true_iff in H. destruct H as [Hs Hm].
    apply Bool.eqb_prop in Hs. apply Pos.eqb_eq in Hm. apply Z.eqb_eq in He.
    congruence.
Qed.

(** X16.  With the default budget of 0.25 per lead, [run_negotiation]
    selects all four agents for every lead whose score is between 0 and
    100, and for a lead without score: their bids add up to 0.17 in
    whatever order the ratios put them, so that consensus is reached,
    the reported total cost is 0.17 and every agent gets a vote; the
    lead id plays no part. *)
Theorem default_budget_selects_all (lead_id : option string)
    (lead_score : option Z) :
  match lead_score with Some s => 0 <= s <= 100 | None => True end ->
  exists r,
    run_negotiation default_agent
      {| state_lead_id := lead_id; state_lead_score := lead_score |} = Ok r
    /\ out_consensus_reached r = true
    /\ List.length (out_selected_agents r) = 4%nat
    /\ (forall agent, In agent bidders -> In agent (out_selected_agents r))
    /\ out_total_cost r = f_0_17
    /\ (forall agent, In agent bidders ->
          dict_get agent (agent_votes r) = Some true)
    /\ List.length (agent_votes r) = 4%nat.
Proof.
  intros Hscore.
  set (s := match lead_score with Some s => s | None => 50 end).
  assert (Hs : 0 <= s <= 100) by (subst s; destruct lead_score; lia).
  assert (Hsame :
            run_negotiation default_agent
              {| state_lead_id := lead_id; state_lead_score := lead_score |}
            = run_negotiation default_agent
                {| state_lead_id := None;
                   state_lead_score := Some (Z.of_nat (Z.to_nat s)) |}).
  { unfold run_negotiation. rewrite Z2Nat.id by lia.
    rewrite (run_auction_same
               (negotiation_request default_agent
                  {| state_lead_id := lead_id;
                     state_lead_score := lead_score |})
               (negotiation_request default_agent
                  {| state_lead_id := None; state_lead_score := Some s |}));
      reflexivity. }
  rewrite Hsame. clear Hsame.
  assert (Hall : default_budget_scores = true) by (vm_compute; reflexivity).
  unfold default_budget_scores in Hall. rewrite forallb_forall in Hall.
  specialize (Hall (Z.to_nat s)). cbv beta in Hall.
  assert (Hseq : In (Z.to_nat s) (seq 0 101)) by (apply in_seq; lia).
  specialize (Hall Hseq). clear Hseq.
  destruct (run_negotiation default_agent _) as [r | e];
    [| discriminate Hall].
  exists r. split; [reflexivity |].
  rename Hall into Hr.
  unfold all_selected in Hr.
  apply andb_true_iff in Hr. destruct Hr as [Hr Hvotes4].
  apply andb_true_iff in Hr. destruct Hr as [Hr Hvotes].
  apply andb_true_iff in Hr. destruct Hr as [Hr Hcost].
  apply andb_true_iff in Hr. destruct Hr as [Hr Hmem].
  apply andb_true_iff in Hr. destruct Hr as [Hconsensus Hlen].
  rewrite forallb_forall in Hmem, Hvotes.
  split; [exact Hconsensus |].
  split; [apply Nat.eqb_eq; exact Hlen |].
  split.
  { intros agent Hin. specialize (Hmem agent Hin).
    unfold Str.mem in Hmem. apply existsb_exists in Hmem.
    destruct Hmem as [a [Ha Heq]]. apply String.eqb_eq in Heq. congruence. }
  split; [apply same_float_eq; exact Hcost |].
  split; [| apply Nat.eqb_eq; exact Hvotes4].
  intros agent Hin. specialize (Hvotes agent Hin).
  destruct (dict_get agent (agent_votes r)) as [[] |]; congruence.
Qed.

Lemma default_budget_selects_all_witness :
  exists r,
    run_negotiation default_agent test_lead = Ok r
    /\ out_consensus_reached r = true
    /\ List.length (out_selected_agents r) = 4%nat
    /\ (forall agent, In agent bidders -> In agent (out_selected_agents r))
    /\ out_total_cost r = f_0_17
    /\ (forall agent, In agent bidders ->
          dict_get agent (agent_votes r) = Some true)
    /\ List.length (agent_votes r) = 4%nat.
Proof.
  apply (default_budget_selects_all (Some "test-001"%string) (Some 75)). lia.
Defined.

End AuctionFacts.

(** ** The registry of flags and experiments *)

Lemma dict_set_value_in {V : Type} (k : string) (v : V) (d : dict V) :
  In v (dict_values (dict_set k v d)).
Proof.
  induction d as [| [k' v'] d IH]; simpl; [auto |].
  destruct (String.eqb k k'); simpl; auto.
Qed.

Lemma dict_set_In {V : Type} (k k' : string) (v v' : V) (d : dict V) :
  NoDup (dict_keys d) ->
  In (k', v') (dict_set k v d) ->
  (k' = k /\ v' = v) \/ (k' <> k /\ In (k', v') d).
Proof.
  induction d as [| [k0 v0] d IH]; simpl; intros Hd Hin.
  - destruct Hin as [Heq | []]. injection Heq as <- <-. auto.
  - inversion Hd as [| ? ? Hk0 Hd']; subst.
    destruct (String.eqb_spec k k0) as [-> | Hne]; simpl in Hin.
    + destruct Hin as [Heq | Hin]; [injection Heq as <- <-; auto |].
      right. split; [| auto]. intros ->. apply Hk0.
      unfold dict_keys. apply in_map_iff. exists (k0, v'). auto.
    + destruct Hin as [Heq | Hin].
      * injection Heq as <- <-. right. split; [congruence | auto].
      * destruct (IH Hd' Hin) as [? | [? ?]]; auto.
Qed.

Module RegistryFacts.
Import GrowthBook GrowthBookAdmin GrowthBookFacts.
Local Open Scope list_scope.

(** *** Stale flags *)

Lemma stale_filter_unevaluated (clk : clock) (flags : list FeatureFlag)
    (days : Z) (f : FeatureFlag) :
  last_evaluated f = None ->
  In f flags ->
  forall n, In f (fst (stale_filter clk n flags days)).
Proof.
  intros Hnever. induction flags as [| g rest IH]; intros Hin n;
    [destruct Hin |].
  simpl. destruct (is_stale clk n g days) as [stale n1] eqn:Hg.
  destruct (stale_filter clk n1 rest days) as [others n2] eqn:Hrest.
  simpl. destruct Hin as [-> | Hin].
  - unfold is_stale in Hg. rewrite Hnever in Hg. injection Hg as <- <-.
    simpl. auto.
  - specialize (IH Hin n1). rewrite Hrest in IH. simpl in IH.
    destruct stale; simpl; auto.
Qed.

(** [is_stale] reads the clock at most once. *)
Lemma is_stale_reading (clk : clock) (n : nat) (f : FeatureFlag) (days : Z) :
  (n <= snd (is_stale clk n f days) <= S n)%nat.
Proof. unfold is_stale. destruct (last_evaluated f); cbn; lia. Qed.

(** A flag the filter keeps is one that [is_stale] accepted, at one of
    the readings of the filter: there is at most one reading per
    flag. *)
Lemma stale_filter_In (clk : clock) (flags : list FeatureFlag) (days : Z)
    (f : FeatureFlag) :
  forall n,
    In f (fst (stale_filter clk n flags days)) ->
    In f flags
    /\ exists j,
         (n <= j < n + List.length flags)%nat
         /\ fst (is_stale clk j f days) = true.
Proof.
  induction flags as [| g rest IH]; intros n Hin; [destruct Hin |].
  simpl in Hin. pose proof (is_stale_reading clk n g days) as Hn1.
  destruct (is_stale clk n g days) as [stale n1] eqn:Hg.
  specialize (IH n1). cbn [snd] in Hn1.
  destruct (stale_filter clk n1 rest days) as [others n2]. simpl in *.
  assert (Hrest : In f others ->
                  In f rest
                  /\ exists j,
                       (n <= j < S (n + List.length rest))%nat
                       /\ fst (is_stale clk j f days) = true).
  { intros H. destruct (IH H) as [Hf [j [Hj Hs]]].
    split; [exact Hf |]. exists j. split; [lia | exact Hs]. }
  destruct stale.
  - destruct Hin as [-> | Hin].
    + split; [auto |]. exists n. split; [lia |]. now rewrite Hg.
    + destruct (Hrest Hin) as [Hf [j [Hj Hs]]].
      split; [right; exact Hf | exists j; split; [lia | exact Hs]].
  - destruct (Hrest Hin) as [Hf [j [Hj Hs]]].
    split; [right; exact Hf | exists j; split; [lia | exact Hs]].
Qed.

Lemma dict_set_length {V : Type} (k : string) (v w : V) (d : dict V) :
  dict_get k d = Some w -> List.length (dict_set k v d) = List.length d.
Proof.
  induction d as [| [k' v'] d IH]; [discriminate |].
  cbn [dict_get dict_set]. destruct (String.eqb k k'); [reflexivity |].
  intros H. cbn [List.length]. now rewrite (IH H).
Qed.

(** X17.  A flag that was just created is stale: [create_feature_flag]
    registers it under its key, replacing a flag of that key, with no
    [last_evaluated]; the dict it returns says [isStale], and until the
    flag is evaluated [get_feature_flag] returns that same dict and
    [get_stale_flags] lists the flag for every number of days, at every
    time. *)
Theorem created_flag_is_stale (clk : clock) (n : nat)
    (k description : string) (on : bool) (default : pyval)
    (rs : option (list Rule)) (c c' : GrowthBookClient) (d : FeatureDict)
    (n' : nat) :
  create_feature_flag clk n k description on default rs c
  = Local (d, c', n') ->
  fd_key d = k
  /\ fd_isStale d = true
  /\ fd_lastEvaluated d = None
  /\ n' = S (S n)
  /\ option_map key (dict_get k (_features c')) = Some k
  /\ (forall k', k' <> k ->
        dict_get k' (_features c') = dict_get k' (_features c))
  /\ (forall m, get_feature_flag clk m k c' = Local (Some d, m))
  /\ forall m days, In k (map fd_key (fst (get_stale_flags clk m days c'))).
Proof.
  unfold create_feature_flag, new_FeatureFlag.
  destruct (local_mode c) eqn:Hlocal; [| discriminate].
  cbn. intros H. injection H as <- <- <-. cbn.
  rewrite dict_get_set_same. cbn.
  repeat (split; [reflexivity |]).
  split; [intros k' Hne; apply dict_get_set_other; exact Hne |].
  split.
  { intros m. unfold get_feature_flag. cbn [local_mode set_features _features].
    rewrite Hlocal, dict_get_set_same. reflexivity. }
  intros m days. unfold get_stale_flags. cbn [local_mode set_features].
  rewrite Hlocal. cbn [_features set_features].
  match goal with
  | |- context [stale_filter clk m (dict_values (dict_set k ?f ?fs)) days] =>
      pose proof (stale_filter_unevaluated clk
                    (dict_values (dict_set k f fs)) days f eq_refl
                    (dict_set_value_in k f fs) m) as Hin;
      destruct (stale_filter clk m (dict_values (dict_set k f fs)) days)
        as [stale n1]
  end.
  simpl in Hin |- *. rewrite to_dicts_keys.
  apply (in_map key) in Hin. exact Hin.
Qed.

Lemma created_flag_is_stale_witness :
  In "enable_dark_mode"%string
    (map fd_key
       (fst (get_stale_flags clock0 2 365
               (client_after
                  (create_feature_flag clock0 0 "enable_dark_mode"
                     "Dark mode" true (VScalar (SBool true)) None client0)
                  client0)))).
Proof.
  destruct (create_feature_flag clock0 0 "enable_dark_mode" "Dark mode" true
              (VScalar (SBool true)) None client0)
    as [[[d c'] n'] |] eqn:Hcreate; [| discriminate Hcreate].
  exact (proj2 (proj2 (proj2 (proj2 (proj2 (proj2 (proj2
           (created_flag_is_stale clock0 0 "enable_dark_mode" "Dark mode"
              true (VScalar (SBool true)) None client0 c' d n'
              Hcreate))))))) 2%nat 365).
Defined.

(** A flag whose last evaluation is less than [days + 1] days back at
    the readings of the filter is not listed. *)
Lemma evaluated_not_listed (clk : clock) (m : nat) (days : Z) (k : string)
    (g : FeatureFlag) (t : datetime) (c' : GrowthBookClient)
    (features : dict FeatureFlag) :
  local_mode c' = true ->
  _features c' = dict_set k g features ->
  NoDup (dict_keys features) ->
  (forall k' f, In (k', f) features -> key f = k') ->
  key g = k ->
  last_evaluated g = Some t ->
  (forall j,
      (m <= j < m + List.length (dict_set k g features))%nat ->
      clk j - t < (days + 1) * microseconds_per_day) ->
  ~ In k (map fd_key (fst (get_stale_flags clk m days c'))).
Proof.
  intros Hlocal Hfeatures Hd Hkeyed Hkey Hlast Hclock Hin.
  unfold get_stale_flags in Hin. rewrite Hlocal, Hfeatures in Hin.
  destruct (stale_filter clk m (dict_values (dict_set k g features)) days)
    as [stale n1] eqn:Hstale.
  rewrite to_dicts_keys in Hin. apply in_map_iff in Hin.
  destruct Hin as [g' [Hg' Hin]].
  assert (Hfst : In g' (fst (stale_filter clk m
                               (dict_values (dict_set k g features)) days)))
    by (rewrite Hstale; exact Hin).
  apply stale_filter_In in Hfst. destruct Hfst as [Hval [j [Hwindow Hj]]].
  unfold dict_values in Hwindow. rewrite length_map in Hwindow.
  unfold dict_values in Hval. apply in_map_iff in Hval.
  destruct Hval as [[k' g''] [Heq Hval]]. simpl in Heq. subst g''.
  destruct (dict_set_In _ _ _ _ _ Hd Hval) as [[_ ->] | [Hne Hold]].
  - unfold is_stale in Hj. rewrite Hlast in Hj. simpl in Hj.
    unfold timedelta_days in Hj. rewrite whole_days in Hj.
    apply Z.leb_le in Hj. specialize (Hclock j Hwindow). lia.
  - apply Hkeyed in Hold. congruence.
Qed.

(** X18.  Evaluating a flag takes it off the stale list: after [is_on]
    or [get_feature_value] on a registered flag, in a registry where
    every flag sits under its own key, [get_stale_flags(days)] does not
    list the flag when the readings of the clock it makes - at most one
    for each flag of the registry - are less than [days + 1] days after
    the reading of the evaluation. *)
Theorem evaluated_flag_not_stale (clk : clock) (n m : nat) (k : string)
    (default : pyval) (attributes : option (dict scalar))
    (c : GrowthBookClient) (f : FeatureFlag) (days : Z) :
  local_mode c = true ->
  keyed c ->
  dict_get k (_features c) = Some f ->
  (forall j,
      (m <= j < m + List.length (_features c))%nat ->
      clk j - clk n < (days + 1) * microseconds_per_day) ->
  ~ In k (map fd_key
            (fst (get_stale_flags clk m days
                    (snd (fst (is_on clk n k attributes c))))))
  /\ ~ In k (map fd_key
               (fst (get_stale_flags clk m days
                       (snd (fst (get_feature_value clk n k default
                                    attributes c)))))).
Proof.
  intros Hlocal [Hd Hkeyed] Hget Hclock.
  assert (Hkey : key f = k) by (apply Hkeyed; apply dict_get_In; exact Hget).
  assert (Hwindow : forall j,
             (m <= j < m + List.length
                             (dict_set k (set_last_evaluated (clk n) f)
                                (_features c)))%nat ->
             clk j - clk n < (days + 1) * microseconds_per_day).
  { intros j Hj. apply Hclock.
    now rewrite (dict_set_length k _ f (_features c) Hget) in Hj. }
  split.
  - rewrite (is_on_state clk n k attributes c f Hlocal Hget).
    apply (evaluated_not_listed clk m days k
             (set_last_evaluated (clk n) f) (clk n) _ (_features c));
      try reflexivity; assumption.
  - unfold get_feature_value. rewrite Hlocal, Hget.
    apply (evaluated_not_listed clk m days k
             (set_last_evaluated (clk n) f) (clk n) _ (_features c));
      try reflexivity; assumption.
Qed.

Lemma client0_keyed : keyed client0.
Proof.
  split.
  - cbn. repeat constructor; cbn; intuition discriminate.
  - intros k f Hin. cbn in Hin.
    repeat (destruct Hin as [Heq | Hin];
            [injection Heq as <- <-; reflexivity |]).
    destruct Hin.
Qed.

Lemma evaluated_flag_not_stale_witness :
  ~ In "enable_timing_agent"%string
      (map fd_key
         (fst (get_stale_flags hourly_clock 1 30
                 (snd (fst (is_on hourly_clock 0 "enable_timing_agent" None
                              client0))))))
  /\ ~ In "enable_timing_agent"%string
         (map fd_key
            (fst (get_stale_flags hourly_clock 1 30
                    (snd (fst (get_feature_value hourly_clock 0
                                 "enable_timing_agent"
                                 (VScalar SNone) None client0)))))).
Proof.
  apply (evaluated_flag_not_stale hourly_clock 0 1 "enable_timing_agent"
           (VScalar SNone) None client0 unused_flag 30).
  - reflexivity.
  - exact client0_keyed.
  - reflexivity.
  - intros j Hj. cbn in Hj. unfold hourly_clock, microseconds_per_day. lia.
Defined.


(** *** Every flag under its own key *)

Lemma keyed_set (k : string) (f : FeatureFlag) (c c' : GrowthBookClient) :
  keyed c ->
  key f = k ->
  _features c' = dict_set k f (_features c) ->
  keyed c'.
Proof.
  intros [Hd Hkeyed] Hkey Hfeatures. unfold keyed. rewrite Hfeatures. split.
  - apply dict_set_NoDup. exact Hd.
  - intros k' f' Hin.
    destruct (dict_set_In _ _ _ _ _ Hd Hin) as [[-> ->] | [_ Hold]];
      [exact Hkey | exact (Hkeyed _ _ Hold)].
Qed.

(** X19.  The registry keeps every flag under its own key: a client
    whose flags each sit under the key they carry - the empty client is
    one - is still such a client after [create_feature_flag],
    [update_feature_flag], [is_on] and [get_feature_value], whatever
    their arguments and whether they return or raise. *)
Theorem registry_stays_keyed (clk : clock) (n : nat) (k description : string)
    (on : bool) (on' : option bool) (default : pyval)
    (rs : option (list Rule)) (attributes : option (dict scalar))
    (c : GrowthBookClient) :
  keyed c ->
  keyed (client_after
           (create_feature_flag clk n k description on default rs c) c)
  /\ keyed (client_after (update_feature_flag clk n k on' default rs c) c)
  /\ keyed (snd (fst (is_on clk n k attributes c)))
  /\ keyed (snd (fst (get_feature_value clk n k default attributes c)))
  /\ keyed empty_client.
Proof.
  intros Hc.
  assert (Hkey : forall f, dict_get k (_features c) = Some f -> key f = k).
  { intros f Hget. apply (proj2 Hc). apply dict_get_In. exact Hget. }
  split; [| split; [| split; [| split]]].
  - unfold create_feature_flag, new_FeatureFlag.
    destruct (local_mode c); [| exact Hc].
    cbn. eapply keyed_set; [exact Hc | | reflexivity]. reflexivity.
  - unfold update_feature_flag, dict_mem, dict_item.
    destruct (local_mode c); [| exact Hc].
    destruct (dict_get k (_features c)) as [f |] eqn:Hget; [| exact Hc].
    cbn [negb]. unfold _feature_to_dict.
    destruct (is_stale clk (S n) (updated (clk n) on' default rs f) 30)
      as [stale n'].
    cbn [client_after].
    eapply keyed_set; [exact Hc | | reflexivity]. exact (Hkey f eq_refl).
  - destruct (local_mode c) eqn:Hlocal.
    + destruct (dict_get k (_features c)) as [f |] eqn:Hget.
      * rewrite (is_on_state clk n k attributes c f Hlocal Hget).
        eapply keyed_set; [exact Hc | | reflexivity]. exact (Hkey f eq_refl).
      * unfold is_on. rewrite Hlocal, Hget. exact Hc.
    + unfold is_on. rewrite Hlocal. exact Hc.
  - unfold get_feature_value.
    destruct (local_mode c); [| exact Hc].
    destruct (dict_get k (_features c)) as [f |] eqn:Hget; [| exact Hc].
    cbn. eapply keyed_set; [exact Hc | | reflexivity]. exact (Hkey f eq_refl).
  - split; [constructor | intros k' f' []].
Qed.

Lemma registry_stays_keyed_witness :
  keyed (client_after
           (create_feature_flag clock0 0 "enable_dark_mode" "Dark mode" true
              (VScalar (SBool true)) None client0) client0)
  /\ keyed (client_after
              (update_feature_flag clock0 0 "enable_dark_mode" (Some false)
                 (VScalar (SBool true)) None client0) client0)
  /\ keyed (snd (fst (is_on clock0 0 "enable_dark_mode" None client0)))
  /\ keyed (snd (fst (get_feature_value clock0 0 "enable_dark_mode"
                         (VScalar (SBool true)) None client0)))
  /\ keyed empty_client.
Proof.
  apply (registry_stays_keyed clock0 0 "enable_dark_mode" "Dark mode" true
           (Some false) (VScalar (SBool true)) None None client0).
  exact client0_keyed.
Defined.

(** *** Updating a flag *)

(** X20.  [update_feature_flag] in local mode: for a key without flag
    it raises [ValueError] and changes nothing; for a registered flag it
    assigns the arguments that are not [None] - so a default value
    cannot be reset to [None] - and stamps [updated_at], leaving the
    other flags, the experiments and the evaluation log as they were.
    An update is not an evaluation: [last_evaluated] is unchanged.  A
    flag updated with [enabled = b] is on, for a caller without
    attributes, exactly when [b] is true. *)
Theorem update_feature_flag_effect (clk : clock) (n : nat) (k : string)
    (on : option bool) (default : pyval) (rs : option (list Rule))
    (c : GrowthBookClient) :
  local_mode c = true ->
  match dict_get k (_features c) with
  | None =>
      update_feature_flag clk n k on default rs c
      = Local (Raise ValueError, c, n)
  | Some f =>
      exists d c' n',
        update_feature_flag clk n k on default rs c = Local (Ok d, c', n')
        /\ dict_get k (_features c') = Some (updated (clk n) on default rs f)
        /\ (forall k', k' <> k ->
              dict_get k' (_features c') = dict_get k' (_features c))
        /\ _experiments c' = _experiments c
        /\ _evaluation_log c' = _evaluation_log c
        /\ fd_updatedAt d = clk n
        /\ fd_lastEvaluated d = last_evaluated f
        /\ fd_defaultValue d
           = (if is_not_none default then default else default_value f)
        /\ (forall b, on = Some b ->
              fst (fst (is_on clk n' k None c')) = Ok (VScalar (SBool b)))
  end.
Proof.
  intros Hlocal. unfold update_feature_flag, dict_mem, dict_item.
  rewrite Hlocal.
  destruct (dict_get k (_features c)) as [f |] eqn:Hget; [| reflexivity].
  cbn [negb]. unfold _feature_to_dict.
  destruct (is_stale clk (S n) (updated (clk n) on default rs f) 30)
    as [stale n'] eqn:Hstale.
  eexists. eexists. exists n'. split; [reflexivity |].
  cbn [_features set_features _experiments _evaluation_log fd_updatedAt
         fd_lastEvaluated fd_defaultValue updated updated_at last_evaluated
         default_value].
  rewrite dict_get_set_same.
  split; [reflexivity |].
  split; [intros k' Hne; apply dict_get_set_other; exact Hne |].
  repeat (split; [reflexivity |]).
  intros b ->.
  rewrite (is_on_value clk n' k None _ (updated (clk n) (Some b) default rs f)).
  - cbn [attributes_or_empty]. apply first_match_no_attributes.
  - exact Hlocal.
  - cbn [_features set_features]. apply dict_get_set_same.
Qed.

Lemma update_feature_flag_effect_witness :
  exists d c' n',
    update_feature_flag clock0 0 "enable_research_agent" (Some false)
      (VScalar SNone) None client0 = Local (Ok d, c', n')
    /\ fd_lastEvaluated d = last_evaluated recent_flag
    /\ fd_defaultValue d = VScalar (SBool true)
    /\ fst (fst (is_on clock0 n' "enable_research_agent" None c'))
       = Ok (VScalar (SBool false)).
Proof.
  destruct (update_feature_flag_effect clock0 0 "enable_research_agent"
              (Some false) (VScalar SNone) None client0 eq_refl)
    as (d & c' & n' & Hupdate & _ & _ & _ & _ & _ & Hlast & Hdefault & Hon).
  exists d, c', n'.
  split; [exact Hupdate |]. split; [exact Hlast |].
  split; [exact Hdefault |]. apply Hon. reflexivity.
Defined.

(** *** The life of an experiment *)

Lemma default_split_of_bucket (bucket : Z) :
  0 <= bucket < 100 ->
  exists q normalized,
    number_truediv (NInt bucket) (NFloat f_100) = Ok q
    /\ number_mul q (NInt 100) = Ok normalized
    /\ assign_loop default_variations (NInt 0) normalized
       = Ok (Some (Some (default_split bucket))).
Proof.
  intros Hb.
  assert (Hall : default_split_buckets = true) by (vm_compute; reflexivity).
  unfold default_split_buckets in Hall. rewrite forallb_forall in Hall.
  specialize (Hall (Z.to_nat bucket)). cbv beta zeta in Hall.
  rewrite Z2Nat.id in Hall by lia.
  assert (Hin : In (Z.to_nat bucket) (seq 0 100)) by (apply in_seq; lia).
  specialize (Hall Hin).
  destruct (number_truediv (NInt bucket) (NFloat f_100)) as [q | e] eqn:Hq;
    [| discriminate].
  destruct (number_mul q (NInt 100)) as [normalized | e] eqn:Hn;
    [| discriminate].
  exists q, normalized. split; [reflexivity |]. split; [exact Hn |].
  destruct (assign_loop default_variations (NInt 0) normalized)
    as [[[k |] |] | e]; try discriminate.
  apply String.eqb_eq in Hall. congruence.
Qed.

Lemma below_full_traffic (bucket : Z) :
  0 <= bucket < 100 -> number_geb (NInt bucket) (NFloat f_100) = false.
Proof.
  intros Hb. unfold number_geb, number_compare, compare_int_float, f_100.
  cbn [Z.leb Z.opp].
  destruct (bucket * 2 ^ 46 ?= 7036874417766400) eqn:E; try reflexivity.
  - apply Z.compare_eq_iff in E. lia.
  - apply Z.compare_gt_iff in E. lia.
Qed.

(** X21.  The life of an experiment created without variations over
    all of the traffic.  Once created it is a draft and assigns no user;
    creating it again under the same key makes it a draft again.  Once
    started it assigns every user: [control] to the buckets below 50 and
    [treatment] to the others.  Once stopped it assigns no user.  To
    start or to stop an experiment that does not exist raises
    [ValueError] and changes nothing. *)
Theorem default_experiment_life (clk : clock) (n : nat) (k name : string)
    (hypothesis : string) (metrics : option (list string))
    (c : GrowthBookClient) :
  local_mode c = true ->
  exists d c1 n1 d2 c2 n2 d3 c3 n3,
    create_experiment clk n k name hypothesis None metrics (NFloat f_100) c
    = Local (d, c1, n1)
    /\ start_experiment clk n1 k c1 = Local (Ok d2, c2, n2)
    /\ stop_experiment clk n2 k c2 = Local (Ok d3, c3, n3)
    /\ ed_status d = DRAFT /\ ed_status d2 = RUNNING
    /\ ed_status d3 = STOPPED
    /\ ed_startedAt d3 = Some (clk n1) /\ ed_endedAt d3 = Some (clk n2)
    /\ (forall user_id attributes,
          get_experiment_variant k user_id attributes c1 = Ok None)
    /\ (forall user_id attributes,
          get_experiment_variant k user_id attributes c2
          = Ok (Some (default_split (bucket_of k user_id))))
    /\ (forall user_id attributes,
          get_experiment_variant k user_id attributes c3 = Ok None)
    /\ (forall k' m c',
          local_mode c' = true ->
          dict_get k' (_experiments c') = None ->
          start_experiment clk m k' c' = Local (Raise ValueError, c', m)
          /\ stop_experiment clk m k' c' = Local (Raise ValueError, c', m)).
Proof.
  intros Hlocal. do 9 eexists.
  split.
  { unfold create_experiment. rewrite Hlocal. reflexivity. }
  split.
  { unfold start_experiment, dict_mem, dict_item.
    cbn [local_mode set_experiments _experiments]. rewrite Hlocal.
    rewrite dict_get_set_same. reflexivity. }
  split.
  { unfold stop_experiment, dict_mem, dict_item.
    cbn [local_mode set_experiments _experiments]. rewrite Hlocal.
    rewrite dict_get_set_same. reflexivity. }
  repeat (split; [reflexivity |]).
  split; [| split; [| split]].
  - intros user_id attributes. unfold get_experiment_variant.
    cbn [local_mode set_experiments _experiments]. rewrite Hlocal.
    rewrite dict_get_set_same. reflexivity.
  - intros user_id attributes. unfold get_experiment_variant.
    cbn [local_mode set_experiments _experiments]. rewrite Hlocal.
    rewrite dict_get_set_same.
    cbn [exp_status started ExperimentStatus_eqb negb exp_traffic_percent
           exp_variations].
    pose proof (bucket_range k user_id) as Hb.
    rewrite (below_full_traffic _ Hb).
    destruct (default_split_of_bucket _ Hb) as (q & nb & Hq & Hn & Hloop).
    rewrite Hq. cbn [bind]. rewrite Hn. cbn [bind]. rewrite Hloop.
    reflexivity.
  - intros user_id attributes. unfold get_experiment_variant.
    cbn [local_mode set_experiments _experiments]. rewrite Hlocal.
    rewrite dict_get_set_same. reflexivity.
  - intros k' m c' Hlocal' Hnone.
    unfold start_experiment, stop_experiment, dict_mem.
    rewrite Hlocal', Hnone. auto.
Qed.

Lemma default_experiment_life_witness :
  exists d c1 n1 d2 c2 n2,
    create_experiment clock0 0 "subject_line" "Subject line" "" None None
      (NFloat f_100) empty_client = Local (d, c1, n1)
    /\ start_experiment clock0 n1 "subject_line" c1 = Local (Ok d2, c2, n2)
    /\ forall user_id,
         get_experiment_variant "subject_line" user_id None c2
         = Ok (Some (default_split (bucket_of "subject_line" user_id))).
Proof.
  destruct (default_experiment_life clock0 0 "subject_line" "Subject line"
              "" None empty_client eq_refl)
    as (d & c1 & n1 & d2 & c2 & n2 & d3 & c3 & n3 & Hcreate & Hstart & _
        & _ & _ & _ & _ & _ & _ & Hrunning & _).
  exists d, c1, n1, d2, c2, n2.
  split; [exact Hcreate |]. split; [exact Hstart |].
  intros user_id. apply Hrunning.
Defined.

End RegistryFacts.

(** ** The feature check of an agent *)

Module BaseAgentFacts.
Import GrowthBook GrowthBookAdmin BaseAgent GrowthBookFacts.
Local Open Scope list_scope.

(** X22.  An agent whose feature flag is not registered never runs on
    the client of [growthbook_mcp]: [run_with_feature_check] returns the
    dict that reports the skip without calling [run_func], reading the
    clock or touching the client, whatever the context.  On the mock
    client, and for an agent without feature flag, it returns what
    [run_func] returns. *)
Theorem unregistered_flag_skips {A : Type} (clk : clock) (n : nat)
    (class_name k : string) (run_func : result A)
    (context : option AgentRunContext) (c : GrowthBookClient) :
  Str.is_empty k = false ->
  dict_get k (_features c) = None ->
  run_with_feature_check clk n class_name (Some k) run_func context (Client c)
  = (Ok (Skipped (Some k) class_name), Client c, n)
  /\ run_with_feature_check clk n class_name (Some k) run_func context
       _MockGrowthBook
     = (a <- run_func ;; Ok (Ran a), _MockGrowthBook, n)
  /\ run_with_feature_check clk n class_name None run_func context (Client c)
     = (a <- run_func ;; Ok (Ran a), Client c, n).
Proof.
  intros Hk Hnone. unfold run_with_feature_check, should_run.
  rewrite Hk. unfold is_on. rewrite Hnone.
  repeat split. destruct (local_mode c); reflexivity.
Qed.

Lemma unregistered_flag_skips_witness :
  run_with_feature_check clock0 0 "NegotiationAgent"
    (Some "enable_negotiation_agent") (Ok 7) None (Client client0)
  = (Ok (Skipped (Some "enable_negotiation_agent") "NegotiationAgent"),
     Client client0, 0%nat).
Proof.
  apply (unregistered_flag_skips clock0 0 "NegotiationAgent"
           "enable_negotiation_agent" (Ok 7) None client0);
    reflexivity.
Defined.

(** X23.  Without a context [should_run] passes no attribute, and the
    client then skips the targeting rules: the agent runs exactly when
    its flag is enabled, whatever the rules of the flag.  With a context
    the rules are evaluated in order against the workspace id, and the
    user id when there is one. *)
Theorem should_run_without_context (clk : clock) (n : nat) (k : string)
    (c : GrowthBookClient) (f : FeatureFlag) :
  Str.is_empty k = false ->
  local_mode c = true ->
  dict_get k (_features c) = Some f ->
  fst (fst (should_run clk n (Some k) None (Client c)))
  = Ok (VScalar (SBool (enabled f)))
  /\ forall context,
       fst (fst (should_run clk n (Some k) (Some context) (Client c)))
       = first_match (rules f) (run_attributes (Some context)) (enabled f)
       /\ dict_get "workspace_id" (run_attributes (Some context))
          = Some (SStr (ctx_workspace_id context))
       /\ dict_get "user_id" (run_attributes (Some context))
          = match ctx_user_id context with
            | Some user_id =>
                if Str.is_empty user_id then None else Some (SStr user_id)
            | None => None
            end.
Proof.
  intros Hk Hlocal Hget. unfold should_run. rewrite Hk. split.
  - pose proof (is_on_value clk n k (Some (run_attributes None)) c f Hlocal
                  Hget) as Hvalue.
    destruct (is_on clk n k (Some (run_attributes None)) c) as [[v c'] n'].
    cbn [fst] in Hvalue |- *. rewrite Hvalue.
    apply first_match_no_attributes.
  - intros context.
    pose proof (is_on_value clk n k (Some (run_attributes (Some context))) c f
                  Hlocal Hget) as Hvalue.
    destruct (is_on clk n k (Some (run_attributes (Some context))) c)
      as [[v c'] n'].
    cbn [fst] in Hvalue |- *. rewrite Hvalue.
    split; [reflexivity |]. unfold run_attributes.
    destruct (ctx_user_id context) as [u |]; [| split; reflexivity].
    destruct (Str.is_empty u); split; reflexivity.
Qed.

Lemma should_run_without_context_witness :
  fst (fst (should_run clock0 0 (Some "enable_timing_agent") None
              (Client client0)))
  = Ok (VScalar (SBool true)).
Proof.
  apply (should_run_without_context clock0 0 "enable_timing_agent" client0
           unused_flag); reflexivity.
Defined.

End BaseAgentFacts.

(** ** The n8n gateway and the event route *)

Module GatewayFacts.
Import GTM Notions N8N RunFacts.

Lemma rstrip_slash_app (s : string) :
  rstrip_slash (s ++ "/") = rstrip_slash s.
Proof.
  induction s as [| c s IH]; [reflexivity |].
  cbn [append rstrip_slash]. rewrite IH. reflexivity.
Qed.

Lemma rstrip_slash_end (s b : string) : rstrip_slash s <> (b ++ "/")%string.
Proof.
  revert b. induction s as [| c s IH]; intros b.
  - destruct b; discriminate.
  - cbn [rstrip_slash].
    destruct (rstrip_slash s) as [| c' r] eqn:E.
    + destruct (Ascii.eqb_spec c "/"%char) as [-> | Hne].
      * destruct b; discriminate.
      * destruct b as [| c0 [| c1 b]]; cbn; congruence.
    + destruct b as [| c0 b]; cbn; [congruence |].
      intros H. injection H as _ H. exact (IH b H).
Qed.

Lemma lstrip_slash_start (s : string) :
  String.prefix "/" (lstrip_slash s) = false.
Proof.
  induction s as [| c s IH]; [reflexivity |].
  cbn [lstrip_slash].
  destruct (Ascii.eqb_spec c "/"%char) as [-> | Hne]; [exact IH |].
  cbn [String.prefix].
  destruct (Ascii.ascii_dec "/"%char c) as [E | _]; [congruence | reflexivity].
Qed.

(** X25.  The gateway joins its base URL and a relative webhook path
    with exactly one slash: the URL is the base without its trailing
    slashes, a slash, and the path without its leading slashes, so that
    a slash more at the end of the base or at the start of the path
    gives the same URL.  A base made of slashes only counts as not set
    and raises [ValueError], even when [N8N_BASE_URL] is set; a path
    that starts with [http] is the URL, with or without a base. *)
Theorem webhook_url_joins (base path : string)
    (key env_base env_key : option string) :
  Str.is_empty base = false ->
  String.prefix "http" path = false ->
  let gateway := new_gateway (Some base) key env_base env_key in
  webhook_url (new_gateway (Some (base ++ "/")) key env_base env_key) path
  = webhook_url gateway path
  /\ webhook_url gateway ("/" ++ path) = webhook_url gateway path
  /\ (rstrip_slash base = "" -> webhook_url gateway path = Raise ValueError)
  /\ (rstrip_slash base <> "" ->
      webhook_url gateway path
      = Ok (rstrip_slash base ++ "/" ++ lstrip_slash path))
  /\ (forall b, rstrip_slash base <> (b ++ "/")%string)
  /\ String.prefix "/" (lstrip_slash path) = false
  /\ (forall absolute g,
        String.prefix "http" absolute = true ->
        webhook_url g absolute = Ok absolute).
Proof.
  intros Hbase Hpath gateway. subst gateway.
  unfold webhook_url, new_gateway, str_or. cbn [base_url].
  rewrite Hbase, Hpath.
  assert (Hmore : Str.is_empty (base ++ "/") = false)
    by (destruct base; reflexivity).
  rewrite Hmore, rstrip_slash_app.
  assert (Hslash : String.prefix "http" ("/" ++ path) = false) by reflexivity.
  rewrite Hslash.
  split; [reflexivity |]. split; [reflexivity |].
  split; [intros ->; reflexivity |].
  split.
  { intros Hne. destruct (rstrip_slash base); [congruence | reflexivity]. }
  split; [apply rstrip_slash_end |].
  split; [apply lstrip_slash_start |].
  intros absolute g ->. reflexivity.
Qed.

Lemma webhook_url_joins_witness :
  webhook_url (new_gateway (Some "http://n8n:5678/") None None None)
    "webhooks/route_and_sla"
  = Ok "http://n8n:5678/webhooks/route_and_sla".
Proof.
  destruct (webhook_url_joins "http://n8n:5678/" "webhooks/route_and_sla"
              None None None eq_refl eq_refl)
    as (_ & _ & _ & Hjoin & _).
  apply Hjoin. discriminate.
Defined.

(** *** Executing the actions of a run *)

Lemma stage_hook_relative (hook : string) :
  In hook stage_hooks -> String.prefix "http" hook = false.
Proof.
  intros Hin. cbn in Hin.
  repeat (destruct Hin as [<- | Hin]; [reflexivity |]).
  destruct Hin.
Qed.

Section Exchange.
Variable post : string -> json -> dict string -> result (option json).

Lemma execute_webhook (gateway : N8NGateway) (hook : string)
    (body : list (string * json)) :
  execute post gateway (webhook hook body)
  = (r <- trigger_webhook post gateway hook (JDict body) ;; Ok (Some r)).
Proof. reflexivity. Qed.

Lemma execute_all_without_base (gateway : N8NGateway) (ws : string)
    (todo executed : list json) :
  base_url gateway = "" ->
  Forall (webhook_for ws) todo ->
  execute_all post gateway todo executed
  = match todo with
    | [] => Ok executed
    | _ => Raise ValueError
    end.
Proof.
  intros Hbase Hall. destruct Hall as [| action rest Haction _];
    [reflexivity |].
  destruct Haction as (hook & body & -> & Hhook & _).
  cbn [execute_all]. rewrite execute_webhook.
  unfold trigger_webhook, webhook_url.
  rewrite (stage_hook_relative hook Hhook), Hbase. reflexivity.
Qed.

Lemma execute_all_length (gateway : N8NGateway) (ws : string)
    (todo : list json) :
  Forall (webhook_for ws) todo ->
  forall executed out,
    execute_all post gateway todo executed = Ok out ->
    List.length out = (List.length executed + List.length todo)%nat.
Proof.
  induction 1 as [| action rest Haction _ IH]; intros executed out H.
  - cbn in H. injection H as <-. cbn. lia.
  - destruct Haction as (hook & body & -> & _ & _).
    cbn [execute_all] in H. rewrite execute_webhook in H.
    bind_inv H. bind_inv Hx. injection Hx as <-.
    apply IH in H. rewrite H, length_app. cbn. lia.
Qed.

(** X26.  Executing the actions of a run without a base URL for n8n:
    when [N8N_BASE_URL] is not set, or holds nothing but slashes, the
    route with [execute_actions] raises [ValueError] as soon as the run
    has an action, before anything is posted, because every action of
    the pipeline names a relative path; a run without action returns
    with an empty [executed] list. *)
Theorem execute_without_base_url (file : config_file) (langgraph : bool)
    (env_base_url env_api_key : option string) (now : datetime)
    (evt : GTMEvent) (final : GTMState) :
  execute_actions evt = true ->
  base_url (new_gateway None None env_base_url env_api_key) = "" ->
  handle_event file (new_orchestrator file langgraph) (evt_workspace_id evt)
    (evt_event_type evt) (evt_payload evt) now = Ok final ->
  route_handle_event post file langgraph env_base_url env_api_key now evt
  = match actions final with
    | [] => Ok (final, Some [])
    | _ => Raise ValueError
    end.
Proof.
  intros Hexec Hbase Hrun. unfold route_handle_event.
  rewrite Hrun, Hexec. cbn [bind].
  rewrite (execute_all_without_base _ (evt_workspace_id evt) _ _ Hbase
             (run_webhooks _ _ _ _ _ _ _ Hrun)).
  destruct (actions final); reflexivity.
Qed.

(** X27.  The route executes every action of the run: when it returns
    with [execute_actions], the state is the one [handle_event]
    returned and [executed] holds one response for each action, none
    being skipped; without [execute_actions] it returns the state and
    posts nothing. *)
Theorem route_executes_every_action (file : config_file) (langgraph : bool)
    (env_base_url env_api_key : option string) (now : datetime)
    (evt : GTMEvent) (state : GTMState) (executed : option (list json)) :
  route_handle_event post file langgraph env_base_url env_api_key now evt
  = Ok (state, executed) ->
  handle_event file (new_orchestrator file langgraph) (evt_workspace_id evt)
    (evt_event_type evt) (evt_payload evt) now = Ok state
  /\ if execute_actions evt
     then exists responses,
         executed = Some responses
         /\ List.length responses = List.length (actions state)
     else executed = None.
Proof.
  unfold route_handle_event. intros H. bind_inv H.
  destruct (execute_actions evt).
  - bind_inv H. injection H as <- <-. split; [exact Hx |].
    exists x0. split; [reflexivity |].
    apply (execute_all_length _ (evt_workspace_id evt)) in Hx0;
      [exact Hx0 | exact (run_webhooks _ _ _ _ _ _ _ Hx)].
  - injection H as <- <-. auto.
Qed.
End Exchange.

Lemma execute_without_base_url_witness :
  route_handle_event silent_server acme_file true None None 0
    {| evt_workspace_id := "acme"; evt_event_type := "lead_created";
       evt_payload := lead_payload; execute_actions := true |}
  = Raise ValueError.
Proof.
  destruct (handle_event acme_file (new_orchestrator acme_file true) "acme"
              "lead_created" lead_payload 0) as [final | e] eqn:Hrun.
  - rewrite (execute_without_base_url silent_server acme_file true None None 0
               {| evt_workspace_id := "acme"; evt_event_type := "lead_created";
                  evt_payload := lead_payload; execute_actions := true |}
               final eq_refl eq_refl Hrun).
    vm_compute in Hrun. injection Hrun as <-. reflexivity.
  - vm_compute in Hrun. discriminate Hrun.
Defined.

Lemma route_executes_every_action_witness :
  exists state responses,
    route_handle_event silent_server acme_file true (Some "http://n8n:5678")
      None 0
      {| evt_workspace_id := "acme"; evt_event_type := "lead_created";
         evt_payload := lead_payload; execute_actions := true |}
    = Ok (state, Some responses)
    /\ List.length responses = List.length (actions state).
Proof.
  destruct (route_handle_event silent_server acme_file true
              (Some "http://n8n:5678") None 0
              {| evt_workspace_id := "acme"; evt_event_type := "lead_created";
                 evt_payload := lead_payload; execute_actions := true |})
    as [[state executed] | e] eqn:Hroute;
    [| vm_compute in Hroute; discriminate Hroute].
  destruct (route_executes_every_action silent_server acme_file true
              (Some "http://n8n:5678") None 0 _ state executed Hroute)
    as [_ (responses & -> & Hlength)].
  exists state, responses. auto.
Defined.

End GatewayFacts.
